(** * MPS: the material planning server and its weekly balance projection

    A shallow embedding of the Express handlers of [server.js] (both
    versions found in the repository), of the tables of [schema.sql] they
    read and write, and of the weekly balance projection described by the
    README and the specification.

    Conventions.
    - Ids, years and weeks are integers ([Z]).
    - Quantities are DECIMAL(18,3) columns: exact fixed-point numbers.  The
      server model counts them in thousandths, so they are integers too; the
      change of unit keeps zero, sums and differences.
    - A JavaScript value read from a request is a [JsVal]; [truthy] is the
      test behind [!x] and [x || y]. *)

From Stdlib Require Import ZArith List String Ascii Bool Lia Permutation QArith.
From Stdlib Require Import Sorted.
Import ListNotations.
Open Scope Z_scope.

(* ================================================================== *)
(** * JavaScript values, truthiness and [parseInt] *)
(* ================================================================== *)

Module Js.

(** The values a request can carry.  [JNum] holds a number in the units of
    the model: an integer for an id, a year or a week, a count of
    thousandths for a quantity.  [JFraction] is any other number but NaN (a
    fraction of a unit, hence not zero), [JNaN] the result of a failed
    [parseInt], [JObj] any object or array (always truthy, otherwise
    opaque). *)
Inductive JsVal : Type :=
  | JUndefined
  | JNull
  | JBool (b : bool)
  | JNum (n : Z)
  | JNaN
  | JStr (s : string)
  | JObj
  | JFraction.

(** [!!v] *)
Definition truthy (v : JsVal) : bool :=
  match v with
  | JUndefined | JNull | JNaN => false
  | JBool b => b
  | JNum n => negb (n =? 0)
  | JStr s => negb (String.eqb s "")
  | JObj | JFraction => true
  end.

(** [a || b] *)
Definition or (a b : JsVal) : JsVal := if truthy a then a else b.

(** Characters are code units below 256.  StrWhiteSpaceChar restricted to
    them: TAB, LF, VT, FF, CR, SP and NBSP. *)
Definition isWhiteSpace (c : ascii) : bool :=
  let n := nat_of_ascii c in
  existsb (Nat.eqb n) [9; 10; 11; 12; 13; 32; 160]%nat.

Definition isDigit (c : ascii) : bool :=
  let n := nat_of_ascii c in
  (48 <=? n)%nat && (n <=? 57)%nat.

Definition digitValue (c : ascii) : Z := Z.of_nat (nat_of_ascii c) - 48.

Fixpoint trimStart (s : string) : string :=
  match s with
  | String c r => if isWhiteSpace c then trimStart r else s
  | EmptyString => s
  end.

(** The value of the longest prefix of decimal digits, [None] when the
    prefix is empty; [acc] is the value read so far. *)
Fixpoint digits (s : string) (acc : option Z) : option Z :=
  match s with
  | String c r =>
      if isDigit c
      then digits r (Some (10 * match acc with Some a => a | None => 0 end
                           + digitValue c))
      else acc
  | EmptyString => acc
  end.

(** An optional sign: its value and the rest of the text. *)
Definition signOf (s : string) : Z * string :=
  match s with
  | String "-"%char r => (-1, r)
  | String "+"%char r => (1, r)
  | _ => (1, s)
  end.

(** [parseInt(s, 10)]: leading white space, an optional sign, then the
    longest run of digits; whatever follows the digits is ignored. *)
Definition parseInt (s : string) : JsVal :=
  let (sign, rest) := signOf (trimStart s) in
  match digits rest None with
  | None => JNaN
  | Some n => JNum (sign * n)
  end.

(** [const parseIntSafe = (v) =>
      v === undefined || v === null || v === "" ? null : parseInt(v, 10);]
    applied to a query or route parameter: absent ([None]) or a text. *)
Definition parseIntSafe (v : option string) : JsVal :=
  match v with
  | None => JNull
  | Some s => if String.eqb s "" then JNull else parseInt s
  end.

(** [String.prototype.toUpperCase] and T-SQL [UPPER] on the letters a-z. *)
Definition upperChar (c : ascii) : ascii :=
  let n := nat_of_ascii c in
  if ((97 <=? n)%nat && (n <=? 122)%nat)%bool
  then ascii_of_nat (n - 32) else c.

Fixpoint toUpperCase (s : string) : string :=
  match s with
  | EmptyString => EmptyString
  | String c r => String (upperChar c) (toUpperCase r)
  end.

End Js.
Import Js.

(* ================================================================== *)
(** * The store: tables of [schema.sql] *)
(* ================================================================== *)

Module Sql.

(** The column and parameter types the handlers name. *)
Inductive SqlType : Type :=
  | Int            (* sql.Int, INT *)
  | SmallInt       (* sql.SmallInt, SMALLINT *)
  | TinyInt        (* sql.TinyInt, TINYINT *)
  | Decimal18_3.   (* sql.Decimal(18, 3), counted in thousandths *)

Definition inRange (ty : SqlType) (n : Z) : bool :=
  match ty with
  | Int => (-2147483648 <=? n) && (n <=? 2147483647)
  | SmallInt => (-32768 <=? n) && (n <=? 32767)
  | TinyInt => (0 <=? n) && (n <=? 255)
  | Decimal18_3 => (-(10 ^ 18) <? n) && (n <? 10 ^ 18)
  end.

(** How the database compares character data.  [schema.sql] creates the
    database without a COLLATE clause, so the collation is the server's:
    a property of the store, not of the code. *)
Inductive Collation : Type := CaseInsensitive | CaseSensitive.

(** T-SQL [a = b] on character data, on the texts as stored (the blank
    padding of T-SQL comparisons is left out). *)
Definition strEq (c : Collation) (a b : string) : bool :=
  match c with
  | CaseSensitive => String.eqb a b
  | CaseInsensitive => String.eqb (toUpperCase a) (toUpperCase b)
  end.

(** T-SQL [a IN (b1, ..., bn)]. *)
Definition strIn (c : Collation) (a : string) (bs : list string) : bool :=
  existsb (strEq c a) bs.

(** ItemType CHAR(1): 'P' = Product, 'M' = Material. *)
Inductive ItemType : Type := P | M.

Definition itemType_eqb (a b : ItemType) : bool :=
  match a, b with
  | P, P | M, M => true
  | _, _ => false
  end.

End Sql.
Import Sql.

(** Products: ProductId is the primary key. *)
Module Products.
Record row : Type := mk
  { ProductId : Z; ProductCode : string; ProductName : string }.
End Products.

(** OpeningBalances, with UNIQUE(ItemType, ItemId) and
    CHECK (StartWeek >= 1 AND StartWeek <= 53). *)
Module OpeningBalances.
Record row : Type := mk
  { ItemType : Sql.ItemType; ItemId : Z;
    StartYear : Z; StartWeek : Z; BalanceQty : Z }.
End OpeningBalances.

(** SalesPlans, with UNIQUE(ProductId, PlanYear, PlanWeek),
    CHECK (PlanWeek >= 1 AND PlanWeek <= 53) and a foreign key to Products. *)
Module SalesPlans.
Record row : Type := mk
  { ProductId : Z; PlanYear : Z; PlanWeek : Z; ShipQty : Z }.
End SalesPlans.

(** ProductionOrders; Status is INITIAL, ACTIVE or COMPLETE. *)
Module ProductionOrders.
Record row : Type := mk
  { ProductId : Z; Quantity : Z; PlanYear : Z; PlanWeek : Z;
    Status : string }.
End ProductionOrders.

(** PurchaseOrders; Status is INITIAL, CONFIRM, RECEIVED or CANCELLED. *)
Module PurchaseOrders.
Record row : Type := mk { PurchaseOrderId : Z; Status : string }.
End PurchaseOrders.

(** PurchaseOrderLines, each owned by a purchase order. *)
Module PurchaseOrderLines.
Record row : Type := mk
  { PurchaseOrderId : Z; MaterialId : Z; Quantity : Z;
    EtaYear : Z; EtaWeek : Z }.
End PurchaseOrderLines.

(** The database.  Surrogate keys that no handler of interest reads
    (OpeningBalanceId, SalesPlanId, ...) and the CreatedAt / UpdatedAt
    stamps are left out. *)
Record Store : Type := mkStore
  { collation : Collation;
    products : list Products.row;
    openingBalances : list OpeningBalances.row;
    salesPlans : list SalesPlans.row;
    productionOrders : list ProductionOrders.row;
    purchaseOrders : list PurchaseOrders.row;
    purchaseOrderLines : list PurchaseOrderLines.row }.

Definition withOpeningBalances (s : Store) (t : list OpeningBalances.row) : Store :=
  mkStore (collation s) (products s) t (salesPlans s) (productionOrders s)
          (purchaseOrders s) (purchaseOrderLines s).

Definition withSalesPlans (s : Store) (t : list SalesPlans.row) : Store :=
  mkStore (collation s) (products s) (openingBalances s) t (productionOrders s)
          (purchaseOrders s) (purchaseOrderLines s).

(** The seed data of [schema.sql]. *)
Definition seed (c : Collation) : Store :=
  {| collation := c;
     products :=
       [ Products.mk 1 "589" "Thanh pham A";
         Products.mk 2 "990" "Thanh pham B";
         Products.mk 3 "P001" "San pham mau 1" ];
     openingBalances :=
       [ OpeningBalances.mk P 1 2025 47 20000;
         OpeningBalances.mk P 2 2025 47 50000;
         OpeningBalances.mk M 1 2025 47 10000;
         OpeningBalances.mk M 2 2025 47 10000;
         OpeningBalances.mk M 3 2025 47 10000 ];
     salesPlans := [];
     productionOrders :=
       [ ProductionOrders.mk 1 5000 2025 48 "ACTIVE";
         ProductionOrders.mk 1 5000 2025 49 "ACTIVE";
         ProductionOrders.mk 2 3000 2025 49 "COMPLETE";
         ProductionOrders.mk 1 10000 2025 50 "INITIAL" ];
     purchaseOrders :=
       [ PurchaseOrders.mk 1 "CONFIRM";
         PurchaseOrders.mk 2 "CONFIRM";
         PurchaseOrders.mk 3 "INITIAL" ];
     purchaseOrderLines :=
       [ PurchaseOrderLines.mk 1 1 5000 2025 49;
         PurchaseOrderLines.mk 2 2 5000 2025 49;
         PurchaseOrderLines.mk 2 3 5000 2025 49 ] |}.

(* ================================================================== *)
(** * T-SQL expressions: three-valued logic, grouping, ordering *)
(* ================================================================== *)

Module Tsql.

(** A truth value of a WHERE or ON clause: [None] is UNKNOWN. *)
Definition tri : Type := option bool.

Definition and3 (a b : tri) : tri :=
  match a, b with
  | Some false, _ | _, Some false => Some false
  | Some true, Some true => Some true
  | _, _ => None
  end.

Definition or3 (a b : tri) : tri :=
  match a, b with
  | Some true, _ | _, Some true => Some true
  | Some false, Some false => Some false
  | _, _ => None
  end.

(** A row is kept by WHERE, or matched by ON, when the clause is TRUE. *)
Definition isTrue (t : tri) : bool :=
  match t with Some true => true | _ => false end.

(** Comparisons of a NOT NULL column with a parameter ([None] is NULL). *)
Definition cmp3 (f : Z -> Z -> bool) (col : Z) (p : option Z) : tri :=
  match p with Some v => Some (f col v) | None => None end.

Definition eq3 := cmp3 Z.eqb.
Definition gt3 := cmp3 Z.gtb.
Definition ge3 := cmp3 Z.geb.
Definition lt3 := cmp3 Z.ltb.
Definition le3 := cmp3 Z.leb.

(** [@p IS NULL] *)
Definition isNull (p : option Z) : tri :=
  Some (match p with None => true | Some _ => false end).

(** [(Year > @fromYear OR (Year = @fromYear AND Week >= @fromWeek))] *)
Definition notBefore (y w : Z) (fromYear fromWeek : option Z) : tri :=
  or3 (gt3 y fromYear) (and3 (eq3 y fromYear) (ge3 w fromWeek)).

(** [(Year < @toYear OR (Year = @toYear AND Week <= @toWeek))] *)
Definition notAfter (y w : Z) (toYear toWeek : option Z) : tri :=
  or3 (lt3 y toYear) (and3 (eq3 y toYear) (le3 w toWeek)).

(** A grouping key (item id, year, week). *)
Definition Key : Type := (Z * Z * Z)%type.

Definition key_eqb (a b : Key) : bool :=
  let '(a1, a2, a3) := a in
  let '(b1, b2, b3) := b in
  (a1 =? b1) && (a2 =? b2) && (a3 =? b3).

(** The distinct keys, each at its first occurrence. *)
Fixpoint distinct (ks : list Key) : list Key :=
  match ks with
  | [] => []
  | k :: r => k :: filter (fun k' => negb (key_eqb k k')) (distinct r)
  end.

Definition sum (l : list Z) : Z := fold_right Z.add 0 l.

(** The members of the group of [k]. *)
Definition group (k : Key) (rows : list (Key * Z)) : list (Key * Z) :=
  filter (fun r => key_eqb (fst r) k) rows.

(** [SELECT key, SUM(qty) ... GROUP BY key]: one row per distinct key,
    carrying the sum over the members of its group.  T-SQL leaves the order
    of the groups open; they are listed by first occurrence. *)
Definition groupBySum (rows : list (Key * Z)) : list (Key * Z) :=
  map (fun k => (k, sum (map snd (group k rows)))) (distinct (map fst rows)).

(** [ORDER BY Year, Week] as a stable insertion sort. *)
Definition weekLe (a b : Key * Z) : bool :=
  let '(_, ya, wa) := fst a in
  let '(_, yb, wb) := fst b in
  (ya <? yb) || ((ya =? yb) && (wa <=? wb)).

Fixpoint insertRow (r : Key * Z) (l : list (Key * Z)) : list (Key * Z) :=
  match l with
  | [] => [r]
  | h :: t => if weekLe r h then r :: l else h :: insertRow r t
  end.

Definition orderByWeek (l : list (Key * Z)) : list (Key * Z) :=
  fold_right insertRow [] l.

End Tsql.
Import Tsql.

(* ================================================================== *)
(** * The statements the handlers send *)
(* ================================================================== *)

(** A row of the result of GET /api/production ([item] is its [productId]
    column) or of GET /api/purchase ([item] is its [materialId] column). *)
Record QtyRow : Type := mkQtyRow { item : Z; year : Z; week : Z; qty : Z }.

Definition toQtyRow (r : Key * Z) : QtyRow :=
  let '(i, y, w) := fst r in mkQtyRow i y w (snd r).

Definition rowKey (r : QtyRow) : Key := (item r, year r, week r).

(** Which of the two [server.js] files of the repository is running. *)
Inductive ServerVersion : Type := V1 | V2.

Module Statement.

(** [SELECT StartYear AS year, StartWeek AS week, BalanceQty AS balance
     FROM OpeningBalances WHERE ItemType = @itemType AND ItemId = @itemId] *)
Definition selectOpeningBalance (s : Store) (itemType : ItemType)
    (itemId : option Z) : list (Z * Z * Z) :=
  map (fun r => (OpeningBalances.StartYear r, OpeningBalances.StartWeek r,
                 OpeningBalances.BalanceQty r))
      (filter (fun r =>
                 isTrue (and3 (Some (itemType_eqb (OpeningBalances.ItemType r) itemType))
                              (eq3 (OpeningBalances.ItemId r) itemId)))
              (openingBalances s)).

(** The ON clause of the MERGE into OpeningBalances. *)
Definition onOpeningBalance (itemType : ItemType) (itemId : Z)
    (r : OpeningBalances.row) : bool :=
  itemType_eqb (OpeningBalances.ItemType r) itemType
  && (OpeningBalances.ItemId r =? itemId).

(** [MERGE OpeningBalances AS target
     USING (SELECT @itemType AS ItemType, @itemId AS ItemId) AS src
     ON target.ItemType = src.ItemType AND target.ItemId = src.ItemId
     WHEN MATCHED THEN UPDATE SET StartYear=..., StartWeek=..., BalanceQty=...
     WHEN NOT MATCHED THEN INSERT (...) VALUES (...)]
    The statement fails ([None]) when a NULL reaches a NOT NULL column or
    the CHECK on StartWeek is violated; a failed statement changes nothing. *)
Definition mergeOpeningBalance (s : Store) (itemType : ItemType)
    (itemId startYear startWeek balanceQty : option Z) : option Store :=
  match itemId, startYear, startWeek, balanceQty with
  | Some i, Some y, Some w, Some q =>
      if (1 <=? w) && (w <=? 53) then
        let t := openingBalances s in
        Some (withOpeningBalances s
                (if existsb (onOpeningBalance itemType i) t
                 then map (fun r => if onOpeningBalance itemType i r
                                    then OpeningBalances.mk
                                           (OpeningBalances.ItemType r)
                                           (OpeningBalances.ItemId r) y w q
                                    else r) t
                 else t ++ [OpeningBalances.mk itemType i y w q]))
      else None
  | _, _, _, _ => None
  end.

(** WHERE clause of the production query. *)
Definition whereProduction (c : Collation)
    (productId fromYear fromWeek toYear toWeek : option Z)
    (r : ProductionOrders.row) : bool :=
  isTrue
    (and3 (and3 (and3
       (Some (strIn c (toUpperCase (ProductionOrders.Status r)) ["ACTIVE"; "COMPLETE"]%string))
       (notBefore (ProductionOrders.PlanYear r) (ProductionOrders.PlanWeek r) fromYear fromWeek))
       (notAfter (ProductionOrders.PlanYear r) (ProductionOrders.PlanWeek r) toYear toWeek))
       (or3 (isNull productId) (eq3 (ProductionOrders.ProductId r) productId))).

Definition productionKeyQty (r : ProductionOrders.row) : Key * Z :=
  ((ProductionOrders.ProductId r, ProductionOrders.PlanYear r,
    ProductionOrders.PlanWeek r), ProductionOrders.Quantity r).

(** [SELECT ProductId AS productId, PlanYear AS year, PlanWeek AS week,
            SUM(Quantity) AS qty
     FROM ProductionOrders
     WHERE UPPER(Status) IN ('ACTIVE','COMPLETE')
       AND (PlanYear > @fromYear OR (PlanYear = @fromYear AND PlanWeek >= @fromWeek))
       AND (PlanYear < @toYear OR (PlanYear = @toYear AND PlanWeek <= @toWeek))
       AND (@productId IS NULL OR ProductId = @productId)
     GROUP BY ProductId, PlanYear, PlanWeek
     ORDER BY PlanYear, PlanWeek] *)
Definition selectProduction (s : Store)
    (productId fromYear fromWeek toYear toWeek : option Z) : list QtyRow :=
  map toQtyRow
    (orderByWeek
       (groupBySum
          (map productionKeyQty
             (filter (whereProduction (collation s) productId fromYear fromWeek toYear toWeek)
                     (productionOrders s))))).

(** The status test of the purchase query:
    [po.Status = 'CONFIRM'] in the first [server.js],
    [UPPER(po.Status) = 'CONFIRM'] in the second. *)
Definition confirmed (v : ServerVersion) (c : Collation) (status : string) : bool :=
  match v with
  | V1 => strEq c status "CONFIRM"
  | V2 => strEq c (toUpperCase status) "CONFIRM"
  end.

(** [PurchaseOrderLines pol JOIN PurchaseOrders po
       ON po.PurchaseOrderId = pol.PurchaseOrderId] *)
Definition joinPurchase (s : Store)
    : list (PurchaseOrderLines.row * PurchaseOrders.row) :=
  flat_map (fun pol =>
              map (fun po => (pol, po))
                  (filter (fun po => PurchaseOrders.PurchaseOrderId po
                                     =? PurchaseOrderLines.PurchaseOrderId pol)
                          (purchaseOrders s)))
           (purchaseOrderLines s).

Definition wherePurchase (v : ServerVersion) (c : Collation)
    (materialId fromYear fromWeek toYear toWeek : option Z)
    (r : PurchaseOrderLines.row * PurchaseOrders.row) : bool :=
  let (pol, po) := r in
  isTrue
    (and3 (and3 (and3
       (Some (confirmed v c (PurchaseOrders.Status po)))
       (notBefore (PurchaseOrderLines.EtaYear pol) (PurchaseOrderLines.EtaWeek pol) fromYear fromWeek))
       (notAfter (PurchaseOrderLines.EtaYear pol) (PurchaseOrderLines.EtaWeek pol) toYear toWeek))
       (or3 (isNull materialId) (eq3 (PurchaseOrderLines.MaterialId pol) materialId))).

Definition purchaseKeyQty (r : PurchaseOrderLines.row * PurchaseOrders.row) : Key * Z :=
  let pol := fst r in
  ((PurchaseOrderLines.MaterialId pol, PurchaseOrderLines.EtaYear pol,
    PurchaseOrderLines.EtaWeek pol), PurchaseOrderLines.Quantity pol).

(** [SELECT pol.MaterialId AS materialId, pol.EtaYear AS year,
            pol.EtaWeek AS week, SUM(pol.Quantity) AS qty
     FROM PurchaseOrderLines pol JOIN PurchaseOrders po ON ...
     WHERE <status test>
       AND (pol.EtaYear > @fromYear OR ...) AND (pol.EtaYear < @toYear OR ...)
       AND (@materialId IS NULL OR pol.MaterialId = @materialId)
     GROUP BY pol.MaterialId, pol.EtaYear, pol.EtaWeek] *)
Definition selectPurchase (v : ServerVersion) (s : Store)
    (materialId fromYear fromWeek toYear toWeek : option Z) : list QtyRow :=
  map toQtyRow
    (groupBySum
       (map purchaseKeyQty
          (filter (wherePurchase v (collation s) materialId fromYear fromWeek toYear toWeek)
                  (joinPurchase s)))).

(** [SELECT PlanYear AS year, PlanWeek AS week, ShipQty AS qty
     FROM SalesPlans
     WHERE ProductId = @productId AND (PlanYear > @fromYear OR ...)
       AND (PlanYear < @toYear OR ...)] *)
Definition selectSalesPlan (s : Store)
    (productId fromYear fromWeek toYear toWeek : option Z) : list (Z * Z * Z) :=
  map (fun r => (SalesPlans.PlanYear r, SalesPlans.PlanWeek r, SalesPlans.ShipQty r))
      (filter (fun r =>
                 isTrue
                   (and3 (and3
                      (eq3 (SalesPlans.ProductId r) productId)
                      (notBefore (SalesPlans.PlanYear r) (SalesPlans.PlanWeek r) fromYear fromWeek))
                      (notAfter (SalesPlans.PlanYear r) (SalesPlans.PlanWeek r) toYear toWeek)))
              (salesPlans s)).

(** The ON clause of the MERGE into SalesPlans. *)
Definition onSalesPlan (productId year week : Z) (r : SalesPlans.row) : bool :=
  (SalesPlans.ProductId r =? productId)
  && (SalesPlans.PlanYear r =? year)
  && (SalesPlans.PlanWeek r =? week).

(** [MERGE SalesPlans AS target
     USING (SELECT @productId AS ProductId, @year AS PlanYear, @week AS PlanWeek) AS src
     ON target.ProductId = src.ProductId AND target.PlanYear = src.PlanYear
        AND target.PlanWeek = src.PlanWeek
     WHEN MATCHED THEN UPDATE SET ShipQty=@qty, ...
     WHEN NOT MATCHED THEN INSERT (ProductId, PlanYear, PlanWeek, ShipQty) VALUES (...)]
    A NULL key never matches and cannot be inserted.  An insert must fit
    PlanYear SMALLINT and PlanWeek TINYINT, satisfy the CHECK on PlanWeek and
    name an existing product; a failed statement changes nothing. *)
Definition mergeSalesPlan (s : Store)
    (productId year week qty : option Z) : option Store :=
  match productId, year, week, qty with
  | Some p, Some y, Some w, Some q =>
      let t := salesPlans s in
      if existsb (onSalesPlan p y w) t
      then Some (withSalesPlans s
                   (map (fun r => if onSalesPlan p y w r
                                  then SalesPlans.mk (SalesPlans.ProductId r)
                                         (SalesPlans.PlanYear r)
                                         (SalesPlans.PlanWeek r) q
                                  else r) t))
      else if inRange SmallInt y && inRange TinyInt w
              && (1 <=? w) && (w <=? 53)
              && existsb (fun r => Products.ProductId r =? p) (products s)
           then Some (withSalesPlans s (t ++ [SalesPlans.mk p y w q]))
           else None
  | _, _, _, _ => None
  end.

End Statement.

(* ================================================================== *)
(** * Connections, requests in flight and responses *)
(* ================================================================== *)

(** What a handler runs against: the database, whether [getPool()] can
    reach it, how many statements have been executed, and the state saved by
    [transaction.begin()] while a transaction is open. *)
Record Conn : Type := mkConn
  { store : Store;
    reachable : bool;
    executed : nat;
    transaction : option Store }.

Inductive Outcome (A : Type) : Type :=
  | Returned (a : A)
  | Thrown.
Arguments Returned {A} a.
Arguments Thrown {A}.

(** An [async] computation: it returns or throws, and leaves a connection. *)
Definition Task (A : Type) : Type := Conn -> Outcome A * Conn.

Definition ret {A} (a : A) : Task A := fun c => (Returned a, c).

Definition throw {A} : Task A := fun c => (Thrown, c).

Definition bind {A B} (m : Task A) (k : A -> Task B) : Task B :=
  fun c => match m c with
           | (Returned a, c') => k a c'
           | (Thrown, c') => (Thrown, c')
           end.

Notation "x <- m ;; k" := (bind m (fun x => k))
  (at level 61, m at next level, right associativity).
Notation "m ;;; k" := (bind m (fun _ => k))
  (at level 61, right associativity).

(** [try { m } catch (err) { h }] *)
Definition tryCatch {A} (m h : Task A) : Task A :=
  fun c => match m c with
           | (Returned a, c') => (Returned a, c')
           | (Thrown, c') => h c'
           end.

(** [for (const x of l) { await f(x) }] *)
Fixpoint forEach {A} (l : list A) (f : A -> Task unit) : Task unit :=
  match l with
  | [] => ret tt
  | x :: r => f x ;;; forEach r f
  end.

(** [await getPool()] *)
Definition getPool : Task unit :=
  fun c => if reachable c then (Returned tt, c) else (Thrown, c).

(** [await request.query(...)] for a SELECT. *)
Definition select {A} (q : Store -> A) : Task A :=
  fun c => (Returned (q (store c)),
            mkConn (store c) (reachable c) (S (executed c)) (transaction c)).

(** [await request.query(...)] for a statement that writes. *)
Definition execute (q : Store -> option Store) : Task unit :=
  fun c => match q (store c) with
           | Some s' => (Returned tt,
                         mkConn s' (reachable c) (S (executed c)) (transaction c))
           | None => (Thrown,
                      mkConn (store c) (reachable c) (S (executed c)) (transaction c))
           end.

(** [await transaction.begin()] *)
Definition begin : Task unit :=
  fun c => (Returned tt,
            mkConn (store c) (reachable c) (executed c) (Some (store c))).

(** [await transaction.commit()] *)
Definition commit : Task unit :=
  fun c => (Returned tt, mkConn (store c) (reachable c) (executed c) None).

(** [await transaction.rollback()] *)
Definition rollback : Task unit :=
  fun c => match transaction c with
           | Some s0 => (Returned tt, mkConn s0 (reachable c) (executed c) None)
           | None => (Thrown, c)
           end.

(** The parameter value a statement receives: [None] is NULL. *)
Definition bindNumber (ty : SqlType) (v : JsVal) : Task (option Z) :=
  match v with
  | JUndefined | JNull => ret None
  | JNum n => if inRange ty n then ret (Some n) else throw
  | _ => throw
  end.

Module Http.

Inductive Json : Type :=
  | Null                                   (* null *)
  | Ok                                     (* { ok: true } *)
  | Error (msg : string)                   (* { error: msg } *)
  | Opening (year week balance : Z)        (* { year, week, balance } *)
  | QtyRows (rows : list QtyRow)           (* [{ productId|materialId, year, week, qty }] *)
  | PlanRows (rows : list (Z * Z * Z)).    (* [{ year, week, qty }] *)

Record Response : Type := mkResponse { status : Z; body : Json }.

(** [res.json(b)] *)
Definition json (b : Json) : Response := mkResponse 200 b.

(** [res.status(n).json({ error: msg })] *)
Definition fail (n : Z) (msg : string) : Response := mkResponse n (Error msg).

End Http.
Import Http.

(** A handler of the shape [try { m } catch (err) { h }], where [h] ends by
    sending a response. *)
Definition handle (m : Task Response) (h : Conn -> Response * Conn)
    : Conn -> Response * Conn :=
  fun c => match m c with
           | (Returned r, c') => (r, c')
           | (Thrown, c') => h c'
           end.

(** [catch (err) { res.status(500).json({ error: msg }) }] *)
Definition serverError (msg : string) : Conn -> Response * Conn :=
  fun c => (fail 500 msg, c).

(* ================================================================== *)
(** * The handlers of [server.js] *)
(* ================================================================== *)

(** [req.query] of the week-range endpoints: each name absent or a text. *)
Record Query : Type := mkQuery
  { q_productId : option string;
    q_materialId : option string;
    q_fromYear : option string;
    q_fromWeek : option string;
    q_toYear : option string;
    q_toWeek : option string }.

(** GET /api/opening-balance/:type/:id *)
Definition getOpeningBalance (type id : string) : Conn -> Response * Conn :=
  let itemType := if String.eqb type "product" then P else M in
  let itemId := parseIntSafe (Some id) in
  if negb (truthy itemId) then fun c => (fail 400 "Invalid id", c)
  else
    handle
      (getPool ;;;
       i <- bindNumber Int itemId ;;
       recordset <- select (fun s => Statement.selectOpeningBalance s itemType i) ;;
       ret (json (match recordset with
                  | (y, w, b) :: _ => Opening y w b
                  | [] => Null
                  end)))
      (serverError "Failed to fetch opening balance").

(** GET /api/production *)
Definition getProduction (q : Query) : Conn -> Response * Conn :=
  let productId := parseIntSafe (q_productId q) in
  let fromYear := parseIntSafe (q_fromYear q) in
  let fromWeek := parseIntSafe (q_fromWeek q) in
  let toYear := parseIntSafe (q_toYear q) in
  let toWeek := parseIntSafe (q_toWeek q) in
  if negb (truthy fromYear) || negb (truthy fromWeek)
     || negb (truthy toYear) || negb (truthy toWeek)
  then fun c => (fail 400 "fromYear/fromWeek/toYear/toWeek required", c)
  else
    handle
      (getPool ;;;
       p <- bindNumber Int productId ;;
       fy <- bindNumber Int fromYear ;;
       fw <- bindNumber Int fromWeek ;;
       ty <- bindNumber Int toYear ;;
       tw <- bindNumber Int toWeek ;;
       recordset <- select (fun s => Statement.selectProduction s p fy fw ty tw) ;;
       ret (json (QtyRows recordset)))
      (serverError "Failed to fetch production").

(** GET /api/purchase *)
Definition getPurchase (v : ServerVersion) (q : Query) : Conn -> Response * Conn :=
  let materialId := parseIntSafe (q_materialId q) in
  let fromYear := parseIntSafe (q_fromYear q) in
  let fromWeek := parseIntSafe (q_fromWeek q) in
  let toYear := parseIntSafe (q_toYear q) in
  let toWeek := parseIntSafe (q_toWeek q) in
  if negb (truthy fromYear) || negb (truthy fromWeek)
     || negb (truthy toYear) || negb (truthy toWeek)
  then fun c => (fail 400 "fromYear/fromWeek/toYear/toWeek required", c)
  else
    handle
      (getPool ;;;
       m <- bindNumber Int materialId ;;
       fy <- bindNumber Int fromYear ;;
       fw <- bindNumber Int fromWeek ;;
       ty <- bindNumber Int toYear ;;
       tw <- bindNumber Int toWeek ;;
       recordset <- select (fun s => Statement.selectPurchase v s m fy fw ty tw) ;;
       ret (json (QtyRows recordset)))
      (serverError "Failed to fetch purchase").

(** GET /api/sales-plan *)
Definition getSalesPlan (q : Query) : Conn -> Response * Conn :=
  let productId := parseIntSafe (q_productId q) in
  let fromYear := parseIntSafe (q_fromYear q) in
  let fromWeek := parseIntSafe (q_fromWeek q) in
  let toYear := parseIntSafe (q_toYear q) in
  let toWeek := parseIntSafe (q_toWeek q) in
  if negb (truthy productId) || negb (truthy fromYear) || negb (truthy fromWeek)
     || negb (truthy toYear) || negb (truthy toWeek)
  then fun c => (fail 400 "productId/from/to required", c)
  else
    handle
      (getPool ;;;
       p <- bindNumber Int productId ;;
       fy <- bindNumber Int fromYear ;;
       fw <- bindNumber Int fromWeek ;;
       ty <- bindNumber Int toYear ;;
       tw <- bindNumber Int toWeek ;;
       recordset <- select (fun s => Statement.selectSalesPlan s p fy fw ty tw) ;;
       ret (json (PlanRows recordset)))
      (serverError "Failed to fetch sales plan").

(** [req.body] of PUT /api/opening-balance; an absent field is [JUndefined]. *)
Record OpeningBalanceBody : Type := mkOpeningBalanceBody
  { itemType : JsVal;
    itemId : JsVal;
    startYear : JsVal;
    startWeek : JsVal;
    balanceQty : JsVal }.

(** [["P", "M"].includes(itemType)], with the item type it names. *)
Definition asItemType (v : JsVal) : option ItemType :=
  match v with
  | JStr s => if String.eqb s "P" then Some P
              else if String.eqb s "M" then Some M else None
  | _ => None
  end.

(** [balanceQty === undefined] *)
Definition isUndefined (v : JsVal) : bool :=
  match v with JUndefined => true | _ => false end.

(** An element of [plans]: [null], whose fields cannot be read, or a value
    with the fields [year], [week] and [qty] ([JUndefined] where absent). *)
Record Plan : Type := mkPlan { p_year : JsVal; p_week : JsVal; p_qty : JsVal }.

Inductive PlanItem : Type :=
  | NullItem
  | Item (p : Plan).

(** [req.body] of PUT /api/sales-plan; [plans] is [None] when
    [Array.isArray(plans)] is false. *)
Record SalesPlanBody : Type := mkSalesPlanBody
  { productId : JsVal;
    plans : option (list PlanItem) }.

(** [Array.isArray(plans)] and the elements the loop visits. *)
Definition isArray (ps : option (list PlanItem)) : bool :=
  match ps with Some _ => true | None => false end.

Definition elements (ps : option (list PlanItem)) : list PlanItem :=
  match ps with Some l => l | None => [] end.

Section Driver.

(** What the database driver makes of a parameter value that is neither
    null nor a number in the units of the model: a boolean, a text, an
    object, a fraction.  The driver is not part of the repository; its
    conversion is a parameter, [None] when it rejects the value. *)
Variable convert : SqlType -> JsVal -> option Z.

(** [request.input(name, type, value)], checked when the statement runs. *)
Definition bindParam (ty : SqlType) (v : JsVal) : Task (option Z) :=
  match v with
  | JBool _ | JStr _ | JObj | JFraction =>
      match convert ty v with
      | Some n => bindNumber ty (JNum n)
      | None => throw
      end
  | _ => bindNumber ty v
  end.

(** PUT /api/opening-balance *)
Definition putOpeningBalance (b : OpeningBalanceBody) : Conn -> Response * Conn :=
  match asItemType (itemType b) with
  | None => fun c => (fail 400 "itemType must be P or M", c)
  | Some ty =>
      if negb (truthy (itemId b)) || negb (truthy (startYear b))
         || negb (truthy (startWeek b)) || isUndefined (balanceQty b)
      then fun c => (fail 400 "Missing fields", c)
      else
        handle
          (getPool ;;;
           i <- bindParam Int (itemId b) ;;
           y <- bindParam SmallInt (startYear b) ;;
           w <- bindParam TinyInt (startWeek b) ;;
           q <- bindParam Decimal18_3 (balanceQty b) ;;
           execute (fun s => Statement.mergeOpeningBalance s ty i y w q) ;;;
           ret (json Ok))
          (serverError "Failed to upsert opening balance")
  end.

(** The body of the loop of PUT /api/sales-plan. *)
Definition upsertPlan (productId : JsVal) (item : PlanItem) : Task unit :=
  match item with
  | NullItem => throw
  | Item p =>
      i <- bindParam Int productId ;;
      y <- bindParam Int (p_year p) ;;
      w <- bindParam Int (p_week p) ;;
      q <- bindParam Decimal18_3 (Js.or (p_qty p) (JNum 0)) ;;
      execute (fun s => Statement.mergeSalesPlan s i y w q)
  end.

(** [try { if (transaction) await transaction.rollback(); } catch (_) {}] *)
Definition rollbackQuietly : Task unit :=
  tryCatch (fun c => match transaction c with
                     | Some _ => rollback c
                     | None => ret tt c
                     end)
           (ret tt).

(** PUT /api/sales-plan *)
Definition putSalesPlan (b : SalesPlanBody) : Conn -> Response * Conn :=
  if negb (truthy (productId b)) || negb (isArray (plans b))
  then fun c => (fail 400 "productId and plans[] required", c)
  else
    handle
      (getPool ;;;
       begin ;;;
       forEach (elements (plans b)) (upsertPlan (productId b)) ;;;
       commit ;;;
       ret (json Ok))
      (fun c => (fail 500 "Failed to upsert sales plan",
                 snd (rollbackQuietly c))).

End Driver.

(* ================================================================== *)
(** * The weekly balance projection *)
(* ================================================================== *)

(** The projection runs in the browser; its code is not among the sources
    of the repository.  This module follows the specification (sections 3,
    4.1-4.5) and the README.  Quantities are rationals here. *)
Module Projector.

Open Scope Q_scope.

(** Modelled from the spec: the browser code of the projection is missing;
    WeekKey is a pair (year, week). *)
Record WeekKey : Type := mkWeek { year : Z; week : Z }.

(** Modelled from the spec: the projection code is missing; the total order
    of WeekKey compares the year, then the week. *)
Definition compare (a b : WeekKey) : comparison :=
  match (year a ?= year b)%Z with
  | Eq => (week a ?= week b)%Z
  | c => c
  end.

(** Modelled from the spec: the projection code is missing; [a < b]. *)
Definition ltb (a b : WeekKey) : bool :=
  match compare a b with Lt => true | _ => false end.

(** Modelled from the spec: the projection code is missing; [a <= b]. *)
Definition leb (a b : WeekKey) : bool :=
  match compare a b with Gt => false | _ => true end.

(** Modelled from the spec: the projection code is missing; [a == b]. *)
Definition eqb (a b : WeekKey) : bool :=
  match compare a b with Eq => true | _ => false end.

(** Modelled from the spec: the projection code is missing;
    inRange(w, from, to), inclusive. *)
Definition inRange (w from to : WeekKey) : bool := leb from w && leb w to.

(** Modelled from the spec: the projection code is missing; production
    orders are INITIAL, ACTIVE or COMPLETE. *)
Inductive ProductionStatus : Type := INITIAL | ACTIVE | COMPLETE.

(** Modelled from the spec: the projection code is missing; purchase orders
    are INITIAL, CONFIRM, RECEIVED or CANCELLED. *)
Inductive PurchaseStatus : Type := PO_INITIAL | CONFIRM | RECEIVED | CANCELLED.

(** Modelled from the spec: the projection code is missing; SalesPlan is
    (productId, WeekKey) -> shipQty. *)
Record SalesPlan : Type := mkSalesPlan
  { sp_productId : Z; sp_week : WeekKey; sp_shipQty : Q }.

(** Modelled from the spec: the projection code is missing; ProductionOrder
    is (productId, WeekKey, quantity, status). *)
Record ProductionOrder : Type := mkProductionOrder
  { po_productId : Z; po_week : WeekKey; po_quantity : Q;
    po_status : ProductionStatus }.

(** Modelled from the spec: the projection code is missing; a purchase
    order line (materialId, quantity, etaWeek) with the status of its
    order. *)
Record PurchaseLine : Type := mkPurchaseLine
  { pl_materialId : Z; pl_etaWeek : WeekKey; pl_quantity : Q;
    pl_status : PurchaseStatus }.

(** Modelled from the spec: the projection code is missing; BomLine is
    (productId, materialId) -> consumePerUnit. *)
Record BomLine : Type := mkBomLine
  { bl_productId : Z; bl_materialId : Z; bl_consumePerUnit : Q }.

(** Modelled from the spec: the projection code is missing; OpeningBalance
    is (anchorWeek, balanceQty). *)
Record OpeningBalance : Type := mkOpeningBalance
  { anchorWeek : WeekKey; balanceQty : Q }.

(** Modelled from the spec: the projection code is missing; an item is a
    Product or a Material, identified by its id. *)
Inductive Item : Type :=
  | Product (productId : Z)
  | Material (materialId : Z).

(** Modelled from the spec: the projection code is missing; the movement
    rows a projection reads. *)
Record Ledger : Type := mkLedger
  { salesPlans : list SalesPlan;
    productionOrders : list ProductionOrder;
    purchaseLines : list PurchaseLine;
    bomLines : list BomLine }.

(** Modelled from the spec: the projection code is missing; a sum of
    quantities, zero when there is none. *)
Definition total (l : list Q) : Q := fold_right Qplus 0 l.

(** Modelled from the spec: the projection code is missing; shipQty(w) of a
    product, rows at the same key summed, absence is zero. *)
Definition shipQty (L : Ledger) (p : Z) (w : WeekKey) : Q :=
  total (map sp_shipQty
           (filter (fun r => (sp_productId r =? p)%Z && eqb (sp_week r) w)
                   (salesPlans L))).

(** Modelled from the spec: the projection code is missing; only ACTIVE and
    COMPLETE orders count. *)
Definition counts (s : ProductionStatus) : bool :=
  match s with ACTIVE | COMPLETE => true | INITIAL => false end.

(** Modelled from the spec: the projection code is missing;
    productionQty(w) of a product, the sum of its ACTIVE and COMPLETE
    orders of the week. *)
Definition productionQty (L : Ledger) (p : Z) (w : WeekKey) : Q :=
  total (map po_quantity
           (filter (fun r => (po_productId r =? p)%Z && eqb (po_week r) w
                             && counts (po_status r))
                   (productionOrders L))).

(** Modelled from the spec: the projection code is missing; only lines of
    CONFIRM orders count. *)
Definition isConfirm (s : PurchaseStatus) : bool :=
  match s with CONFIRM => true | _ => false end.

(** Modelled from the spec: the projection code is missing;
    confirmedPurchaseQty(w) of a material. *)
Definition confirmedPurchaseQty (L : Ledger) (m : Z) (w : WeekKey) : Q :=
  total (map pl_quantity
           (filter (fun r => (pl_materialId r =? m)%Z && eqb (pl_etaWeek r) w
                             && isConfirm (pl_status r))
                   (purchaseLines L))).

(** Modelled from the spec: the projection code is missing; the consumption
    of a material in a week is productionQty(week) x consumePerUnit, over
    the BOM lines that name the material. *)
Definition bomDerivedConsumption (L : Ledger) (m : Z) (w : WeekKey) : Q :=
  total (map (fun b => productionQty L (bl_productId b) w * bl_consumePerUnit b)
           (filter (fun b => (bl_materialId b =? m)%Z) (bomLines L))).

(** Modelled from the spec: the projection code is missing; outflow is the
    ship quantity of a product, the BOM-derived consumption of a material. *)
Definition outflow (L : Ledger) (it : Item) (w : WeekKey) : Q :=
  match it with
  | Product p => shipQty L p w
  | Material m => bomDerivedConsumption L m w
  end.

(** Modelled from the spec: the projection code is missing; inflow is the
    production quantity of a product, the confirmed purchase quantity of a
    material. *)
Definition inflow (L : Ledger) (it : Item) (w : WeekKey) : Q :=
  match it with
  | Product p => productionQty L p w
  | Material m => confirmedPurchaseQty L m w
  end.

(** Modelled from the spec: the projection code is missing; one step of the
    state machine of section 4.5, from the balance of the week before. *)
Definition step (ob : option OpeningBalance) (L : Ledger) (it : Item)
    (prev : Q) (w : WeekKey) : Q :=
  match ob with
  | None => 0
  | Some o =>
      match compare w (anchorWeek o) with
      | Lt => 0
      | Eq => balanceQty o
      | Gt => prev - outflow L it w + inflow L it w
      end
  end.

(** Modelled from the spec: the projection code is missing; the single pass
    over an ordered sequence of weeks, carrying the previous balance. *)
Fixpoint walk (ob : option OpeningBalance) (L : Ledger) (it : Item)
    (prev : Q) (weeks : list WeekKey) : list (WeekKey * Q) :=
  match weeks with
  | [] => []
  | w :: rest =>
      let b := step ob L it prev w in
      (w, b) :: walk ob L it b rest
  end.

(** Modelled from the spec: the projection code is missing; the balance a
    series gives for a week. *)
Fixpoint balanceOf (series : list (WeekKey * Q)) (w : WeekKey) : option Q :=
  match series with
  | [] => None
  | (k, b) :: rest => if eqb k w then Some b else balanceOf rest w
  end.

Section Calendar.

(** The spec bounds a week number by 53 and treats it as a tag within its
    year; how many weeks a year counts is left to this parameter. *)
Variable weeksPerYear : Z.

(** Modelled from the spec: the projection code is missing; a week number
    lies between 1 and the number of weeks of a year. *)
Definition validWeek (k : WeekKey) : Prop :=
  (1 <= week k <= weeksPerYear)%Z.

(** Modelled from the spec: the projection code is missing; the week after,
    crossing the year boundary. *)
Definition nextWeek (k : WeekKey) : WeekKey :=
  if (week k <? weeksPerYear)%Z
  then mkWeek (year k) (week k + 1)
  else mkWeek (year k + 1) 1.

(** Modelled from the spec: the projection code is missing; the week
    before, crossing the year boundary. *)
Definition prevWeek (k : WeekKey) : WeekKey :=
  if (1 <? week k)%Z
  then mkWeek (year k) (week k - 1)
  else mkWeek (year k - 1) weeksPerYear.

(** Modelled from the spec: the projection code is missing; the position of
    a week on the time axis. *)
Definition ordinal (k : WeekKey) : Z :=
  (year k * weeksPerYear + (week k - 1))%Z.

(** Modelled from the spec: the projection code is missing; [n] successive
    weeks from [w]. *)
Fixpoint weeksFrom (n : nat) (w : WeekKey) : list WeekKey :=
  match n with
  | O => []
  | S n' => w :: weeksFrom n' (nextWeek w)
  end.

(** Modelled from the spec: the projection code is missing;
    enumerateWeeks(from, to), empty when from > to. *)
Definition enumerateWeeks (from to : WeekKey) : list WeekKey :=
  weeksFrom (Z.to_nat (ordinal to - ordinal from + 1)) from.

(** Modelled from the spec: the projection code is missing; the walk starts
    at the anchor when the anchor lies before the requested range. *)
Definition startOf (ob : option OpeningBalance) (from : WeekKey) : WeekKey :=
  match ob with
  | Some o => if ltb (anchorWeek o) from then anchorWeek o else from
  | None => from
  end.

(** Modelled from the spec: the projection code is missing; the balances
    the engine computes internally, consecutively from the start of the
    walk up through [to]. *)
Definition internal (ob : option OpeningBalance) (L : Ledger) (it : Item)
    (from to : WeekKey) : list (WeekKey * Q) :=
  walk ob L it 0 (enumerateWeeks (startOf ob from) to).

(** Modelled from the spec: the projection code is missing; the series
    returned for the requested range, the slice [from, to] of the walk. *)
Definition project (ob : option OpeningBalance) (L : Ledger) (it : Item)
    (from to : WeekKey) : list (WeekKey * Q) :=
  filter (fun e => leb from (fst e)) (internal ob L it from to).

End Calendar.

End Projector.

(* ================================================================== *)
(** * Vocabulary of the properties *)
(* ================================================================== *)

(** ** Week-range endpoints and their parameters *)

(** The three endpoints that take a week range. *)
Inductive RangeEndpoint : Type :=
  | Production
  | Purchase (v : ServerVersion)
  | SalesPlan.

Definition serve (e : RangeEndpoint) : Query -> Conn -> Response * Conn :=
  match e with
  | Production => getProduction
  | Purchase v => getPurchase v
  | SalesPlan => getSalesPlan
  end.

(** The parameters an endpoint insists on. *)
Definition required (e : RangeEndpoint) (q : Query) : list (option string) :=
  match e with
  | SalesPlan => [q_productId q; q_fromYear q; q_fromWeek q; q_toYear q; q_toWeek q]
  | _ => [q_fromYear q; q_fromWeek q; q_toYear q; q_toWeek q]
  end.

(** The optional item filter of an endpoint. *)
Definition itemFilter (e : RangeEndpoint) (q : Query) : option string :=
  match e with
  | Purchase _ => q_materialId q
  | _ => q_productId q
  end.

(** The empty result of an endpoint. *)
Definition noRows (e : RangeEndpoint) : Json :=
  match e with
  | SalesPlan => PlanRows []
  | _ => QtyRows []
  end.

(** A text is numeric when it is a decimal integer: an optional sign, then
    digits and nothing else. *)
Fixpoint allDigits (s : string) : bool :=
  match s with
  | EmptyString => true
  | String c r => isDigit c && allDigits r
  end.

Definition isNumeric (s : string) : bool :=
  let r := snd (signOf s) in
  negb (String.eqb r "") && allDigits r.

(** A text has a leading integer when, white space and one sign aside, it
    starts with a digit. *)
Definition hasLeadingInteger (s : string) : bool :=
  match snd (signOf (trimStart s)) with
  | String c _ => isDigit c
  | EmptyString => false
  end.

(** A parameter that is absent, empty or without a leading integer. *)
Definition unreadable (v : option string) : bool :=
  match v with
  | None => true
  | Some s => negb (hasLeadingInteger s)
  end.

(** The connection after one more statement. *)
Definition afterOne (c : Conn) : Conn :=
  mkConn (store c) (reachable c) (S (executed c)) (transaction c).

(** [from > to] in the order of (year, week). *)
Definition inverted (fromYear fromWeek toYear toWeek : Z) : Prop :=
  toYear < fromYear \/ (toYear = fromYear /\ toWeek < fromWeek).

(** [(y1, w1) <= (y2, w2)] in the order of (year, week). *)
Definition weekLeq (y1 w1 y2 w2 : Z) : Prop :=
  y1 < y2 \/ (y1 = y2 /\ w1 <= w2).

(** A parameter read as the nonzero integer [n] that fits sql.Int. *)
Definition readsAs (v : option string) (n : Z) : Prop :=
  parseIntSafe v = JNum n /\ n <> 0 /\ inRange Int n = true.

(** An optional filter: absent or empty ([None]), or read as an integer. *)
Definition filterReadsAs (v : option string) (n : option Z) : Prop :=
  match n with
  | None => parseIntSafe v = JNull
  | Some i => parseIntSafe v = JNum i /\ inRange Int i = true
  end.

(** ** Opening balances, bound parameters and batches *)

(** The item type a route names: [type === "product" ? "P" : "M"]. *)
Definition itemTypeOf (type : string) : ItemType :=
  if String.eqb type "product" then P else M.

(** UNIQUE(ItemType, ItemId) on OpeningBalances. *)
Definition openingKey (r : OpeningBalances.row) : ItemType * Z :=
  (OpeningBalances.ItemType r, OpeningBalances.ItemId r).

Definition uniqueOpening (s : Store) : Prop :=
  NoDup (map openingKey (openingBalances s)).

Section DriverVocabulary.

Variable convert : SqlType -> JsVal -> option Z.

(** What [bindParam] hands to the statement: [None] when the driver rejects
    the value, [Some None] for NULL, [Some (Some n)] for the number [n]. *)
Definition bound (ty : SqlType) (v : JsVal) : option (option Z) :=
  match v with
  | JUndefined | JNull => Some None
  | JNum n => if inRange ty n then Some (Some n) else None
  | JNaN => None
  | JBool _ | JStr _ | JObj | JFraction =>
      match convert ty v with
      | Some n => if inRange ty n then Some (Some n) else None
      | None => None
      end
  end.

(** The connection after a sequence of PUT /api/opening-balance calls. *)
Definition afterCalls (calls : list OpeningBalanceBody) (c : Conn) : Conn :=
  fold_left (fun c' b => snd (putOpeningBalance convert b c')) calls c.

(** The statements of a sales-plan batch applied one after the other to a
    database; [None] as soon as a row cannot be bound or written. *)
Fixpoint applyPlans (productId : JsVal) (items : list PlanItem) (s : Store)
    : option Store :=
  match items with
  | [] => Some s
  | NullItem :: _ => None
  | Item p :: rest =>
      match bound Int productId, bound Int (p_year p), bound Int (p_week p),
            bound Decimal18_3 (Js.or (p_qty p) (JNum 0)) with
      | Some i, Some y, Some w, Some q =>
          match Statement.mergeSalesPlan s i y w q with
          | Some s' => applyPlans productId rest s'
          | None => None
          end
      | _, _, _, _ => None
      end
  end.

End DriverVocabulary.

(** A plan row with a falsy [qty] rewritten with the number 0. *)
Definition zeroFalsyQty (item : PlanItem) : PlanItem :=
  match item with
  | NullItem => NullItem
  | Item p => Item (mkPlan (p_year p) (p_week p)
                           (if truthy (p_qty p) then p_qty p else JNum 0))
  end.

Definition withZeroQty (b : SalesPlanBody) : SalesPlanBody :=
  mkSalesPlanBody (productId b) (option_map (map zeroFalsyQty) (plans b)).

(** A batch for product 1 whose second row names week 60. *)
Definition badBatch : SalesPlanBody :=
  mkSalesPlanBody (JNum 1)
    (Some [Item (mkPlan (JNum 2025) (JNum 48) (JNum 4000));
           Item (mkPlan (JNum 2025) (JNum 60) (JNum 1000))]).

(** A PUT /api/sales-plan body for one week of product 1. *)
Definition planCall (y w : Z) (qty : JsVal) : SalesPlanBody :=
  mkSalesPlanBody (JNum 1) (Some [Item (mkPlan (JNum y) (JNum w) qty)]).

(** ** Statuses that count *)

(** A production status that counts: its upper case is ACTIVE or COMPLETE. *)
Definition activeOrComplete (status : string) : bool :=
  String.eqb (toUpperCase status) "ACTIVE"
  || String.eqb (toUpperCase status) "COMPLETE".

Definition productionKey (r : ProductionOrders.row) : Key :=
  (ProductionOrders.ProductId r, ProductionOrders.PlanYear r,
   ProductionOrders.PlanWeek r).

(** The production orders of a (productId, year, week) key that count. *)
Definition contributing (s : Store) (k : Key) : list ProductionOrders.row :=
  filter (fun r => key_eqb (productionKey r) k
                   && activeOrComplete (ProductionOrders.Status r))
         (productionOrders s).

(** A purchase status that counts: CONFIRM, whatever the letter case. *)
Definition isConfirmStatus (status : string) : bool :=
  String.eqb (toUpperCase status) "CONFIRM".

Definition purchaseKey (r : PurchaseOrderLines.row * PurchaseOrders.row) : Key :=
  (PurchaseOrderLines.MaterialId (fst r), PurchaseOrderLines.EtaYear (fst r),
   PurchaseOrderLines.EtaWeek (fst r)).

Definition lineQuantity (r : PurchaseOrderLines.row * PurchaseOrders.row) : Z :=
  PurchaseOrderLines.Quantity (fst r).

(** The lines of a (materialId, year, week) key, each with its order, whose
    order counts. *)
Definition confirmedLines (s : Store) (k : Key)
    : list (PurchaseOrderLines.row * PurchaseOrders.row) :=
  filter (fun r => key_eqb (purchaseKey r) k
                   && isConfirmStatus (PurchaseOrders.Status (snd r)))
         (Statement.joinPurchase s).

(** A database, compared case-sensitively, whose only purchase order was
    stored with the status in lower case. *)
Definition lowerCaseOrder : Store :=
  {| collation := CaseSensitive;
     products := [];
     openingBalances := [];
     salesPlans := [];
     productionOrders := [];
     purchaseOrders := [PurchaseOrders.mk 1 "confirm"];
     purchaseOrderLines := [PurchaseOrderLines.mk 1 1 5000 2025 49] |}.

(** ** The projection and sample data *)

(** The balance a walk of the projection reaches [k] weeks after its first
    week [s], entered with the balance [prev]. *)
Fixpoint balanceAfter (weeksPerYear : Z) (ob : option Projector.OpeningBalance)
    (L : Projector.Ledger) (it : Projector.Item)
    (k : nat) (prev : Q) (s : Projector.WeekKey) : Q :=
  match k with
  | O => Projector.step ob L it prev s
  | S k' => balanceAfter weeksPerYear ob L it k'
              (Projector.step ob L it prev s)
              (Projector.nextWeek weeksPerYear s)
  end.

(** The data of the scenarios of the specification: product 589 (id 1) and
    material NVL3 (id 1) in the weeks 47 to 50 of 2025. *)
Definition wk (n : Z) : Projector.WeekKey := Projector.mkWeek 2025 n.

Definition scenarioLedger : Projector.Ledger :=
  Projector.mkLedger
    []
    [ Projector.mkProductionOrder 1 (wk 48) 5 Projector.ACTIVE;
      Projector.mkProductionOrder 1 (wk 49) 5 Projector.ACTIVE;
      Projector.mkProductionOrder 1 (wk 50) 10 Projector.INITIAL ]
    [ Projector.mkPurchaseLine 1 (wk 49) 5 Projector.CONFIRM ]
    [ Projector.mkBomLine 1 1 1 ].

Definition scenario3Ledger : Projector.Ledger :=
  Projector.mkLedger
    []
    [ Projector.mkProductionOrder 1 (wk 48) 5 Projector.ACTIVE ]
    [ Projector.mkPurchaseLine 1 (wk 49) 5 Projector.CONFIRM ]
    [ Projector.mkBomLine 1 1 1 ].

Definition openingAt47 (q : Q) : option Projector.OpeningBalance :=
  Some (Projector.mkOpeningBalance (wk 47) q).

(** A series with its balances in lowest terms. *)
Definition reduced (series : list (Projector.WeekKey * Q))
    : list (Projector.WeekKey * Q) :=
  map (fun e => (fst e, Qred (snd e))) series.

(** A driver that converts nothing but numbers. *)
Definition noConversion : SqlType -> JsVal -> option Z := fun _ _ => None.

(** A PUT /api/opening-balance body for a product, all fields numbers. *)
Definition openingCall (i y w q : Z) : OpeningBalanceBody :=
  mkOpeningBalanceBody (JStr "P") (JNum i) (JNum y) (JNum w) (JNum q).

(** A uniform request against the seed database. *)
Definition idle (s : Store) : Conn := mkConn s true 0 None.

Definition query2025 (fromWeek toWeek : string) : Query :=
  mkQuery None None (Some "2025"%string) (Some fromWeek) (Some "2025"%string) (Some toWeek).

(* ================================================================== *)
(** * Further vocabulary *)
(* ================================================================== *)

(** ** Parameters that read as falsy *)

(** The longest prefix of decimal digits. *)
Fixpoint digitPrefix (s : string) : string :=
  match s with
  | String c r => if isDigit c then String c (digitPrefix r) else EmptyString
  | EmptyString => EmptyString
  end.

(** Nothing but the digit 0 (the empty text included). *)
Fixpoint allZeros (s : string) : bool :=
  match s with
  | EmptyString => true
  | String c r => Ascii.eqb c "0" && allZeros r
  end.

(** A parameter that is absent or whose leading integer, white space and
    one sign aside, is missing or written with zeros only. *)
Definition readsFalsy (v : option string) : bool :=
  match v with
  | None => true
  | Some s => allZeros (digitPrefix (snd (signOf (trimStart s))))
  end.


(** ** Order of the production rows *)

(** [(year, week)] of a row at or before that of another. *)
Definition weekOrder (a b : QtyRow) : Prop :=
  weekLeq (year a) (week a) (year b) (week b).

(** ** Sales plans *)

(** UNIQUE(ProductId, PlanYear, PlanWeek) on SalesPlans. *)
Definition planKey (r : SalesPlans.row) : Key :=
  (SalesPlans.ProductId r, SalesPlans.PlanYear r, SalesPlans.PlanWeek r).

Definition uniqueSalesPlans (s : Store) : Prop :=
  NoDup (map planKey (salesPlans s)).

(** The week of a row of the answer of GET /api/sales-plan. *)
Definition planWeekOf (r : Z * Z * Z) : Z * Z := (fst (fst r), snd (fst r)).

Section BatchVocabulary.

Variable convert : SqlType -> JsVal -> option Z.

(** The quantity the last row of a batch for the week [(y, w)] sends, if the
    batch has a row for that week. *)
Fixpoint lastQty (items : list PlanItem) (y w : Z) : option Z :=
  match items with
  | [] => None
  | NullItem :: rest => lastQty rest y w
  | Item p :: rest =>
      match lastQty rest y w with
      | Some q => Some q
      | None =>
          match bound convert Int (p_year p), bound convert Int (p_week p),
                bound convert Decimal18_3 (Js.or (p_qty p) (JNum 0)) with
          | Some (Some y'), Some (Some w'), Some (Some q) =>
              if (y' =? y) && (w' =? w) then Some q else None
          | _, _, _ => None
          end
      end
  end.

End BatchVocabulary.

(** ** Purchase orders *)

(** PRIMARY KEY on PurchaseOrders.PurchaseOrderId. *)
Definition uniqueOrders (s : Store) : Prop :=
  NoDup (map PurchaseOrders.PurchaseOrderId (purchaseOrders s)).

(** The order a line belongs to. *)
Definition orderOf (s : Store) (l : PurchaseOrderLines.row)
    : option PurchaseOrders.row :=
  find (fun po => PurchaseOrders.PurchaseOrderId po
                  =? PurchaseOrderLines.PurchaseOrderId l)
       (purchaseOrders s).

Definition lineKey (l : PurchaseOrderLines.row) : Key :=
  (PurchaseOrderLines.MaterialId l, PurchaseOrderLines.EtaYear l,
   PurchaseOrderLines.EtaWeek l).

(** The lines of a (materialId, year, week) key whose order is CONFIRM in
    some letter case. *)
Definition linesOfConfirmedOrders (s : Store) (k : Key)
    : list PurchaseOrderLines.row :=
  filter (fun l => key_eqb (lineKey l) k
                   && match orderOf s l with
                      | Some po => isConfirmStatus (PurchaseOrders.Status po)
                      | None => false
                      end)
         (purchaseOrderLines s).

(** Every stored purchase status is written in upper case. *)
Definition upperCaseStatuses (s : Store) : Prop :=
  forall po, In po (purchaseOrders s) ->
             toUpperCase (PurchaseOrders.Status po) = PurchaseOrders.Status po.

(** ** The connection pool of [db.js] *)

Module Db.

(** How a promise made by [sql.connect(config).then(...).catch(...)] ends:
    [.then] passes the pool on, [.catch] rethrows the error. *)
Inductive Settlement : Type :=
  | Fulfilled (pool : nat)
  | Rejected.

(** The state of the module: the variable [poolPromise] ([None] is
    undefined; a promise is named by the number of the [sql.connect] call
    that made it), the number of [sql.connect] calls made so far, and the
    promises that have settled. *)
Record State : Type := mkState
  { poolPromise : option nat;
    connects : nat;
    settled : list (nat * Settlement) }.

(** [let poolPromise;] *)
Definition initial : State := mkState None 0%nat [].

(** [getPool()]: the promise it returns, and the state it leaves. *)
Definition getPool (s : State) : nat * State :=
  match poolPromise s with
  | Some p => (p, s)
  | None => (connects s,
             mkState (Some (connects s)) (S (connects s)) (settled s))
  end.

Definition isSettled (s : State) (p : nat) : bool :=
  existsb (fun e => Nat.eqb (fst e) p) (settled s).

(** The connection attempt [p] ends.  Only a pending promise settles; when
    it is rejected, the [.catch] callback runs [poolPromise = undefined]. *)
Definition settle (p : nat) (o : Settlement) (s : State) : State :=
  if Nat.ltb p (connects s) && negb (isSettled s p) then
    match o with
    | Fulfilled _ => mkState (poolPromise s) (connects s) ((p, o) :: settled s)
    | Rejected => mkState None (connects s) ((p, o) :: settled s)
    end
  else s.

(** What happens to the module: a handler calls [getPool()], or a
    connection attempt ends. *)
Inductive Event : Type :=
  | Call
  | Settle (p : nat) (o : Settlement).

Definition step (s : State) (e : Event) : State :=
  match e with
  | Call => snd (getPool s)
  | Settle p o => settle p o s
  end.

Definition run (es : list Event) : State := fold_left step es initial.

(** The connection attempts still in flight. *)
Definition pending (s : State) : list nat :=
  filter (fun p => negb (isSettled s p)) (seq 0 (connects s)).

(** Some attempt has handed a pool over. *)
Definition established (s : State) : bool :=
  existsb (fun e => match snd e with Fulfilled _ => true | Rejected => false end)
          (settled s).

(** What every reachable state of the module satisfies. *)
Definition Inv (s : State) : Prop :=
  NoDup (map fst (settled s))
  /\ (forall p o, In (p, o) (settled s) -> (p < connects s)%nat)
  /\ match poolPromise s with
     | Some p => connects s = S p
                 /\ ~ In (p, Rejected) (settled s)
                 /\ (forall q, (q < p)%nat -> In (q, Rejected) (settled s))
     | None => forall q, (q < connects s)%nat -> In (q, Rejected) (settled s)
     end.

End Db.

(** ** The production orders of the second server *)

Module Orders.

(** A row of ProductionOrders with its identity column; [fields] are the
    columns the week queries read. *)
Record row : Type := mk
  { ProductionOrderId : Z;
    fields : ProductionOrders.row }.

End Orders.

(** The database as the handlers of /api/production-orders see it: the
    table ProductionOrders with its ids, beside the other tables ([others],
    whose own list of production orders is not read). *)
Record OrderDb : Type := mkOrderDb
  { others : Store;
    orders : list Orders.row }.

(** The database the week queries read. *)
Definition storeOf (d : OrderDb) : Store :=
  mkStore (collation (others d)) (products (others d))
          (openingBalances (others d)) (salesPlans (others d))
          (map Orders.fields (orders d))
          (purchaseOrders (others d)) (purchaseOrderLines (others d)).

(** What a handler of /api/production-orders runs against: the database and
    whether [getPool()] can reach it. *)
Record OrderConn : Type := mkOrderConn
  { odb : OrderDb;
    up : bool }.

Definition connOf (c : OrderConn) : Conn := mkConn (storeOf (odb c)) (up c) 0 None.

Inductive OrderReply : Type :=
  | Created (id : Z)                       (* res.status(201).json({ id }) *)
  | Done                                   (* res.json({ ok: true }) *)
  | Refused (status : Z) (msg : string).   (* res.status(n).json({ error: msg }) *)

(** [req.body || {}] of POST and PUT /api/production-orders; an absent field
    is [JUndefined]. *)
Record OrderBody : Type := mkOrderBody
  { o_productId : JsVal;
    o_quantity : JsVal;
    o_planYear : JsVal;
    o_planWeek : JsVal;
    o_status : JsVal }.

(** [["INITIAL", "ACTIVE", "COMPLETE"].includes(normStatus)] *)
Definition isOrderStatus (s : string) : bool :=
  existsb (String.eqb s) ["INITIAL"; "ACTIVE"; "COMPLETE"]%string.

(** [v.toUpperCase()]: [None] when [v] is not a text, has no such method,
    and the call throws. *)
Definition upperOf (v : JsVal) : option string :=
  match v with
  | JStr s => Some (toUpperCase s)
  | _ => None
  end.

(** [(status || "INITIAL").toUpperCase()] *)
Definition normStatusOfPost (status : JsVal) : option string :=
  upperOf (Js.or status (JStr "INITIAL")).

(** [status ? status.toUpperCase() : null]: [None] when the call throws,
    [Some None] for null. *)
Definition normStatusOfPut (status : JsVal) : option (option string) :=
  if truthy status then option_map Some (upperOf status) else Some None.

(** [quantity != null] *)
Definition notNullish (v : JsVal) : bool :=
  match v with JUndefined | JNull => false | _ => true end.

Module OrderStatement.

(** What a row of ProductionOrders must satisfy: PlanYear SMALLINT,
    PlanWeek TINYINT with its CHECK, ProductId an existing product. *)
Definition admissible (d : OrderDb) (r : ProductionOrders.row) : bool :=
  inRange SmallInt (ProductionOrders.PlanYear r)
  && inRange TinyInt (ProductionOrders.PlanWeek r)
  && (1 <=? ProductionOrders.PlanWeek r) && (ProductionOrders.PlanWeek r <=? 53)
  && existsb (fun p => Products.ProductId p =? ProductionOrders.ProductId r)
             (products (others d)).

(** [INSERT INTO ProductionOrders (ProductId, Quantity, PlanYear, PlanWeek, Status)
     OUTPUT INSERTED.ProductionOrderId AS id
     VALUES (@productId, @quantity, @planYear, @planWeek, @status)]
    with [id] the value IDENTITY(1,1) hands out.  The statement fails
    ([None]) when a NULL reaches a NOT NULL column or the row is not
    admissible; a failed statement changes nothing. *)
Definition insertOrder (d : OrderDb) (id : Z)
    (productId quantity planYear planWeek : option Z) (status : string)
    : option OrderDb :=
  match productId, quantity, planYear, planWeek with
  | Some p, Some q, Some y, Some w =>
      let r := ProductionOrders.mk p q y w status in
      if admissible d r
      then Some (mkOrderDb (others d) (orders d ++ [Orders.mk id r]))
      else None
  | _, _, _, _ => None
  end.

(** [DELETE FROM ProductionOrders WHERE ProductionOrderId = @id] *)
Definition deleteOrder (d : OrderDb) (id : option Z) : OrderDb :=
  mkOrderDb (others d)
    (filter (fun r => negb (isTrue (eq3 (Orders.ProductionOrderId r) id)))
            (orders d)).

(** [COALESCE(@p, Column)] *)
Definition coalesce {A} (p : option A) (column : A) : A :=
  match p with Some v => v | None => column end.

(** The SET clause of the UPDATE. *)
Definition setFields (productId quantity planYear planWeek : option Z)
    (status : option string) (r : ProductionOrders.row) : ProductionOrders.row :=
  ProductionOrders.mk (coalesce productId (ProductionOrders.ProductId r))
                      (coalesce quantity (ProductionOrders.Quantity r))
                      (coalesce planYear (ProductionOrders.PlanYear r))
                      (coalesce planWeek (ProductionOrders.PlanWeek r))
                      (coalesce status (ProductionOrders.Status r)).

(** [UPDATE ProductionOrders
     SET ProductId = COALESCE(@productId, ProductId), Quantity = COALESCE(@quantity, Quantity),
         PlanYear = COALESCE(@planYear, PlanYear), PlanWeek = COALESCE(@planWeek, PlanWeek),
         Status = COALESCE(@status, Status), UpdatedAt = SYSDATETIME()
     WHERE ProductionOrderId = @id]
    A parameter is [None] when the request never declared it, [Some None]
    when it is NULL.  The statement names its five parameters whatever the
    request declared: it fails when one of them is not declared, or when a
    row it changes is no longer admissible; a failed statement changes
    nothing. *)
Definition updateOrder (d : OrderDb) (id : option Z)
    (productId quantity planYear planWeek : option (option Z))
    (status : option (option string)) : option OrderDb :=
  match productId, quantity, planYear, planWeek, status with
  | Some p, Some q, Some y, Some w, Some st =>
      let hit r := isTrue (eq3 (Orders.ProductionOrderId r) id) in
      let rows := map (fun r => if hit r
                                then Orders.mk (Orders.ProductionOrderId r)
                                               (setFields p q y w st (Orders.fields r))
                                else r) (orders d) in
      if forallb (fun r => negb (hit r) || admissible d (Orders.fields r)) rows
      then Some (mkOrderDb (others d) rows)
      else None
  | _, _, _, _, _ => None
  end.

End OrderStatement.

Section OrderHandlers.

Variable convert : SqlType -> JsVal -> option Z.

(** POST /api/production-orders, with [fresh] the id the database hands
    out.  The reply is [None] when the handler throws before its [try]. *)
Definition postProductionOrder (fresh : Z) (b : OrderBody) (c : OrderConn)
    : option OrderReply * OrderConn :=
  if negb (truthy (o_productId b)) || negb (truthy (o_quantity b))
     || negb (truthy (o_planYear b)) || negb (truthy (o_planWeek b))
  then (Some (Refused 400 "productId, quantity, planYear, planWeek are required"), c)
  else
    match normStatusOfPost (o_status b) with
    | None => (None, c)
    | Some normStatus =>
        if negb (isOrderStatus normStatus)
        then (Some (Refused 400 "status must be INITIAL, ACTIVE or COMPLETE"), c)
        else
          match fst ((getPool ;;;
                      p <- bindParam convert Int (o_productId b) ;;
                      q <- bindParam convert Decimal18_3 (o_quantity b) ;;
                      y <- bindParam convert Int (o_planYear b) ;;
                      w <- bindParam convert Int (o_planWeek b) ;;
                      ret (OrderStatement.insertOrder (odb c) fresh p q y w normStatus))
                     (connOf c)) with
          | Returned (Some d') => (Some (Created fresh), mkOrderConn d' (up c))
          | _ => (Some (Refused 500 "Failed to create production order"), c)
          end
    end.

(** [if (test) request.input(name, type, v)]: the parameter is declared
    only when the test passes. *)
Definition inputIf (test : bool) (ty : SqlType) (v : JsVal)
    : Task (option (option Z)) :=
  if test then (x <- bindParam convert ty v ;; ret (Some x)) else ret None.

(** What [inputIf] leaves for the statement: [None] when the driver
    rejects the value, [Some None] when the parameter is not declared. *)
Definition declared (test : bool) (ty : SqlType) (v : JsVal)
    : option (option (option Z)) :=
  if test then option_map Some (bound convert ty v) else Some None.

(** PUT /api/production-orders/:id *)
Definition putProductionOrder (id : string) (b : OrderBody) (c : OrderConn)
    : option OrderReply * OrderConn :=
  let n := parseIntSafe (Some id) in
  if negb (truthy n) then (Some (Refused 400 "Invalid id"), c)
  else
    match normStatusOfPut (o_status b) with
    | None => (None, c)
    | Some normStatus =>
        if truthy (match normStatus with Some s => JStr s | None => JNull end)
           && negb (match normStatus with
                    | Some s => isOrderStatus s
                    | None => false
                    end)
        then (Some (Refused 400 "status must be INITIAL, ACTIVE or COMPLETE"), c)
        else
          match fst ((getPool ;;;
                      i <- bindNumber Int n ;;
                      p <- inputIf (truthy (o_productId b)) Int (o_productId b) ;;
                      q <- inputIf (notNullish (o_quantity b)) Decimal18_3 (o_quantity b) ;;
                      y <- inputIf (truthy (o_planYear b)) Int (o_planYear b) ;;
                      w <- inputIf (truthy (o_planWeek b)) Int (o_planWeek b) ;;
                      ret (OrderStatement.updateOrder (odb c) i p q y w
                             (match normStatus with
                              | Some s => if truthy (JStr s) then Some (Some s) else None
                              | None => None
                              end)))
                     (connOf c)) with
          | Returned (Some d') => (Some Done, mkOrderConn d' (up c))
          | _ => (Some (Refused 500 "Failed to update production order"), c)
          end
    end.

(** DELETE /api/production-orders/:id *)
Definition deleteProductionOrder (id : string) (c : OrderConn)
    : option OrderReply * OrderConn :=
  let n := parseIntSafe (Some id) in
  if negb (truthy n) then (Some (Refused 400 "Invalid id"), c)
  else
    match fst ((getPool ;;;
                i <- bindNumber Int n ;;
                ret (OrderStatement.deleteOrder (odb c) i))
               (connOf c)) with
    | Returned d' => (Some Done, mkOrderConn d' (up c))
    | Thrown => (Some (Refused 500 "Failed to delete production order"), c)
    end.

End OrderHandlers.

(** A database with the seed orders numbered as IDENTITY(1,1) numbers
    them. *)
Definition seedOrders (c : Collation) : OrderDb :=
  mkOrderDb (seed c)
    [ Orders.mk 1 (ProductionOrders.mk 1 5000 2025 48 "ACTIVE");
      Orders.mk 2 (ProductionOrders.mk 1 5000 2025 49 "ACTIVE");
      Orders.mk 3 (ProductionOrders.mk 2 3000 2025 49 "COMPLETE");
      Orders.mk 4 (ProductionOrders.mk 1 10000 2025 50 "INITIAL") ].

(** ** The language service of [i18n.js] *)

Module I18n.

(** The object [I18n] and what it writes around it: its properties
    [currentLang] and [translations] (a language code with the document
    loaded for it, latest first), the entry [app_language] of localStorage
    ([None] when absent), the [lang] attribute of the document, the files
    requested with [fetch], the [languageChanged] events dispatched, the
    messages posted to the parent window and the number of calls of
    [updatePage]. *)
Record State : Type := mkState
  { currentLang : string;
    translations : list (string * JsVal);
    storage : option string;
    htmlLang : string;
    fetched : list string;
    dispatched : list string;
    posted : list string;
    updates : nat }.

(** [this.translations[lang]], for a code that is no property of
    Object.prototype. *)
Definition translationsOf (lang : string) (s : State) : JsVal :=
  match find (fun e => String.eqb (fst e) lang) (translations s) with
  | Some e => snd e
  | None => JUndefined
  end.

(** An entry of [getSupportedLanguages()]. *)
Record Language : Type := mkLanguage
  { code : string; name : string; nativeName : string }.

Definition getSupportedLanguages : list Language :=
  [ mkLanguage "vi" "Tiếng Việt" "Tiếng Việt";
    mkLanguage "en" "English" "English";
    mkLanguage "ko" "Korean" "한국어" ]%string.

(** [getCurrentLanguage()] *)
Definition getCurrentLanguage (s : State) : string := currentLang s.

(** [['vi', 'en', 'ko'].includes(lang)] *)
Definition includes (lang : string) : bool :=
  existsb (String.eqb lang) ["vi"; "en"; "ko"]%string.

(** The object as the script creates it on a page whose localStorage entry
    and [lang] attribute are given. *)
Definition fresh (stored : option string) (lang : string) : State :=
  mkState "vi" [] stored lang [] [] [] 0.

Section Page.

(** What [fetch] of [/modules/assets/i18n/<lang>.json] followed by
    [response.json()] gives: the document, or [None] when the request
    fails, the response is not ok or its body is no JSON. *)
Variable fetchJson : string -> option JsVal.

(** [window.parent && window.parent !== window] *)
Variable framed : bool.

(** The [try] block of [loadTranslations]: the document when it is loaded. *)
Definition tryLoad (lang : string) (s : State) : option JsVal * State :=
  let s1 := mkState (currentLang s) (translations s) (storage s) (htmlLang s)
                    (fetched s ++ [lang]) (dispatched s) (posted s) (updates s) in
  match fetchJson lang with
  | Some doc =>
      (Some doc,
       mkState (currentLang s1) ((lang, doc) :: translations s1) (storage s1)
               (htmlLang s1) (fetched s1) (dispatched s1) (posted s1) (updates s1))
  | None => (None, s1)
  end.

(** [loadTranslations(lang)]: on a failure it calls itself with 'vi' unless
    [lang] is 'vi' already, and that call cannot call itself again; [{}]
    when nothing could be loaded. *)
Definition loadTranslations (lang : string) (s : State) : JsVal * State :=
  match tryLoad lang s with
  | (Some doc, s1) => (doc, s1)
  | (None, s1) =>
      if negb (String.eqb lang "vi")
      then match tryLoad "vi" s1 with
           | (Some doc, s2) => (doc, s2)
           | (None, s2) => (JObj, s2)
           end
      else (JObj, s1)
  end.

(** [setLanguage(lang)] *)
Definition setLanguage (lang : string) (s : State) : State :=
  let lang := if includes lang then lang else "vi"%string in
  let s1 := mkState lang (translations s) (Some lang) (htmlLang s)
                    (fetched s) (dispatched s) (posted s) (updates s) in
  let s2 := if negb (truthy (translationsOf lang s1))
            then snd (loadTranslations lang s1) else s1 in
  mkState (currentLang s2) (translations s2) (storage s2) lang
          (fetched s2) (dispatched s2 ++ [lang])
          (if framed then posted s2 ++ [lang] else posted s2)
          (S (updates s2)).

(** [init()], with [localStorage.getItem('app_language') || 'vi']. *)
Definition init (s : State) : State :=
  setLanguage (match storage s with
               | Some l => if String.eqb l "" then "vi"%string else l
               | None => "vi"%string
               end) s.

End Page.

(** The document [t] reads its texts from: [this.translations[this.currentLang]]. *)
Definition active (s : State) : JsVal := translationsOf (currentLang s) s.

End I18n.

(** ** Deleting items and purchase orders *)

Module Cascade.

(** [DELETE FROM OpeningBalances WHERE ItemType = @itemType AND ItemId = @itemId] *)
Definition deleteOpeningBalance (s : Store) (itemType : ItemType)
    (itemId : option Z) : option Store :=
  Some (withOpeningBalances s
          (filter (fun r =>
                     negb (isTrue (and3 (Some (itemType_eqb (OpeningBalances.ItemType r)
                                                            itemType))
                                        (eq3 (OpeningBalances.ItemId r) itemId))))
                  (openingBalances s))).

(** [DELETE FROM Products WHERE ProductId = @id], with the rows of
    SalesPlans and ProductionOrders that reference the product deleted by
    ON DELETE CASCADE. *)
Definition deleteProduct (s : Store) (id : option Z) : option Store :=
  Some (mkStore (collation s)
          (filter (fun r => negb (isTrue (eq3 (Products.ProductId r) id)))
                  (products s))
          (openingBalances s)
          (filter (fun r => negb (isTrue (eq3 (SalesPlans.ProductId r) id)))
                  (salesPlans s))
          (filter (fun r => negb (isTrue (eq3 (ProductionOrders.ProductId r) id)))
                  (productionOrders s))
          (purchaseOrders s) (purchaseOrderLines s)).

(** [DELETE FROM Materials WHERE MaterialId = @id], with the rows of
    PurchaseOrderLines that reference the material deleted by ON DELETE
    CASCADE. *)
Definition deleteMaterial (s : Store) (id : option Z) : option Store :=
  Some (mkStore (collation s) (products s) (openingBalances s) (salesPlans s)
          (productionOrders s) (purchaseOrders s)
          (filter (fun r => negb (isTrue (eq3 (PurchaseOrderLines.MaterialId r) id)))
                  (purchaseOrderLines s))).

(** [DELETE FROM PurchaseOrders WHERE PurchaseOrderId = @id], with the lines
    of the order deleted by ON DELETE CASCADE. *)
Definition deletePurchaseOrder (s : Store) (id : option Z) : option Store :=
  Some (mkStore (collation s) (products s) (openingBalances s) (salesPlans s)
          (productionOrders s)
          (filter (fun r => negb (isTrue (eq3 (PurchaseOrders.PurchaseOrderId r) id)))
                  (purchaseOrders s))
          (filter (fun r => negb (isTrue (eq3 (PurchaseOrderLines.PurchaseOrderId r) id)))
                  (purchaseOrderLines s))).

End Cascade.

(** [["P", "M"].includes(itemType)] for [itemType] a text. *)
Definition itemTypeNamed (itemType : string) : option ItemType :=
  asItemType (JStr itemType).

(** DELETE /api/items/:type/:id *)
Definition deleteItem (type id : string) : Conn -> Response * Conn :=
  let itemType := toUpperCase type in
  let itemId := parseIntSafe (Some id) in
  match itemTypeNamed itemType with
  | None => fun c => (fail 400 "type must be P or M", c)
  | Some ty =>
      if negb (truthy itemId) then fun c => (fail 400 "Invalid id", c)
      else
        handle
          (getPool ;;;
           i <- bindNumber Int itemId ;;
           execute (fun s => Cascade.deleteOpeningBalance s ty i) ;;;
           (match ty with
            | P => execute (fun s => Cascade.deleteProduct s i)
            | M => execute (fun s => Cascade.deleteMaterial s i)
            end) ;;;
           ret (json Ok))
          (serverError "Failed to delete item")
  end.

(** DELETE /api/purchase-orders/:id *)
Definition deletePurchaseOrder (id : string) : Conn -> Response * Conn :=
  let n := parseIntSafe (Some id) in
  if negb (truthy n) then fun c => (fail 400 "Invalid id", c)
  else
    handle
      (getPool ;;;
       i <- bindNumber Int n ;;
       execute (fun s => Cascade.deletePurchaseOrder s i) ;;;
       ret (json Ok))
      (serverError "Failed to delete purchase order").

(** Every line belongs to a stored order (the FOREIGN KEY of
    PurchaseOrderLines). *)
Definition linesHaveOrders (s : Store) : Prop :=
  forall l, In l (purchaseOrderLines s) ->
            exists po, In po (purchaseOrders s)
                       /\ PurchaseOrders.PurchaseOrderId po
                          = PurchaseOrderLines.PurchaseOrderId l.

(** A request for the rows of one item in a range of weeks. *)
Definition rowsOf (e : RangeEndpoint) (q : Query) (n fy fw ty tw : Z) : Prop :=
  readsAs (itemFilter e q) n
  /\ readsAs (q_fromYear q) fy /\ readsAs (q_fromWeek q) fw
  /\ readsAs (q_toYear q) ty /\ readsAs (q_toWeek q) tw.

(* ################################################################## *)
(** * Properties *)
(* ################################################################## *)

(** ** Reading parameters *)

Example parseInt_plain : parseInt "2025" = JNum 2025.
Proof. reflexivity. Qed.

Example parseInt_prefix : parseInt " -12abc" = JNum (-12).
Proof. reflexivity. Qed.

Example parseInt_letters : parseInt "abc" = JNaN.
Proof. reflexivity. Qed.

Example parseIntSafe_empty : parseIntSafe (Some ""%string) = JNull.
Proof. reflexivity. Qed.

Example toUpperCase_mixed : toUpperCase "Confirm" = "CONFIRM"%string.
Proof. reflexivity. Qed.

Lemma digits_acc_some (s : string) (a : Z) :
  exists n, digits s (Some a) = Some n.
Proof.
  revert a; induction s as [|c r IH]; intros a; simpl.
  - now exists a.
  - destruct (isDigit c); [apply IH | now exists a].
Qed.

Lemma parseInt_NaN_iff (s : string) :
  parseInt s = JNaN <-> hasLeadingInteger s = false.
Proof.
  unfold parseInt, hasLeadingInteger.
  destruct (signOf (trimStart s)) as [sg r]; simpl.
  destruct r as [|c r]; simpl.
  - tauto.
  - destruct (isDigit c) eqn:D.
    + match goal with
      | |- context [digits r (Some ?a)] =>
          destruct (digits_acc_some r a) as [n ->]
      end.
      split; discriminate.
    + tauto.
Qed.

Lemma parseInt_shape (s : string) :
  parseInt s = JNaN \/ exists n, parseInt s = JNum n.
Proof.
  unfold parseInt. destruct (signOf (trimStart s)) as [sg r].
  destruct (digits r None); eauto.
Qed.

Lemma parseIntSafe_shape (v : option string) :
  parseIntSafe v = JNull \/ parseIntSafe v = JNaN
  \/ exists n, parseIntSafe v = JNum n.
Proof.
  destruct v as [s|]; simpl; auto.
  destruct (String.eqb s ""); auto.
  destruct (parseInt_shape s); auto.
Qed.

Lemma hasLeadingInteger_empty : hasLeadingInteger "" = false.
Proof. reflexivity. Qed.

Lemma unreadable_falsy (v : option string) :
  unreadable v = true -> truthy (parseIntSafe v) = false.
Proof.
  destruct v as [s|]; simpl; [|reflexivity].
  intros H. destruct (String.eqb s ""); [reflexivity|].
  apply negb_true_iff, parseInt_NaN_iff in H. now rewrite H.
Qed.

Lemma readsAs_truthy (v : option string) (n : Z) :
  readsAs v n -> truthy (parseIntSafe v) = true.
Proof.
  intros (-> & Hn & _). simpl. now apply negb_true_iff, Z.eqb_neq.
Qed.

Lemma readsAs_bind (v : option string) (n : Z) (c : Conn) :
  readsAs v n -> bindNumber Int (parseIntSafe v) c = (Returned (Some n), c).
Proof.
  intros (-> & _ & R). unfold bindNumber. now rewrite R.
Qed.

Lemma filterReadsAs_bind (v : option string) (n : option Z) (c : Conn) :
  filterReadsAs v n -> bindNumber Int (parseIntSafe v) c = (Returned n, c).
Proof.
  destruct n as [i|]; unfold filterReadsAs.
  - intros (-> & R). unfold bindNumber. now rewrite R.
  - now intros ->.
Qed.

(** ** Three-valued clauses *)

Lemma isTrue_and3 (a b : tri) : isTrue (and3 a b) = isTrue a && isTrue b.
Proof. destruct a as [[|]|], b as [[|]|]; reflexivity. Qed.

Lemma isTrue_or3 (a b : tri) : isTrue (or3 a b) = isTrue a || isTrue b.
Proof. destruct a as [[|]|], b as [[|]|]; reflexivity. Qed.

Lemma notBefore_spec (y w fy fw : Z) :
  isTrue (notBefore y w (Some fy) (Some fw)) = true <-> weekLeq fy fw y w.
Proof.
  unfold notBefore, weekLeq, gt3, eq3, ge3, cmp3.
  rewrite isTrue_or3, isTrue_and3. simpl.
  destruct (Z.gtb_spec y fy), (Z.eqb_spec y fy), (Z.geb_spec w fw);
    simpl; split; intros; try discriminate; try reflexivity; lia.
Qed.

Lemma notAfter_spec (y w ty tw : Z) :
  isTrue (notAfter y w (Some ty) (Some tw)) = true <-> weekLeq y w ty tw.
Proof.
  unfold notAfter, weekLeq, lt3, eq3, le3, cmp3.
  rewrite isTrue_or3, isTrue_and3. simpl.
  destruct (Z.ltb_spec y ty), (Z.eqb_spec y ty), (Z.leb_spec w tw);
    simpl; split; intros; try discriminate; try reflexivity; lia.
Qed.

Lemma inverted_excludes (fy fw ty tw y w : Z) :
  inverted fy fw ty tw ->
  isTrue (notBefore y w (Some fy) (Some fw))
  && isTrue (notAfter y w (Some ty) (Some tw)) = false.
Proof.
  intros I. apply not_true_is_false. intros H.
  apply andb_true_iff in H as [H1 H2].
  apply notBefore_spec in H1. apply notAfter_spec in H2.
  unfold inverted, weekLeq in *. lia.
Qed.

Lemma filter_none {A} (f : A -> bool) (l : list A) :
  (forall x, In x l -> f x = false) -> filter f l = [].
Proof.
  induction l as [|a l IH]; simpl; intros H; [reflexivity|].
  rewrite (H a) by now left. apply IH. intros; apply H; now right.
Qed.

(** ** The week-range endpoints *)

Lemma range_condition (a b c d : option string) (fy fw ty tw : Z) :
  readsAs a fy -> readsAs b fw -> readsAs c ty -> readsAs d tw ->
  negb (truthy (parseIntSafe a)) || negb (truthy (parseIntSafe b))
  || negb (truthy (parseIntSafe c)) || negb (truthy (parseIntSafe d)) = false.
Proof.
  intros Ha Hb Hc Hd.
  now rewrite (readsAs_truthy _ _ Ha), (readsAs_truthy _ _ Hb),
              (readsAs_truthy _ _ Hc), (readsAs_truthy _ _ Hd).
Qed.

(** What each endpoint answers once its parameters are read and the
    database is reached: the rows of its statement. *)
Lemma getProduction_runs (q : Query) (c : Conn) (p : option Z) (fy fw ty tw : Z) :
  reachable c = true ->
  filterReadsAs (q_productId q) p ->
  readsAs (q_fromYear q) fy -> readsAs (q_fromWeek q) fw ->
  readsAs (q_toYear q) ty -> readsAs (q_toWeek q) tw ->
  getProduction q c =
    (json (QtyRows (Statement.selectProduction (store c) p
                      (Some fy) (Some fw) (Some ty) (Some tw))),
     afterOne c).
Proof.
  intros R Hp Hfy Hfw Hty Htw. unfold getProduction.
  rewrite (range_condition _ _ _ _ _ _ _ _ Hfy Hfw Hty Htw).
  unfold handle, bind, getPool. rewrite R.
  rewrite (filterReadsAs_bind _ _ _ Hp), (readsAs_bind _ _ _ Hfy),
          (readsAs_bind _ _ _ Hfw), (readsAs_bind _ _ _ Hty),
          (readsAs_bind _ _ _ Htw).
  reflexivity.
Qed.

Lemma getPurchase_runs (v : ServerVersion) (q : Query) (c : Conn)
    (m : option Z) (fy fw ty tw : Z) :
  reachable c = true ->
  filterReadsAs (q_materialId q) m ->
  readsAs (q_fromYear q) fy -> readsAs (q_fromWeek q) fw ->
  readsAs (q_toYear q) ty -> readsAs (q_toWeek q) tw ->
  getPurchase v q c =
    (json (QtyRows (Statement.selectPurchase v (store c) m
                      (Some fy) (Some fw) (Some ty) (Some tw))),
     afterOne c).
Proof.
  intros R Hm Hfy Hfw Hty Htw. unfold getPurchase.
  rewrite (range_condition _ _ _ _ _ _ _ _ Hfy Hfw Hty Htw).
  unfold handle, bind, getPool. rewrite R.
  rewrite (filterReadsAs_bind _ _ _ Hm), (readsAs_bind _ _ _ Hfy),
          (readsAs_bind _ _ _ Hfw), (readsAs_bind _ _ _ Hty),
          (readsAs_bind _ _ _ Htw).
  reflexivity.
Qed.

Lemma getSalesPlan_runs (q : Query) (c : Conn) (p fy fw ty tw : Z) :
  reachable c = true ->
  readsAs (q_productId q) p ->
  readsAs (q_fromYear q) fy -> readsAs (q_fromWeek q) fw ->
  readsAs (q_toYear q) ty -> readsAs (q_toWeek q) tw ->
  getSalesPlan q c =
    (json (PlanRows (Statement.selectSalesPlan (store c) (Some p)
                       (Some fy) (Some fw) (Some ty) (Some tw))),
     afterOne c).
Proof.
  intros R Hp Hfy Hfw Hty Htw. unfold getSalesPlan.
  rewrite (readsAs_truthy _ _ Hp). cbn [negb orb].
  rewrite (range_condition _ _ _ _ _ _ _ _ Hfy Hfw Hty Htw).
  unfold handle, bind, getPool. rewrite R.
  rewrite (readsAs_bind _ _ _ Hp), (readsAs_bind _ _ _ Hfy),
          (readsAs_bind _ _ _ Hfw), (readsAs_bind _ _ _ Hty),
          (readsAs_bind _ _ _ Htw).
  reflexivity.
Qed.

Lemma selectProduction_inverted (s : Store) (p : option Z) (fy fw ty tw : Z) :
  inverted fy fw ty tw ->
  Statement.selectProduction s p (Some fy) (Some fw) (Some ty) (Some tw) = [].
Proof.
  intros I. unfold Statement.selectProduction.
  rewrite filter_none; [reflexivity|].
  intros r _. unfold Statement.whereProduction.
  rewrite !isTrue_and3.
  rewrite <- (andb_assoc _ (isTrue (notBefore _ _ _ _))).
  rewrite (inverted_excludes _ _ _ _ _ _ I).
  now rewrite andb_false_r.
Qed.

Lemma selectPurchase_inverted (v : ServerVersion) (s : Store) (m : option Z)
    (fy fw ty tw : Z) :
  inverted fy fw ty tw ->
  Statement.selectPurchase v s m (Some fy) (Some fw) (Some ty) (Some tw) = [].
Proof.
  intros I. unfold Statement.selectPurchase.
  rewrite filter_none; [reflexivity|].
  intros [pol po] _. unfold Statement.wherePurchase.
  rewrite !isTrue_and3.
  rewrite <- (andb_assoc _ (isTrue (notBefore _ _ _ _))).
  rewrite (inverted_excludes _ _ _ _ _ _ I).
  now rewrite andb_false_r.
Qed.

Lemma selectSalesPlan_inverted (s : Store) (p : option Z) (fy fw ty tw : Z) :
  inverted fy fw ty tw ->
  Statement.selectSalesPlan s p (Some fy) (Some fw) (Some ty) (Some tw) = [].
Proof.
  intros I. unfold Statement.selectSalesPlan.
  rewrite filter_none; [reflexivity|].
  intros r _.
  rewrite !isTrue_and3.
  rewrite <- (andb_assoc _ (isTrue (notBefore _ _ _ _))).
  rewrite (inverted_excludes _ _ _ _ _ _ I).
  now rewrite andb_false_r.
Qed.

(** C5, as amended.  A week-range endpoint does not reject an inverted
    range: when the parameters are read (nonzero integers, the item filter
    of production and purchase possibly absent) and the database is
    reached, the statement runs and the answer is 200 with an empty list. *)
Theorem inverted_range_answers_empty
    (e : RangeEndpoint) (q : Query) (c : Conn) (fy fw ty tw : Z) :
  reachable c = true ->
  readsAs (q_fromYear q) fy -> readsAs (q_fromWeek q) fw ->
  readsAs (q_toYear q) ty -> readsAs (q_toWeek q) tw ->
  (match e with
   | SalesPlan => exists p, readsAs (q_productId q) p
   | _ => exists f, filterReadsAs (itemFilter e q) f
   end) ->
  inverted fy fw ty tw ->
  serve e q c = (json (noRows e), afterOne c).
Proof.
  intros R Hfy Hfw Hty Htw Hid I.
  destruct e as [|v|]; destruct Hid as [f Hf]; simpl.
  - rewrite (getProduction_runs q c f fy fw ty tw) by assumption.
    now rewrite selectProduction_inverted.
  - rewrite (getPurchase_runs v q c f fy fw ty tw) by assumption.
    now rewrite selectPurchase_inverted.
  - rewrite (getSalesPlan_runs q c f fy fw ty tw) by assumption.
    now rewrite selectSalesPlan_inverted.
Qed.

Lemma readsAs_text (s : string) (n : Z) :
  parseIntSafe (Some s) = JNum n -> n <> 0 -> inRange Int n = true ->
  readsAs (Some s) n.
Proof. now repeat split. Qed.

(** A concrete parameter is read by evaluation. *)
Ltac reads := apply readsAs_text; [reflexivity | lia | reflexivity].

Lemma inverted_range_answers_empty_witness :
  serve Production (query2025 "50" "48") (idle (seed CaseInsensitive))
  = (json (QtyRows []), afterOne (idle (seed CaseInsensitive))).
Proof.
  apply (inverted_range_answers_empty Production (query2025 "50" "48")
           (idle (seed CaseInsensitive)) 2025 50 2025 48).
  - reflexivity.
  - reads.
  - reads.
  - reads.
  - reads.
  - exists None. reflexivity.
  - right. lia.
Defined.

(** C5, the claim as stated fails: the range 2025/50 .. 2025/48 is inverted,
    yet each endpoint runs its statement and answers 200 with no rows. *)
Lemma inverted_range_not_rejected :
  inverted 2025 50 2025 48
  /\ (forall e : RangeEndpoint,
        let q := mkQuery (Some "1"%string) None (Some "2025"%string)
                         (Some "50"%string) (Some "2025"%string) (Some "48"%string) in
        let r := serve e q (idle (seed CaseInsensitive)) in
        status (fst r) = 200 /\ body (fst r) = noRows e
        /\ executed (snd r) = 1%nat /\ status (fst r) <> 400).
Proof.
  split; [right; lia|].
  intros [|[|]|]; cbv zeta; repeat split; try reflexivity; discriminate.
Qed.

(** C6, as amended.  When a required parameter of a week-range endpoint
    (fromYear, fromWeek, toYear, toWeek, and productId for the sales plan)
    is absent, empty or has no leading integer, the endpoint answers 400
    with an { error } body and leaves the connection as it was: no
    statement is executed. *)
Theorem unreadable_parameter_rejected
    (e : RangeEndpoint) (q : Query) (c : Conn) :
  existsb unreadable (required e q) = true ->
  exists msg, serve e q c = (fail 400 msg, c).
Proof.
  intros H.
  destruct e as [|v|]; simpl in H; unfold serve, getProduction, getPurchase, getSalesPlan;
    repeat (apply orb_true_iff in H as [H|H]); try discriminate;
    apply unreadable_falsy in H; rewrite H;
    repeat match goal with
           | |- context [truthy ?x] => destruct (truthy x)
           end;
    simpl; eexists; reflexivity.
Qed.

Lemma unreadable_parameter_rejected_witness :
  exists msg,
    serve SalesPlan
      (mkQuery (Some "abc"%string) None (Some "2025"%string) (Some "48"%string)
               (Some "2025"%string) (Some "50"%string))
      (idle (seed CaseInsensitive))
    = (fail 400 msg, idle (seed CaseInsensitive)).
Proof.
  apply (unreadable_parameter_rejected SalesPlan). reflexivity.
Defined.

(** C6, the claim as stated fails: "2025abc" is not numeric, yet
    GET /api/production reads it as 2025, runs its statement and answers
    200 with the rows of weeks 48 to 50. *)
Lemma nonnumeric_parameter_accepted :
  isNumeric "2025abc" = false
  /\ getProduction
       (mkQuery None None (Some "2025abc"%string) (Some "48"%string)
                (Some "2025"%string) (Some "50"%string))
       (idle (seed CaseInsensitive))
     = (mkResponse 200
          (QtyRows [mkQtyRow 1 2025 48 5000; mkQtyRow 1 2025 49 5000;
                    mkQtyRow 2 2025 49 3000]),
        mkConn (seed CaseInsensitive) true 1 None)
  /\ status (fst (getProduction
                    (mkQuery None None (Some "2025abc"%string) (Some "48"%string)
                             (Some "2025"%string) (Some "50"%string))
                    (idle (seed CaseInsensitive)))) <> 400.
Proof. repeat split. discriminate. Qed.

(** ** Opening balances *)

Lemma itemType_eqb_spec (a b : ItemType) : itemType_eqb a b = true <-> a = b.
Proof. destruct a, b; simpl; split; congruence. Qed.

Lemma onOpeningBalance_spec (ty : ItemType) (n : Z) (r : OpeningBalances.row) :
  Statement.onOpeningBalance ty n r = true <-> openingKey r = (ty, n).
Proof.
  unfold Statement.onOpeningBalance, openingKey.
  rewrite andb_true_iff, itemType_eqb_spec, Z.eqb_eq.
  split; [intros [-> ->]; reflexivity | intros [= -> ->]; auto].
Qed.

Lemma filter_unique_key {A B} (f : A -> B) (p : A -> bool) (b : B)
    (l : list A) (r : A) :
  (forall x, p x = true <-> f x = b) ->
  NoDup (map f l) -> In r l -> f r = b -> filter p l = [r].
Proof.
  intros Hp. induction l as [|a l IH]; simpl; intros ND Hin Hr; [contradiction|].
  apply NoDup_cons_iff in ND as [Hnotin ND'].
  destruct (p a) eqn:Pa.
  - apply Hp in Pa.
    destruct Hin as [->|Hin].
    + f_equal. apply filter_none. intros x Hx.
      apply not_true_is_false. intros Px. apply Hp in Px.
      apply Hnotin. rewrite Hr, <- Px. now apply in_map.
    + exfalso. apply Hnotin. rewrite Pa, <- Hr. now apply in_map.
  - destruct Hin as [->|Hin].
    + apply Hp in Hr. congruence.
    + now apply IH.
Qed.

Lemma getOpeningBalance_runs (type id : string) (n : Z) (c : Conn) :
  reachable c = true ->
  readsAs (Some id) n ->
  getOpeningBalance type id c =
    (json (match filter (Statement.onOpeningBalance
                           (if String.eqb type "product" then P else M) n)
                        (openingBalances (store c)) with
           | r :: _ => Opening (OpeningBalances.StartYear r)
                               (OpeningBalances.StartWeek r)
                               (OpeningBalances.BalanceQty r)
           | [] => Null
           end),
     afterOne c).
Proof.
  intros R Hid. unfold getOpeningBalance.
  rewrite (readsAs_truthy _ _ Hid). cbn [negb].
  unfold handle, bind, getPool. rewrite R.
  rewrite (readsAs_bind _ _ _ Hid).
  unfold select, ret, afterOne, Statement.selectOpeningBalance. simpl.
  repeat f_equal.
  rewrite (filter_ext _ (Statement.onOpeningBalance
                           (if String.eqb type "product" then P else M) n)).
  - destruct (filter _ _); reflexivity.
  - intros r. unfold Statement.onOpeningBalance, eq3, cmp3.
    now destruct (itemType_eqb _ _), (_ =? _).
Qed.

(** C8.  For an id read as a nonzero integer and a reachable database that
    honours UNIQUE(ItemType, ItemId): when no opening balance is stored for
    the item, GET /api/opening-balance/:type/:id succeeds (200) with null;
    when a row is stored, it answers that row's year, week and balance. *)
Theorem opening_balance_or_null (type id : string) (n : Z) (c : Conn) :
  reachable c = true ->
  readsAs (Some id) n ->
  uniqueOpening (store c) ->
  ((forall r, In r (openingBalances (store c)) ->
              openingKey r <> (itemTypeOf type, n)) ->
   getOpeningBalance type id c = (json Null, afterOne c))
  /\ (forall r, In r (openingBalances (store c)) ->
                openingKey r = (itemTypeOf type, n) ->
      getOpeningBalance type id c =
        (json (Opening (OpeningBalances.StartYear r)
                       (OpeningBalances.StartWeek r)
                       (OpeningBalances.BalanceQty r)),
         afterOne c)).
Proof.
  intros R Hid U.
  rewrite (getOpeningBalance_runs type id n c R Hid). fold (itemTypeOf type).
  set (ty := itemTypeOf type).
  split.
  - intros Hno. rewrite filter_none; [reflexivity|].
    intros r Hr. apply not_true_is_false. intros E.
    apply onOpeningBalance_spec in E. exact (Hno r Hr E).
  - intros r Hr Hk.
    rewrite (filter_unique_key openingKey _ (ty, n) _ r); auto.
    intros x. apply onOpeningBalance_spec.
Qed.

Lemma seed_unique (c : Collation) : uniqueOpening (seed c).
Proof.
  unfold uniqueOpening. simpl.
  repeat constructor; simpl; intuition discriminate.
Qed.

Lemma opening_balance_or_null_witness :
  getOpeningBalance "material" "7" (idle (seed CaseInsensitive))
    = (json Null, afterOne (idle (seed CaseInsensitive)))
  /\ getOpeningBalance "product" "1" (idle (seed CaseInsensitive))
    = (json (Opening 2025 47 20000), afterOne (idle (seed CaseInsensitive))).
Proof.
  split.
  - apply (opening_balance_or_null "material" "7" 7 (idle (seed CaseInsensitive))).
    + reflexivity.
    + reads.
    + apply seed_unique.
    + simpl. intuition (subst; discriminate).
  - apply (proj2 (opening_balance_or_null "product" "1" 1
                    (idle (seed CaseInsensitive)) eq_refl
                    (readsAs_text "1" 1 eq_refl ltac:(lia) eq_refl)
                    (seed_unique CaseInsensitive))
                 (OpeningBalances.mk P 1 2025 47 20000)).
    + simpl. auto.
    + reflexivity.
Defined.

(** ** PUT /api/opening-balance *)

Section DriverFacts.

Variable convert : SqlType -> JsVal -> option Z.

Lemma bindNumber_pure (ty : SqlType) (n : Z) (c : Conn) :
  bindNumber ty (JNum n) c =
    if inRange ty n then (Returned (Some n), c) else (Thrown, c).
Proof. unfold bindNumber. now destruct (inRange ty n). Qed.

Lemma bindParam_bound (ty : SqlType) (v : JsVal) (c : Conn) :
  bindParam convert ty v c =
    match bound convert ty v with
    | Some x => (Returned x, c)
    | None => (Thrown, c)
    end.
Proof.
  destruct v as [| |b|n| |s| |]; simpl; try reflexivity;
    try (destruct (convert ty _); [|reflexivity]);
    now destruct (inRange ty _).
Qed.

(** The handler once its checks pass: the four parameters are bound, then
    the MERGE runs. *)
Lemma putOpeningBalance_runs (b : OpeningBalanceBody) (ty : ItemType) (c : Conn) :
  asItemType (itemType b) = Some ty ->
  truthy (itemId b) = true -> truthy (startYear b) = true ->
  truthy (startWeek b) = true -> isUndefined (balanceQty b) = false ->
  reachable c = true ->
  putOpeningBalance convert b c =
    match bound convert Int (itemId b), bound convert SmallInt (startYear b),
          bound convert TinyInt (startWeek b),
          bound convert Decimal18_3 (balanceQty b) with
    | Some i, Some y, Some w, Some q =>
        match Statement.mergeOpeningBalance (store c) ty i y w q with
        | Some s' => (json Ok, mkConn s' (reachable c) (S (executed c)) (transaction c))
        | None => (fail 500 "Failed to upsert opening balance", afterOne c)
        end
    | _, _, _, _ => (fail 500 "Failed to upsert opening balance", c)
    end.
Proof.
  intros T Hi Hy Hw Hq R. unfold putOpeningBalance.
  rewrite T, Hi, Hy, Hw, Hq. cbn [negb orb].
  unfold handle, bind, getPool, serverError. rewrite R.
  rewrite !bindParam_bound.
  destruct (bound convert Int (itemId b)) as [i|]; [|reflexivity].
  rewrite !bindParam_bound.
  destruct (bound convert SmallInt (startYear b)) as [y|]; [|reflexivity].
  rewrite !bindParam_bound.
  destruct (bound convert TinyInt (startWeek b)) as [w|]; [|reflexivity].
  rewrite !bindParam_bound.
  destruct (bound convert Decimal18_3 (balanceQty b)) as [q|]; [|reflexivity].
  unfold execute, ret, afterOne.
  destruct (Statement.mergeOpeningBalance (store c) ty i y w q);
    rewrite ?R; reflexivity.
Qed.

(** Whatever the request, the handler either leaves the database as it was
    or leaves the result of one MERGE. *)
Lemma putOpeningBalance_cases (b : OpeningBalanceBody) (c : Conn) :
  (fst (putOpeningBalance convert b c) <> json Ok
   /\ store (snd (putOpeningBalance convert b c)) = store c)
  \/ (exists ty i y w q,
        asItemType (itemType b) = Some ty
        /\ bound convert Int (itemId b) = Some i
        /\ bound convert SmallInt (startYear b) = Some y
        /\ bound convert TinyInt (startWeek b) = Some w
        /\ bound convert Decimal18_3 (balanceQty b) = Some q
        /\ Statement.mergeOpeningBalance (store c) ty i y w q
           = Some (store (snd (putOpeningBalance convert b c)))
        /\ fst (putOpeningBalance convert b c) = json Ok).
Proof.
  destruct (asItemType (itemType b)) as [ty|] eqn:T.
  2:{ left. unfold putOpeningBalance. rewrite T. split; [discriminate|reflexivity]. }
  destruct (truthy (itemId b)) eqn:Hi.
  2:{ left. unfold putOpeningBalance. rewrite T, Hi.
      split; [discriminate|reflexivity]. }
  destruct (truthy (startYear b)) eqn:Hy.
  2:{ left. unfold putOpeningBalance. rewrite T, Hi, Hy.
      split; [discriminate|reflexivity]. }
  destruct (truthy (startWeek b)) eqn:Hw.
  2:{ left. unfold putOpeningBalance. rewrite T, Hi, Hy, Hw.
      split; [discriminate|reflexivity]. }
  destruct (isUndefined (balanceQty b)) eqn:Hq.
  { left. unfold putOpeningBalance. rewrite T, Hi, Hy, Hw, Hq.
    split; [discriminate|reflexivity]. }
  destruct (reachable c) eqn:R.
  2:{ left. unfold putOpeningBalance. rewrite T, Hi, Hy, Hw, Hq. cbn [negb orb].
      unfold handle, bind, getPool. rewrite R.
      split; [discriminate|reflexivity]. }
  rewrite (putOpeningBalance_runs b ty c T Hi Hy Hw Hq R).
  destruct (bound convert Int (itemId b)) as [i|];
    [|left; split; [discriminate|reflexivity]].
  destruct (bound convert SmallInt (startYear b)) as [y|];
    [|left; split; [discriminate|reflexivity]].
  destruct (bound convert TinyInt (startWeek b)) as [w|];
    [|left; split; [discriminate|reflexivity]].
  destruct (bound convert Decimal18_3 (balanceQty b)) as [q|];
    [|left; split; [discriminate|reflexivity]].
  destruct (Statement.mergeOpeningBalance (store c) ty i y w q) as [s'|] eqn:Mg.
  - right. exists ty, i, y, w, q. repeat split; try reflexivity. exact Mg.
  - left. split; [discriminate|reflexivity].
Qed.

End DriverFacts.

(** What a successful MERGE leaves in OpeningBalances. *)
Lemma mergeOpeningBalance_inv (s s' : Store) (ty : ItemType)
    (i y w q : option Z) :
  Statement.mergeOpeningBalance s ty i y w q = Some s' ->
  exists i' y' w' q',
    i = Some i' /\ y = Some y' /\ w = Some w' /\ q = Some q'
    /\ 1 <= w' <= 53
    /\ openingBalances s' =
         (if existsb (Statement.onOpeningBalance ty i') (openingBalances s)
          then map (fun r => if Statement.onOpeningBalance ty i' r
                             then OpeningBalances.mk (OpeningBalances.ItemType r)
                                    (OpeningBalances.ItemId r) y' w' q'
                             else r) (openingBalances s)
          else openingBalances s ++ [OpeningBalances.mk ty i' y' w' q']).
Proof.
  unfold Statement.mergeOpeningBalance.
  destruct i as [i'|], y as [y'|], w as [w'|], q as [q'|]; try discriminate.
  destruct ((1 <=? w') && (w' <=? 53)) eqn:W; [|discriminate].
  intros [= <-]. exists i', y', w', q'.
  apply andb_true_iff in W as [W1 W2].
  apply Z.leb_le in W1. apply Z.leb_le in W2.
  repeat split; auto.
Qed.

Lemma existsb_false_filter {A} (p : A -> bool) (l : list A) :
  existsb p l = false -> filter p l = [].
Proof.
  intros E. apply filter_none. intros x Hx.
  apply not_true_is_false. intros Px.
  assert (existsb p l = true) by (apply existsb_exists; eauto). congruence.
Qed.

Lemma update_keeps_keys (ty : ItemType) (i y w q : Z) (t : list OpeningBalances.row) :
  map openingKey
      (map (fun r => if Statement.onOpeningBalance ty i r
                     then OpeningBalances.mk (OpeningBalances.ItemType r)
                            (OpeningBalances.ItemId r) y w q
                     else r) t)
  = map openingKey t.
Proof.
  rewrite map_map. apply map_ext. intros r.
  now destruct (Statement.onOpeningBalance ty i r).
Qed.

Lemma mergeOpeningBalance_unique (s s' : Store) (ty : ItemType)
    (i y w q : option Z) :
  uniqueOpening s ->
  Statement.mergeOpeningBalance s ty i y w q = Some s' ->
  uniqueOpening s'.
Proof.
  intros U Mg.
  destruct (mergeOpeningBalance_inv _ _ _ _ _ _ _ Mg)
    as (i' & y' & w' & q' & -> & -> & -> & -> & _ & E).
  unfold uniqueOpening in *. rewrite E.
  destruct (existsb _ _) eqn:Ex.
  - now rewrite update_keeps_keys.
  - rewrite map_app. simpl.
    apply NoDup_app; [exact U | repeat constructor; simpl; tauto |].
    intros k Hk [<-|[]].
    apply in_map_iff in Hk as (r & Hr & Hin).
    apply onOpeningBalance_spec in Hr.
    assert (existsb (Statement.onOpeningBalance ty i') (openingBalances s) = true)
      by (apply existsb_exists; eauto).
    congruence.
Qed.

Lemma filter_map_commute {A} (p : A -> bool) (f : A -> A) (l : list A) :
  (forall x, p (f x) = p x) -> filter p (map f l) = map f (filter p l).
Proof.
  intros H. induction l as [|a l IH]; simpl; [reflexivity|].
  rewrite H. destruct (p a); simpl; now rewrite IH.
Qed.

Lemma mergeOpeningBalance_stored (s s' : Store) (ty : ItemType) (i y w q : Z) :
  uniqueOpening s ->
  Statement.mergeOpeningBalance s ty (Some i) (Some y) (Some w) (Some q) = Some s' ->
  filter (Statement.onOpeningBalance ty i) (openingBalances s')
  = [OpeningBalances.mk ty i y w q].
Proof.
  intros U Mg.
  destruct (mergeOpeningBalance_inv _ _ _ _ _ _ _ Mg)
    as (i' & y' & w' & q' & [= <-] & [= <-] & [= <-] & [= <-] & _ & E).
  rewrite E. destruct (existsb _ _) eqn:Ex.
  - apply existsb_exists in Ex as (r & Hin & Hr).
    rewrite filter_map_commute.
    + assert (K : openingKey r = (ty, i)) by now apply onOpeningBalance_spec.
      rewrite (filter_unique_key openingKey _ (ty, i) _ r); auto.
      * simpl. rewrite Hr. unfold openingKey in K. injection K as -> ->.
        reflexivity.
      * intros x. apply onOpeningBalance_spec.
    + intros x. destruct (Statement.onOpeningBalance ty i x) eqn:X; [|exact X].
      exact X.
  - rewrite filter_app, (existsb_false_filter _ _ Ex). simpl.
    assert (Statement.onOpeningBalance ty i (OpeningBalances.mk ty i y w q) = true)
      as -> by now apply onOpeningBalance_spec.
    reflexivity.
Qed.

Section OpeningBalanceUpsert.

Variable convert : SqlType -> JsVal -> option Z.

Lemma putOpeningBalance_unique (b : OpeningBalanceBody) (c : Conn) :
  uniqueOpening (store c) ->
  uniqueOpening (store (snd (putOpeningBalance convert b c))).
Proof.
  intros U.
  destruct (putOpeningBalance_cases convert b c)
    as [[_ ->] | (ty & i & y & w & q & _ & _ & _ & _ & _ & Mg & _)].
  - exact U.
  - exact (mergeOpeningBalance_unique _ _ _ _ _ _ _ U Mg).
Qed.

Lemma afterCalls_unique (calls : list OpeningBalanceBody) (c : Conn) :
  uniqueOpening (store c) ->
  uniqueOpening (store (afterCalls convert calls c)).
Proof.
  revert c. induction calls as [|b calls IH]; intros c U; simpl; [exact U|].
  apply IH. now apply putOpeningBalance_unique.
Qed.

(** C4.  From a database that honours UNIQUE(ItemType, ItemId), after any
    sequence of PUT /api/opening-balance calls the table still holds at
    most one row per (ItemType, ItemId); and when one more call answers
    { ok: true }, the rows stored for its key are exactly one row, carrying
    the year, week and quantity that call sent. *)
Theorem single_opening_balance
    (calls : list OpeningBalanceBody) (b : OpeningBalanceBody) (c : Conn) :
  uniqueOpening (store c) ->
  uniqueOpening (store (afterCalls convert calls c))
  /\ uniqueOpening (store (afterCalls convert (calls ++ [b]) c))
  /\ (fst (putOpeningBalance convert b (afterCalls convert calls c)) = json Ok ->
      exists ty i y w q,
        asItemType (itemType b) = Some ty
        /\ bound convert Int (itemId b) = Some (Some i)
        /\ bound convert SmallInt (startYear b) = Some (Some y)
        /\ bound convert TinyInt (startWeek b) = Some (Some w)
        /\ bound convert Decimal18_3 (balanceQty b) = Some (Some q)
        /\ filter (Statement.onOpeningBalance ty i)
                  (openingBalances (store (afterCalls convert (calls ++ [b]) c)))
           = [OpeningBalances.mk ty i y w q]).
Proof.
  intros U.
  pose proof (afterCalls_unique calls c U) as U1.
  split; [exact U1|]. split; [now apply afterCalls_unique|].
  intros OK.
  unfold afterCalls at 1. rewrite fold_left_app. simpl.
  fold (afterCalls convert calls c).
  destruct (putOpeningBalance_cases convert b (afterCalls convert calls c))
    as [[N _] | (ty & i & y & w & q & T & Bi & By & Bw & Bq & Mg & _)];
    [contradiction|].
  destruct (mergeOpeningBalance_inv _ _ _ _ _ _ _ Mg)
    as (i' & y' & w' & q' & -> & -> & -> & -> & _ & _).
  exists ty, i', y', w', q'. repeat split; auto.
  exact (mergeOpeningBalance_stored _ _ _ _ _ _ _ U1 Mg).
Qed.

End OpeningBalanceUpsert.

Lemma single_opening_balance_witness :
  uniqueOpening (store (afterCalls noConversion [openingCall 1 2025 40 7000]
                          (idle (seed CaseInsensitive))))
  /\ uniqueOpening (store (afterCalls noConversion
                             ([openingCall 1 2025 40 7000] ++ [openingCall 1 2026 2 0])
                             (idle (seed CaseInsensitive))))
  /\ (fst (putOpeningBalance noConversion (openingCall 1 2026 2 0)
             (afterCalls noConversion [openingCall 1 2025 40 7000]
                (idle (seed CaseInsensitive)))) = json Ok ->
      exists ty i y w q,
        asItemType (itemType (openingCall 1 2026 2 0)) = Some ty
        /\ bound noConversion Int (itemId (openingCall 1 2026 2 0)) = Some (Some i)
        /\ bound noConversion SmallInt (startYear (openingCall 1 2026 2 0)) = Some (Some y)
        /\ bound noConversion TinyInt (startWeek (openingCall 1 2026 2 0)) = Some (Some w)
        /\ bound noConversion Decimal18_3 (balanceQty (openingCall 1 2026 2 0)) = Some (Some q)
        /\ filter (Statement.onOpeningBalance ty i)
                  (openingBalances
                     (store (afterCalls noConversion
                               ([openingCall 1 2025 40 7000] ++ [openingCall 1 2026 2 0])
                               (idle (seed CaseInsensitive)))))
           = [OpeningBalances.mk ty i y w q]).
Proof.
  apply (single_opening_balance noConversion [openingCall 1 2025 40 7000]
           (openingCall 1 2026 2 0) (idle (seed CaseInsensitive))).
  apply seed_unique.
Defined.

(** The concrete run behind the witness: two upserts for product 1 leave one
    row for it, with the week and quantity of the second. *)
Example upsert_twice :
  openingBalances
    (store (afterCalls noConversion
              [openingCall 1 2025 40 7000; openingCall 1 2026 2 0]
              (idle (seed CaseInsensitive))))
  = [ OpeningBalances.mk P 1 2026 2 0;
      OpeningBalances.mk P 2 2025 47 50000;
      OpeningBalances.mk M 1 2025 47 10000;
      OpeningBalances.mk M 2 2025 47 10000;
      OpeningBalances.mk M 3 2025 47 10000 ].
Proof. reflexivity. Qed.

Section OpeningBalanceFields.

Variable convert : SqlType -> JsVal -> option Z.

Lemma isUndefined_spec (v : JsVal) : isUndefined v = true <-> v = JUndefined.
Proof. destruct v; simpl; split; congruence. Qed.

(** C9.  For a request whose itemType is P or M: a number 0 as itemId,
    startYear or startWeek is answered 400 "Missing fields" with nothing
    executed; with those three fields truthy, the 400 "Missing fields"
    answer is given exactly when balanceQty is undefined; and a balanceQty
    of 0, with integer itemId, startYear and a startWeek within 1..53, is
    accepted: the answer is { ok: true } and the row stored for the item
    carries the quantity 0. *)
Theorem zero_fields_of_opening_balance
    (b : OpeningBalanceBody) (ty : ItemType) (c : Conn) :
  asItemType (itemType b) = Some ty ->
  (itemId b = JNum 0 \/ startYear b = JNum 0 \/ startWeek b = JNum 0 ->
   putOpeningBalance convert b c = (fail 400 "Missing fields", c))
  /\ (truthy (itemId b) = true -> truthy (startYear b) = true ->
      truthy (startWeek b) = true ->
      (fst (putOpeningBalance convert b c) = fail 400 "Missing fields"
       <-> balanceQty b = JUndefined))
  /\ (forall i y w,
        itemId b = JNum i -> startYear b = JNum y -> startWeek b = JNum w ->
        balanceQty b = JNum 0 ->
        i <> 0 -> inRange Int i = true ->
        y <> 0 -> inRange SmallInt y = true ->
        1 <= w <= 53 ->
        reachable c = true -> uniqueOpening (store c) ->
        fst (putOpeningBalance convert b c) = json Ok
        /\ filter (Statement.onOpeningBalance ty i)
                  (openingBalances (store (snd (putOpeningBalance convert b c))))
           = [OpeningBalances.mk ty i y w 0]).
Proof.
  intros T. split; [|split].
  - intros Z0. unfold putOpeningBalance. rewrite T.
    destruct Z0 as [-> | [-> | ->]]; simpl;
      repeat match goal with
             | |- context [truthy ?x] => destruct (truthy x)
             end; reflexivity.
  - intros Hi Hy Hw. rewrite <- isUndefined_spec.
    destruct (isUndefined (balanceQty b)) eqn:U.
    + unfold putOpeningBalance. rewrite T, Hi, Hy, Hw, U. simpl. tauto.
    + split; [|discriminate]. intros E. exfalso.
      destruct (reachable c) eqn:R.
      * rewrite (putOpeningBalance_runs convert b ty c T Hi Hy Hw U R) in E.
        repeat match type of E with
               | context [match ?x with _ => _ end] => destruct x
               end; discriminate.
      * unfold putOpeningBalance in E. rewrite T, Hi, Hy, Hw, U in E.
        cbn [negb orb] in E. unfold handle, bind, getPool in E.
        rewrite R in E. discriminate.
  - intros i y w Ei Ey Ew Eq Ni Ri Ny Ry Rw R U.
    assert (Rw' : inRange TinyInt w = true)
      by (unfold inRange; apply andb_true_iff; split; apply Z.leb_le; lia).
    assert (Mg : Statement.mergeOpeningBalance (store c) ty
                   (Some i) (Some y) (Some w) (Some 0) <> None).
    { unfold Statement.mergeOpeningBalance.
      assert ((1 <=? w) && (w <=? 53) = true) as ->
        by (apply andb_true_iff; split; apply Z.leb_le; lia).
      discriminate. }
    rewrite (putOpeningBalance_runs convert b ty c T); auto.
    + rewrite Ei, Ey, Ew, Eq. cbn [bound]. rewrite Ri, Ry, Rw'.
      change (inRange Decimal18_3 0) with true. cbv iota.
      destruct (Statement.mergeOpeningBalance _ _ _ _ _ _) as [s'|] eqn:E;
        [|contradiction].
      split; [reflexivity|]. simpl.
      exact (mergeOpeningBalance_stored _ _ _ _ _ _ _ U E).
    + rewrite Ei. simpl. now apply negb_true_iff, Z.eqb_neq.
    + rewrite Ey. simpl. now apply negb_true_iff, Z.eqb_neq.
    + rewrite Ew. simpl. apply negb_true_iff, Z.eqb_neq. lia.
    + now rewrite Eq.
Qed.

End OpeningBalanceFields.

Lemma zero_fields_of_opening_balance_witness :
  putOpeningBalance noConversion (openingCall 1 2025 0 5000)
    (idle (seed CaseInsensitive))
  = (fail 400 "Missing fields", idle (seed CaseInsensitive))
  /\ fst (putOpeningBalance noConversion (openingCall 1 2025 47 0)
            (idle (seed CaseInsensitive))) = json Ok.
Proof.
  split.
  - apply (zero_fields_of_opening_balance noConversion
             (openingCall 1 2025 0 5000) P (idle (seed CaseInsensitive)) eq_refl).
    right. right. reflexivity.
  - apply (proj2 (proj2 (zero_fields_of_opening_balance noConversion
             (openingCall 1 2025 47 0) P (idle (seed CaseInsensitive)) eq_refl))
             1 2025 47); try reflexivity; try lia.
    apply seed_unique.
Defined.

(** ** PUT /api/sales-plan *)

Lemma mergeSalesPlan_inv (s s' : Store) (i y w q : option Z) :
  Statement.mergeSalesPlan s i y w q = Some s' ->
  exists i' y' w' q',
    i = Some i' /\ y = Some y' /\ w = Some w' /\ q = Some q'
    /\ ((existsb (Statement.onSalesPlan i' y' w') (salesPlans s) = true
         /\ salesPlans s' =
              map (fun r => if Statement.onSalesPlan i' y' w' r
                            then SalesPlans.mk (SalesPlans.ProductId r)
                                   (SalesPlans.PlanYear r) (SalesPlans.PlanWeek r) q'
                            else r) (salesPlans s))
        \/ (existsb (Statement.onSalesPlan i' y' w') (salesPlans s) = false
            /\ salesPlans s' = salesPlans s ++ [SalesPlans.mk i' y' w' q'])).
Proof.
  unfold Statement.mergeSalesPlan.
  destruct i as [i'|], y as [y'|], w as [w'|], q as [q'|]; try discriminate.
  intros H. exists i', y', w', q'. repeat split.
  destruct (existsb _ _) eqn:Ex.
  - injection H as <-. left. split; reflexivity.
  - destruct (_ && _); [|discriminate].
    injection H as <-. right. split; reflexivity.
Qed.

Lemma onSalesPlan_refl (i y w q : Z) :
  Statement.onSalesPlan i y w (SalesPlans.mk i y w q) = true.
Proof. unfold Statement.onSalesPlan. simpl. now rewrite !Z.eqb_refl. Qed.

(** After a successful MERGE the rows of the key exist and all carry the
    quantity sent. *)
Lemma mergeSalesPlan_stored (s s' : Store) (i y w q : Z) :
  Statement.mergeSalesPlan s (Some i) (Some y) (Some w) (Some q) = Some s' ->
  filter (Statement.onSalesPlan i y w) (salesPlans s') <> []
  /\ forall r, In r (filter (Statement.onSalesPlan i y w) (salesPlans s')) ->
               SalesPlans.ShipQty r = q.
Proof.
  intros Mg.
  destruct (mergeSalesPlan_inv _ _ _ _ _ _ Mg)
    as (i' & y' & w' & q' & [= <-] & [= <-] & [= <-] & [= <-] & [[Ex E]|[Ex E]]);
    rewrite E.
  - split.
    + apply existsb_exists in Ex as (r & Hin & Hr).
      intros F.
      assert (In (SalesPlans.mk (SalesPlans.ProductId r) (SalesPlans.PlanYear r)
                    (SalesPlans.PlanWeek r) q)
                 (filter (Statement.onSalesPlan i y w)
                    (map (fun r => if Statement.onSalesPlan i y w r
                                   then SalesPlans.mk (SalesPlans.ProductId r)
                                          (SalesPlans.PlanYear r)
                                          (SalesPlans.PlanWeek r) q
                                   else r) (salesPlans s)))) as Hx.
      { apply filter_In. split.
        - apply in_map_iff. exists r. now rewrite Hr.
        - exact Hr. }
      rewrite F in Hx. contradiction.
    + intros r Hr. apply filter_In in Hr as [Hin Hon].
      apply in_map_iff in Hin as (r0 & <- & _).
      destruct (Statement.onSalesPlan i y w r0) eqn:O; [reflexivity|].
      congruence.
  - rewrite filter_app, (existsb_false_filter _ _ Ex). simpl.
    rewrite onSalesPlan_refl. split; [discriminate|].
    intros r [<-|[]]. reflexivity.
Qed.

Section SalesPlanUpsert.

Variable convert : SqlType -> JsVal -> option Z.

Lemma upsertPlan_bound (pid : JsVal) (p : Plan) (c : Conn) :
  upsertPlan convert pid (Item p) c =
    match bound convert Int pid, bound convert Int (p_year p),
          bound convert Int (p_week p),
          bound convert Decimal18_3 (Js.or (p_qty p) (JNum 0)) with
    | Some i, Some y, Some w, Some q =>
        execute (fun s => Statement.mergeSalesPlan s i y w q) c
    | _, _, _, _ => (Thrown, c)
    end.
Proof.
  unfold upsertPlan, bind.
  rewrite bindParam_bound.
  destruct (bound convert Int pid); [|reflexivity].
  rewrite bindParam_bound.
  destruct (bound convert Int (p_year p)); [|reflexivity].
  rewrite bindParam_bound.
  destruct (bound convert Int (p_week p)); [|reflexivity].
  rewrite bindParam_bound.
  destruct (bound convert Decimal18_3 _); reflexivity.
Qed.

(** The loop against the pure run of the statements: it returns exactly
    when every statement succeeds, and then leaves their result; it never
    touches the saved state of the transaction. *)
Lemma forEach_upsertPlan (pid : JsVal) (items : list PlanItem) (c : Conn) :
  exists c',
    forEach items (upsertPlan convert pid) c =
      (match applyPlans convert pid items (store c) with
       | Some _ => Returned tt
       | None => Thrown
       end, c')
    /\ transaction c' = transaction c
    /\ reachable c' = reachable c
    /\ (forall s', applyPlans convert pid items (store c) = Some s' ->
                   store c' = s').
Proof.
  revert c. induction items as [|[|p] items IH]; intros c.
  - exists c. simpl. repeat split; auto. now intros s' [= <-].
  - exists c. simpl. repeat split; auto. discriminate.
  - cbn [forEach applyPlans]. unfold bind at 1. rewrite upsertPlan_bound.
    destruct (bound convert Int pid) as [i|];
      [|exists c; repeat split; auto; discriminate].
    destruct (bound convert Int (p_year p)) as [y|];
      [|exists c; repeat split; auto; discriminate].
    destruct (bound convert Int (p_week p)) as [w|];
      [|exists c; repeat split; auto; discriminate].
    destruct (bound convert Decimal18_3 _) as [q|];
      [|exists c; repeat split; auto; discriminate].
    unfold execute.
    destruct (Statement.mergeSalesPlan (store c) i y w q) as [s1|] eqn:Mg.
    + destruct (IH (mkConn s1 (reachable c) (S (executed c)) (transaction c)))
        as (c' & E & Tx & Rc & St).
      exists c'. simpl in *. repeat split; auto.
    + eexists. repeat split; auto. discriminate.
Qed.

(** The handler in closed form. *)
Lemma putSalesPlan_runs (b : SalesPlanBody) (c : Conn) :
  transaction c = None ->
  exists r c',
    putSalesPlan convert b c = (r, c')
    /\ transaction c' = None
    /\ ((negb (truthy (productId b)) || negb (isArray (plans b)) = true
         /\ r = fail 400 "productId and plans[] required" /\ c' = c)
        \/ (negb (truthy (productId b)) || negb (isArray (plans b)) = false
            /\ reachable c = false
            /\ r = fail 500 "Failed to upsert sales plan" /\ c' = c)
        \/ (negb (truthy (productId b)) || negb (isArray (plans b)) = false
            /\ reachable c = true
            /\ match applyPlans convert (productId b) (elements (plans b)) (store c) with
               | Some s' => r = json Ok /\ store c' = s'
               | None => r = fail 500 "Failed to upsert sales plan"
                         /\ store c' = store c
               end)).
Proof.
  intros Tx. unfold putSalesPlan.
  destruct (negb (truthy (productId b)) || negb (isArray (plans b))) eqn:V.
  { exists (fail 400 "productId and plans[] required"), c. auto 10. }
  unfold handle, bind, getPool.
  destruct (reachable c) eqn:R.
  2:{ unfold rollbackQuietly, tryCatch. rewrite Tx. simpl.
      exists (fail 500 "Failed to upsert sales plan"), c. auto 10. }
  cbn [begin].
  match goal with
  | |- context [forEach ?l ?f ?c0] =>
      destruct (forEach_upsertPlan (productId b) l c0) as (c' & E & Tx' & Rc & St);
      cbn [store transaction reachable] in E, Tx', Rc, St;
      rewrite E
  end.
  destruct (applyPlans convert (productId b) (elements (plans b)) (store c))
    as [s'|] eqn:A.
  - specialize (St s' eq_refl). unfold commit, ret.
    eexists _, _. split; [reflexivity|]. split; [reflexivity|].
    right. right. simpl. auto.
  - unfold rollbackQuietly, tryCatch, rollback. rewrite Tx'. simpl.
    eexists _, _. split; [reflexivity|]. split; [reflexivity|].
    right. right. simpl. auto.
Qed.

(** C7.  On a connection with no transaction open, PUT /api/sales-plan
    either answers { ok: true } and leaves the database with every row of
    the batch applied, or answers one 400 or 500 { error } and leaves the
    database exactly as it was; no transaction stays open.  The batch is
    applied whenever the request passes the checks, the database is reached
    and every row can be written; when some row cannot, the answer is the
    500 error. *)
Theorem sales_plan_batch_atomic (b : SalesPlanBody) (c : Conn) :
  transaction c = None ->
  ((fst (putSalesPlan convert b c) = json Ok
    /\ applyPlans convert (productId b) (elements (plans b)) (store c)
       = Some (store (snd (putSalesPlan convert b c))))
   \/ ((fst (putSalesPlan convert b c) = fail 400 "productId and plans[] required"
        \/ fst (putSalesPlan convert b c) = fail 500 "Failed to upsert sales plan")
       /\ store (snd (putSalesPlan convert b c)) = store c))
  /\ transaction (snd (putSalesPlan convert b c)) = None
  /\ (truthy (productId b) = true -> isArray (plans b) = true ->
      reachable c = true ->
      match applyPlans convert (productId b) (elements (plans b)) (store c) with
      | Some s' => fst (putSalesPlan convert b c) = json Ok
                   /\ store (snd (putSalesPlan convert b c)) = s'
      | None => fst (putSalesPlan convert b c)
                = fail 500 "Failed to upsert sales plan"
                /\ store (snd (putSalesPlan convert b c)) = store c
      end).
Proof.
  intros Tx.
  destruct (putSalesPlan_runs b c Tx) as (r & c' & -> & Tx' & H). simpl.
  split; [|split; [exact Tx'|]].
  - destruct H as [(_ & -> & ->) | [(_ & _ & -> & ->) | (_ & _ & H)]]; auto.
    destruct (applyPlans _ _ _ _) as [s'|]; destruct H as [-> ->]; auto.
  - intros Hp Ha R.
    destruct H as [(V & _) | [(_ & R' & _) | (_ & _ & H)]].
    + rewrite Hp, Ha in V. discriminate.
    + congruence.
    + exact H.
Qed.

End SalesPlanUpsert.

Lemma sales_plan_batch_atomic_witness :
  fst (putSalesPlan noConversion badBatch (idle (seed CaseInsensitive)))
  = fail 500 "Failed to upsert sales plan"
  /\ store (snd (putSalesPlan noConversion badBatch (idle (seed CaseInsensitive))))
     = seed CaseInsensitive.
Proof.
  exact (proj2 (proj2 (sales_plan_batch_atomic noConversion badBatch
                         (idle (seed CaseInsensitive)) eq_refl))
               eq_refl eq_refl eq_refl).
Defined.

(** The first row of the bad batch alone is written. *)
Example first_row_alone :
  salesPlans (store (snd (putSalesPlan noConversion
                            (mkSalesPlanBody (JNum 1)
                               (Some [Item (mkPlan (JNum 2025) (JNum 48) (JNum 4000))]))
                            (idle (seed CaseInsensitive)))))
  = [SalesPlans.mk 1 2025 48 4000].
Proof. reflexivity. Qed.

Section ShipQtyCoercion.

Variable convert : SqlType -> JsVal -> option Z.

Lemma or_zero_falsy (v : JsVal) :
  truthy v = false -> Js.or v (JNum 0) = JNum 0.
Proof. unfold Js.or. now intros ->. Qed.

Lemma or_zero_idempotent (v : JsVal) :
  Js.or (if truthy v then v else JNum 0) (JNum 0) = Js.or v (JNum 0).
Proof.
  unfold Js.or. destruct (truthy v) eqn:T; [now rewrite T | reflexivity].
Qed.

Lemma bound_null_inv (ty : SqlType) (v : JsVal) :
  bound convert ty v = Some None -> truthy v = false.
Proof.
  destruct v as [| |b|n| |s| |]; cbn [bound]; try reflexivity; try discriminate;
    try (destruct (convert ty _); [|discriminate]);
    destruct (inRange ty _); discriminate.
Qed.

Lemma bound_or_zero_not_null (v : JsVal) :
  bound convert Decimal18_3 (Js.or v (JNum 0)) <> Some None.
Proof.
  intros H. unfold Js.or in H. destruct (truthy v) eqn:T.
  - apply bound_null_inv in H. congruence.
  - cbn [bound] in H. destruct (inRange _ _); discriminate.
Qed.

Lemma upsertPlan_zeroFalsyQty (pid : JsVal) (item : PlanItem) :
  upsertPlan convert pid (zeroFalsyQty item) = upsertPlan convert pid item.
Proof.
  destruct item as [|p]; [reflexivity|].
  unfold zeroFalsyQty, upsertPlan. cbn [p_year p_week p_qty].
  now rewrite or_zero_idempotent.
Qed.

Lemma forEach_zeroFalsyQty (pid : JsVal) (items : list PlanItem) :
  forEach (map zeroFalsyQty items) (upsertPlan convert pid)
  = forEach items (upsertPlan convert pid).
Proof.
  induction items as [|x r IH]; simpl; [reflexivity|].
  now rewrite IH, upsertPlan_zeroFalsyQty.
Qed.

(** C10.  In PUT /api/sales-plan the quantity parameter of a row is never
    NULL; a row whose qty is falsy (absent, null, 0, false, the empty text,
    NaN) that is written leaves the rows of its (product, year, week) with
    ShipQty 0; and a request answers and leaves the connection exactly as
    the request in which every falsy qty is written as the number 0. *)
Theorem falsy_qty_stored_as_zero :
  (forall v, bound convert Decimal18_3 (Js.or v (JNum 0)) <> Some None)
  /\ (forall pid p c c',
        truthy (p_qty p) = false ->
        upsertPlan convert pid (Item p) c = (Returned tt, c') ->
        exists i y w,
          bound convert Int pid = Some (Some i)
          /\ bound convert Int (p_year p) = Some (Some y)
          /\ bound convert Int (p_week p) = Some (Some w)
          /\ filter (Statement.onSalesPlan i y w) (salesPlans (store c')) <> []
          /\ forall r,
               In r (filter (Statement.onSalesPlan i y w) (salesPlans (store c'))) ->
               SalesPlans.ShipQty r = 0)
  /\ (forall b c,
        putSalesPlan convert (withZeroQty b) c = putSalesPlan convert b c).
Proof.
  split; [exact bound_or_zero_not_null|]. split.
  - intros pid p c c' F. rewrite upsertPlan_bound, (or_zero_falsy _ F).
    change (bound convert Decimal18_3 (JNum 0)) with (Some (Some 0)).
    destruct (bound convert Int pid) as [i|]; [|discriminate].
    destruct (bound convert Int (p_year p)) as [y|]; [|discriminate].
    destruct (bound convert Int (p_week p)) as [w|]; [|discriminate].
    unfold execute.
    destruct (Statement.mergeSalesPlan (store c) i y w (Some 0)) as [s'|] eqn:Mg;
      [|discriminate].
    intros [= <-]. cbn [store].
    destruct (mergeSalesPlan_inv _ _ _ _ _ _ Mg)
      as (i' & y' & w' & q' & -> & -> & -> & _ & _).
    exists i', y', w'. repeat split.
    + exact (proj1 (mergeSalesPlan_stored _ _ _ _ _ _ Mg)).
    + exact (proj2 (mergeSalesPlan_stored _ _ _ _ _ _ Mg)).
  - intros b c. unfold putSalesPlan, withZeroQty. cbn [productId plans].
    destruct (plans b) as [ps|]; cbn [option_map isArray elements].
    + now rewrite forEach_zeroFalsyQty.
    + reflexivity.
Qed.

End ShipQtyCoercion.

Lemma falsy_qty_stored_as_zero_witness :
  putSalesPlan noConversion (planCall 2025 48 JUndefined) (idle (seed CaseInsensitive))
  = putSalesPlan noConversion (planCall 2025 48 (JNum 0)) (idle (seed CaseInsensitive))
  /\ salesPlans (store (snd (putSalesPlan noConversion (planCall 2025 48 JUndefined)
                               (idle (seed CaseInsensitive)))))
     = [SalesPlans.mk 1 2025 48 0].
Proof.
  split.
  - exact (eq_sym (proj2 (proj2 (falsy_qty_stored_as_zero noConversion))
                     (planCall 2025 48 JUndefined) (idle (seed CaseInsensitive)))).
  - reflexivity.
Defined.

(** ** Grouping and ordering *)

Lemma key_eqb_spec (a b : Key) : key_eqb a b = true <-> a = b.
Proof.
  destruct a as [[a1 a2] a3], b as [[b1 b2] b3]. unfold key_eqb.
  rewrite !andb_true_iff, !Z.eqb_eq.
  split; [intros [[-> ->] ->]; reflexivity | intros [= -> -> ->]; auto].
Qed.

Lemma key_eqb_refl (a : Key) : key_eqb a a = true.
Proof. now apply key_eqb_spec. Qed.

Lemma key_eqb_sym (a b : Key) : key_eqb a b = key_eqb b a.
Proof.
  destruct (key_eqb a b) eqn:E, (key_eqb b a) eqn:F; auto.
  - apply key_eqb_spec in E. subst. now rewrite key_eqb_refl in F.
  - apply key_eqb_spec in F. subst. now rewrite key_eqb_refl in E.
Qed.

Lemma In_distinct (k : Key) (l : list Key) : In k (distinct l) <-> In k l.
Proof.
  induction l as [|a l IH]; simpl; [tauto|].
  rewrite filter_In, IH, negb_true_iff.
  destruct (key_eqb a k) eqn:E.
  - apply key_eqb_spec in E. subst. tauto.
  - split; [tauto|]. intros [->|H]; [now rewrite key_eqb_refl in E | tauto].
Qed.

Lemma NoDup_distinct (l : list Key) : NoDup (distinct l).
Proof.
  induction l as [|a l IH]; simpl; constructor.
  - rewrite filter_In, key_eqb_refl. simpl. intros [_ F]. discriminate.
  - now apply NoDup_filter.
Qed.

Lemma groupBySum_keys (rows : list (Key * Z)) :
  map fst (groupBySum rows) = distinct (map fst rows).
Proof. unfold groupBySum. rewrite map_map. simpl. apply map_id. Qed.

Lemma In_groupBySum (k : Key) (n : Z) (rows : list (Key * Z)) :
  In (k, n) (groupBySum rows)
  <-> In k (map fst rows) /\ n = Tsql.sum (map snd (group k rows)).
Proof.
  unfold groupBySum. rewrite in_map_iff. split.
  - intros (k' & E & H). injection E as -> <-.
    apply (proj1 (In_distinct _ _)) in H. now split.
  - intros [H ->]. exists k. split; [reflexivity|].
    exact (proj2 (In_distinct _ _) H).
Qed.

Lemma insertRow_perm (r : Key * Z) (l : list (Key * Z)) :
  Permutation (insertRow r l) (r :: l).
Proof.
  induction l as [|h t IH]; simpl; [reflexivity|].
  destruct (weekLe r h); [reflexivity|].
  rewrite IH. apply perm_swap.
Qed.

Lemma orderByWeek_perm (l : list (Key * Z)) : Permutation (orderByWeek l) l.
Proof.
  induction l as [|a l IH]; simpl; [reflexivity|].
  rewrite insertRow_perm. now constructor.
Qed.

Lemma toQtyRow_key (r : Key * Z) : rowKey (toQtyRow r) = fst r.
Proof. now destruct r as [[[i y] w] n]. Qed.

Lemma In_toQtyRow (i y w n : Z) (l : list (Key * Z)) :
  In (mkQtyRow i y w n) (map toQtyRow l) <-> In ((i, y, w), n) l.
Proof.
  rewrite in_map_iff. split.
  - intros ([[[i' y'] w'] n'] & [= -> -> -> ->] & H). exact H.
  - intros H. now exists ((i, y, w), n).
Qed.

Lemma filter_map_swap {A B} (f : B -> bool) (g : A -> B) (l : list A) :
  filter f (map g l) = map g (filter (fun x => f (g x)) l).
Proof.
  induction l as [|a l IH]; simpl; [reflexivity|].
  destruct (f (g a)); simpl; now rewrite IH.
Qed.

Lemma filter_filter {A} (f g : A -> bool) (l : list A) :
  filter f (filter g l) = filter (fun x => g x && f x) l.
Proof.
  induction l as [|a l IH]; simpl; [reflexivity|].
  destruct (g a); simpl; [destruct (f a)|]; now rewrite IH.
Qed.

(** ** Letter case *)

Lemma upperChar_idempotent (ch : ascii) : upperChar (upperChar ch) = upperChar ch.
Proof. destruct ch as [[] [] [] [] [] [] [] []]; reflexivity. Qed.

Lemma toUpperCase_idempotent (s : string) :
  toUpperCase (toUpperCase s) = toUpperCase s.
Proof.
  induction s as [|ch s IH]; simpl; [reflexivity|].
  now rewrite upperChar_idempotent, IH.
Qed.

(** Once [UPPER] is applied, the comparison with an upper-case literal no
    longer depends on the collation. *)
Lemma strEq_upper (c : Collation) (s lit : string) :
  toUpperCase lit = lit ->
  strEq c (toUpperCase s) lit = String.eqb (toUpperCase s) lit.
Proof.
  intros L. destruct c; simpl; [|reflexivity].
  now rewrite toUpperCase_idempotent, L.
Qed.

Lemma strIn_activeOrComplete (c : Collation) (s : string) :
  strIn c (toUpperCase s) ["ACTIVE"; "COMPLETE"]%string = activeOrComplete s.
Proof.
  unfold strIn, activeOrComplete. simpl.
  rewrite !strEq_upper by reflexivity. now rewrite orb_false_r.
Qed.

(** ** GET /api/production *)

Lemma isTrue_Some (b : bool) : isTrue (Some b) = b.
Proof. now destruct b. Qed.

Lemma itemFilter_spec (p : option Z) (i : Z) :
  isTrue (or3 (isNull p) (eq3 i p)) = true
  <-> (forall p', p = Some p' -> i = p').
Proof.
  destruct p as [p|]; unfold isNull, eq3, cmp3, or3, isTrue.
  - destruct (Z.eqb_spec i p) as [->|N]; split; auto;
      try discriminate; try (now intros _ p' [= <-]);
      try (intros H; elim N; now apply H).
  - split; [discriminate | reflexivity].
Qed.

(** The WHERE clause on a row of key [(i, y, w)]: the status test, and
    tests that depend on the key alone. *)
Lemma whereProduction_key (c : Collation) (p : option Z) (fy fw ty tw : Z)
    (r : ProductionOrders.row) (i y w : Z) :
  productionKey r = (i, y, w) ->
  Statement.whereProduction c p (Some fy) (Some fw) (Some ty) (Some tw) r
  = activeOrComplete (ProductionOrders.Status r)
    && (isTrue (notBefore y w (Some fy) (Some fw))
        && isTrue (notAfter y w (Some ty) (Some tw))
        && isTrue (or3 (isNull p) (eq3 i p))).
Proof.
  unfold productionKey. intros [= <- <- <-].
  unfold Statement.whereProduction.
  rewrite !isTrue_and3, isTrue_Some, strIn_activeOrComplete.
  now rewrite !andb_assoc.
Qed.

Lemma filter_guard {A} (b : bool) (f : A -> bool) (l : list A) :
  filter (fun x => b && f x) l = if b then filter f l else [].
Proof.
  destruct b; simpl; [reflexivity|]. now apply filter_none.
Qed.

(** The rows of the table that pass WHERE and fall in the group of a key:
    the contributing rows of the key when the key is inside the range and
    passes the product filter, none otherwise. *)
Lemma production_group (s : Store) (p : option Z) (fy fw ty tw i y w : Z) :
  filter (fun r =>
            Statement.whereProduction (collation s) p
              (Some fy) (Some fw) (Some ty) (Some tw) r
            && key_eqb (productionKey r) (i, y, w))
         (productionOrders s)
  = if isTrue (notBefore y w (Some fy) (Some fw))
       && isTrue (notAfter y w (Some ty) (Some tw))
       && isTrue (or3 (isNull p) (eq3 i p))
    then contributing s (i, y, w) else [].
Proof.
  unfold contributing. rewrite <- filter_guard.
  apply filter_ext. intros r.
  destruct (key_eqb (productionKey r) (i, y, w)) eqn:K.
  - apply key_eqb_spec in K.
    rewrite (whereProduction_key _ _ _ _ _ _ _ _ _ _ K).
    rewrite andb_true_r. simpl. apply andb_comm.
  - simpl. now rewrite andb_false_r, andb_false_r.
Qed.

Lemma In_map_fst_filter {A} (key : A -> Key) (qty : A -> Z) (f : A -> bool)
    (k : Key) (l : list A) :
  In k (map fst (map (fun r => (key r, qty r)) (filter f l)))
  <-> filter (fun r => f r && key_eqb (key r) k) l <> [].
Proof.
  rewrite map_map. simpl. rewrite in_map_iff. split.
  - intros (r & <- & H). apply filter_In in H as [Hin Hf].
    intros E.
    assert (In r (filter (fun r0 => f r0 && key_eqb (key r0) (key r)) l)) as X
      by (apply filter_In; split; [assumption | now rewrite Hf, key_eqb_refl]).
    rewrite E in X. contradiction.
  - intros H. destruct (filter _ l) as [|r rest] eqn:E; [contradiction|].
    assert (In r (filter (fun r0 => f r0 && key_eqb (key r0) k) l)) as X
      by (rewrite E; now left).
    apply filter_In in X as [Hin Hf]. apply andb_true_iff in Hf as [Hf Hk].
    apply key_eqb_spec in Hk.
    exists r. split; [assumption|]. apply filter_In. now split.
Qed.

Lemma group_of_filter {A} (key : A -> Key) (qty : A -> Z) (f : A -> bool)
    (k : Key) (l : list A) :
  map snd (group k (map (fun r => (key r, qty r)) (filter f l)))
  = map qty (filter (fun r => f r && key_eqb (key r) k) l).
Proof.
  unfold group. rewrite filter_map_swap, filter_filter, map_map. reflexivity.
Qed.

(** C2.  With the parameters read and the database reached,
    GET /api/production answers 200 with one row per (productId, year,
    week) key, and a row (i, y, w, n) is in the answer exactly when (y, w)
    lies in the inclusive range, i passes the product filter, some order of
    the key has a status whose upper case is ACTIVE or COMPLETE, and n is
    the sum of the quantities of exactly those orders.  An order whose
    status is INITIAL in any letter case contributes to no key. *)
Theorem production_sums_active_complete
    (q : Query) (c : Conn) (p : option Z) (fy fw ty tw : Z) :
  reachable c = true ->
  filterReadsAs (q_productId q) p ->
  readsAs (q_fromYear q) fy -> readsAs (q_fromWeek q) fw ->
  readsAs (q_toYear q) ty -> readsAs (q_toWeek q) tw ->
  exists rows,
    getProduction q c = (json (QtyRows rows), afterOne c)
    /\ NoDup (map rowKey rows)
    /\ (forall i y w n,
          In (mkQtyRow i y w n) rows
          <-> (weekLeq fy fw y w /\ weekLeq y w ty tw
               /\ (forall p', p = Some p' -> i = p')
               /\ contributing (store c) (i, y, w) <> []
               /\ n = Tsql.sum (map ProductionOrders.Quantity
                                    (contributing (store c) (i, y, w)))))
    /\ (forall r k,
          toUpperCase (ProductionOrders.Status r) = "INITIAL"%string ->
          ~ In r (contributing (store c) k)).
Proof.
  intros R Hp Hfy Hfw Hty Htw.
  eexists. split; [exact (getProduction_runs q c p fy fw ty tw R Hp Hfy Hfw Hty Htw)|].
  unfold Statement.selectProduction.
  set (W := Statement.whereProduction (collation (store c)) p
              (Some fy) (Some fw) (Some ty) (Some tw)).
  set (L := map Statement.productionKeyQty (filter W (productionOrders (store c)))).
  split; [|split].
  - rewrite map_map.
    rewrite (map_ext _ fst) by (intros; apply toQtyRow_key).
    apply (Permutation_NoDup (l := map fst (groupBySum L))).
    + apply Permutation_map, Permutation_sym, orderByWeek_perm.
    + rewrite groupBySum_keys. apply NoDup_distinct.
  - intros i y w n. rewrite In_toQtyRow.
    assert (In (i, y, w, n) (orderByWeek (groupBySum L))
            <-> In (i, y, w, n) (groupBySum L)) as ->.
    { split; apply Permutation_in;
        [apply orderByWeek_perm | apply Permutation_sym, orderByWeek_perm]. }
    rewrite In_groupBySum. subst L.
    change Statement.productionKeyQty
      with (fun r => (productionKey r, ProductionOrders.Quantity r)).
    rewrite In_map_fst_filter, group_of_filter.
    subst W. rewrite production_group.
    rewrite <- notBefore_spec, <- notAfter_spec, <- itemFilter_spec.
    destruct (isTrue (notBefore y w (Some fy) (Some fw)));
      destruct (isTrue (notAfter y w (Some ty) (Some tw)));
      destruct (isTrue (or3 (isNull p) (eq3 i p)));
      simpl; intuition congruence.
  - intros r k I Hin. apply filter_In in Hin as [_ H].
    apply andb_true_iff in H as [_ H].
    unfold activeOrComplete in H. rewrite I in H. discriminate.
Qed.

Lemma production_sums_active_complete_witness :
  exists rows,
    getProduction (query2025 "48" "50") (idle (seed CaseSensitive))
    = (json (QtyRows rows), afterOne (idle (seed CaseSensitive)))
    /\ NoDup (map rowKey rows)
    /\ (forall i y w n,
          In (mkQtyRow i y w n) rows
          <-> (weekLeq 2025 48 y w /\ weekLeq y w 2025 50
               /\ (forall p', None = Some p' -> i = p')
               /\ contributing (seed CaseSensitive) (i, y, w) <> []
               /\ n = Tsql.sum (map ProductionOrders.Quantity
                                    (contributing (seed CaseSensitive) (i, y, w)))))
    /\ (forall r k,
          toUpperCase (ProductionOrders.Status r) = "INITIAL"%string ->
          ~ In r (contributing (seed CaseSensitive) k)).
Proof.
  apply (production_sums_active_complete (query2025 "48" "50")
           (idle (seed CaseSensitive)) None 2025 48 2025 50).
  - reflexivity.
  - reflexivity.
  - reads.
  - reads.
  - reads.
  - reads.
Defined.

(** The seed data: the INITIAL order of week 50 is absent from the answer. *)
Example production_of_seed :
  fst (getProduction (query2025 "47" "50") (idle (seed CaseSensitive)))
  = json (QtyRows [mkQtyRow 1 2025 48 5000; mkQtyRow 1 2025 49 5000;
                   mkQtyRow 2 2025 49 3000]).
Proof. reflexivity. Qed.

(** ** GET /api/purchase *)

(** The second server upper-cases the status, so its test does not depend
    on the collation. *)
Lemma confirmed_V2 (c : Collation) (status : string) :
  Statement.confirmed V2 c status = isConfirmStatus status.
Proof. unfold Statement.confirmed. now rewrite strEq_upper. Qed.

(** The first server compares the stored text: the test is the case
    insensitive one only when the collation is. *)
Lemma confirmed_V1_insensitive (status : string) :
  Statement.confirmed V1 CaseInsensitive status = isConfirmStatus status.
Proof. reflexivity. Qed.

Lemma confirmed_V1_sensitive (status : string) :
  Statement.confirmed V1 CaseSensitive status = String.eqb status "CONFIRM".
Proof. reflexivity. Qed.

Lemma wherePurchase_key (v : ServerVersion) (c : Collation) (m : option Z)
    (fy fw ty tw : Z) (r : PurchaseOrderLines.row * PurchaseOrders.row)
    (i y w : Z) :
  v = V2 \/ c = CaseInsensitive ->
  purchaseKey r = (i, y, w) ->
  Statement.wherePurchase v c m (Some fy) (Some fw) (Some ty) (Some tw) r
  = isConfirmStatus (PurchaseOrders.Status (snd r))
    && (isTrue (notBefore y w (Some fy) (Some fw))
        && isTrue (notAfter y w (Some ty) (Some tw))
        && isTrue (or3 (isNull m) (eq3 i m))).
Proof.
  intros V. destruct r as [pol po]. unfold purchaseKey. cbn [fst snd].
  intros [= <- <- <-]. unfold Statement.wherePurchase.
  rewrite !isTrue_and3, isTrue_Some.
  assert (Statement.confirmed v c (PurchaseOrders.Status po)
          = isConfirmStatus (PurchaseOrders.Status po)) as ->.
  { destruct V as [-> | ->]; [apply confirmed_V2|].
    destruct v; [reflexivity | apply confirmed_V2]. }
  now rewrite !andb_assoc.
Qed.

Lemma purchase_group (v : ServerVersion) (s : Store) (m : option Z)
    (fy fw ty tw i y w : Z) :
  v = V2 \/ collation s = CaseInsensitive ->
  filter (fun r =>
            Statement.wherePurchase v (collation s) m
              (Some fy) (Some fw) (Some ty) (Some tw) r
            && key_eqb (purchaseKey r) (i, y, w))
         (Statement.joinPurchase s)
  = if isTrue (notBefore y w (Some fy) (Some fw))
       && isTrue (notAfter y w (Some ty) (Some tw))
       && isTrue (or3 (isNull m) (eq3 i m))
    then confirmedLines s (i, y, w) else [].
Proof.
  intros V. unfold confirmedLines. rewrite <- filter_guard.
  apply filter_ext. intros r.
  destruct (key_eqb (purchaseKey r) (i, y, w)) eqn:K.
  - apply key_eqb_spec in K.
    rewrite (wherePurchase_key _ _ _ _ _ _ _ _ _ _ _ V K).
    rewrite andb_true_r. simpl. apply andb_comm.
  - simpl. now rewrite andb_false_r, andb_false_r.
Qed.

(** What C3 claims holds of the second server, and of the first one on a
    database with a case-insensitive collation: a line is summed into the
    row of its key exactly when the status of its order is CONFIRM in some
    letter case. *)
Lemma purchase_sums_confirmed
    (v : ServerVersion) (q : Query) (c : Conn) (m : option Z) (fy fw ty tw : Z) :
  v = V2 \/ collation (store c) = CaseInsensitive ->
  reachable c = true ->
  filterReadsAs (q_materialId q) m ->
  readsAs (q_fromYear q) fy -> readsAs (q_fromWeek q) fw ->
  readsAs (q_toYear q) ty -> readsAs (q_toWeek q) tw ->
  exists rows,
    getPurchase v q c = (json (QtyRows rows), afterOne c)
    /\ NoDup (map rowKey rows)
    /\ (forall i y w n,
          In (mkQtyRow i y w n) rows
          <-> (weekLeq fy fw y w /\ weekLeq y w ty tw
               /\ (forall m', m = Some m' -> i = m')
               /\ confirmedLines (store c) (i, y, w) <> []
               /\ n = Tsql.sum (map lineQuantity
                                    (confirmedLines (store c) (i, y, w))))).
Proof.
  intros V R Hm Hfy Hfw Hty Htw.
  eexists. split; [exact (getPurchase_runs v q c m fy fw ty tw R Hm Hfy Hfw Hty Htw)|].
  unfold Statement.selectPurchase.
  set (W := Statement.wherePurchase v (collation (store c)) m
              (Some fy) (Some fw) (Some ty) (Some tw)).
  set (L := map Statement.purchaseKeyQty (filter W (Statement.joinPurchase (store c)))).
  split.
  - rewrite map_map.
    rewrite (map_ext _ fst) by (intros; apply toQtyRow_key).
    rewrite groupBySum_keys. apply NoDup_distinct.
  - intros i y w n. rewrite In_toQtyRow, In_groupBySum. subst L.
    change Statement.purchaseKeyQty
      with (fun r => (purchaseKey r, lineQuantity r)).
    rewrite In_map_fst_filter, group_of_filter.
    subst W. rewrite (purchase_group _ _ _ _ _ _ _ _ _ _ V).
    rewrite <- notBefore_spec, <- notAfter_spec, <- itemFilter_spec.
    destruct (isTrue (notBefore y w (Some fy) (Some fw)));
      destruct (isTrue (notAfter y w (Some ty) (Some tw)));
      destruct (isTrue (or3 (isNull m) (eq3 i m)));
      simpl; intuition congruence.
Qed.

(** C3, the defect.  On a database compared case-sensitively that holds an
    order with the status "confirm", the first server sums none of its
    lines, where the claim counts them; the second server, whose query
    upper-cases the status, sums them. *)
Theorem purchase_v1_misses_lower_case_confirm :
  isConfirmStatus "confirm" = true
  /\ getPurchase V1 (query2025 "47" "50") (idle lowerCaseOrder)
     = (json (QtyRows []), afterOne (idle lowerCaseOrder))
  /\ getPurchase V2 (query2025 "47" "50") (idle lowerCaseOrder)
     = (json (QtyRows [mkQtyRow 1 2025 49 5000]), afterOne (idle lowerCaseOrder)).
Proof. repeat split. Qed.

(** ** The weekly balance projection *)

Module Projection.

Import Projector.

Lemma compare_eq (a b : WeekKey) : compare a b = Eq -> a = b.
Proof.
  destruct a as [ya wa], b as [yb wb]. unfold compare. simpl.
  destruct (Z.compare_spec ya yb) as [Ey| |]; try discriminate.
  intros Ew. apply Z.compare_eq in Ew. congruence.
Qed.

Lemma eqb_eq (a b : WeekKey) : eqb a b = true -> a = b.
Proof.
  unfold eqb. destruct (compare a b) eqn:E; try discriminate.
  intros _. now apply compare_eq.
Qed.

Lemma eqb_refl (a : WeekKey) : eqb a a = true.
Proof. unfold eqb, compare. now rewrite !Z.compare_refl. Qed.

(** The slice keeps the balance of every week it keeps. *)
Lemma balanceOf_slice (from w : WeekKey) (l : list (WeekKey * Q)) :
  leb from w = true ->
  balanceOf (filter (fun e => leb from (fst e)) l) w = balanceOf l w.
Proof.
  intros Hw. induction l as [|[k b] l IH]; simpl; [reflexivity|].
  destruct (leb from k) eqn:Hk; simpl.
  - now rewrite IH.
  - destruct (eqb k w) eqn:E; [|exact IH].
    apply eqb_eq in E. congruence.
Qed.

Section Calendar.

Variable W : Z.
Hypothesis W_pos : (1 <= W)%Z.

Lemma nextWeek_valid (k : WeekKey) :
  validWeek W k -> validWeek W (nextWeek W k).
Proof.
  unfold validWeek, nextWeek. intros H.
  destruct (Z.ltb_spec (week k) W); simpl; lia.
Qed.

Lemma ordinal_next (k : WeekKey) :
  validWeek W k -> ordinal W (nextWeek W k) = (ordinal W k + 1)%Z.
Proof.
  unfold validWeek, nextWeek, ordinal. intros H.
  destruct (Z.ltb_spec (week k) W); simpl; lia.
Qed.

Lemma prevWeek_valid (k : WeekKey) :
  validWeek W k -> validWeek W (prevWeek W k).
Proof.
  unfold validWeek, prevWeek. intros H.
  destruct (Z.ltb_spec 1 (week k)); simpl; lia.
Qed.

Lemma ordinal_prev (k : WeekKey) :
  validWeek W k -> ordinal W (prevWeek W k) = (ordinal W k - 1)%Z.
Proof.
  unfold validWeek, prevWeek, ordinal. intros H.
  destruct (Z.ltb_spec 1 (week k)); simpl; lia.
Qed.

Lemma ordinal_compare (a b : WeekKey) :
  validWeek W a -> validWeek W b ->
  compare a b = (ordinal W a ?= ordinal W b)%Z.
Proof.
  unfold validWeek, compare, ordinal. intros Ha Hb.
  destruct (Z.compare_spec (year a) (year b)) as [E|E|E].
  - rewrite E. destruct (Z.compare_spec (week a) (week b));
      symmetry; [apply Z.compare_eq_iff | apply Z.compare_lt_iff
                | apply Z.compare_gt_iff]; lia.
  - symmetry. apply Z.compare_lt_iff. nia.
  - symmetry. apply Z.compare_gt_iff. nia.
Qed.

Lemma ordinal_inj (a b : WeekKey) :
  validWeek W a -> validWeek W b -> ordinal W a = ordinal W b -> a = b.
Proof.
  intros Ha Hb E. apply compare_eq.
  rewrite (ordinal_compare a b Ha Hb). now apply Z.compare_eq_iff.
Qed.

Lemma ltb_ordinal (a b : WeekKey) :
  validWeek W a -> validWeek W b ->
  ltb a b = true <-> (ordinal W a < ordinal W b)%Z.
Proof.
  intros Ha Hb. unfold ltb. rewrite (ordinal_compare a b Ha Hb).
  destruct (Z.compare_spec (ordinal W a) (ordinal W b));
    split; intros; try discriminate; try reflexivity; lia.
Qed.

Lemma leb_ordinal (a b : WeekKey) :
  validWeek W a -> validWeek W b ->
  leb a b = true <-> (ordinal W a <= ordinal W b)%Z.
Proof.
  intros Ha Hb. unfold leb. rewrite (ordinal_compare a b Ha Hb).
  destruct (Z.compare_spec (ordinal W a) (ordinal W b));
    split; intros; try discriminate; try reflexivity; lia.
Qed.

Variable ob : option OpeningBalance.
Variable L : Ledger.
Variable it : Item.

Abbreviation runTo := (balanceAfter W ob L it).

Lemma walk_balanceOf (n k : nat) (prev : Q) (s w : WeekKey) :
  validWeek W s -> validWeek W w ->
  ordinal W w = (ordinal W s + Z.of_nat k)%Z -> (k < n)%nat ->
  balanceOf (walk ob L it prev (weeksFrom W n s)) w = Some (runTo k prev s).
Proof.
  revert k prev s. induction n as [|n IH]; intros k prev s Hs Hw Ho Hk; [lia|].
  simpl. destruct k as [|k].
  - assert (w = s) as -> by (apply ordinal_inj; auto; lia).
    now rewrite eqb_refl.
  - destruct (eqb s w) eqn:E.
    + apply eqb_eq in E. subst. lia.
    + change (runTo (S k) prev s)
        with (runTo k (step ob L it prev s) (nextWeek W s)).
      apply IH; auto using nextWeek_valid; [|lia].
      rewrite ordinal_next by assumption. lia.
Qed.

(** The recurrence of the walk: the balance of a week is one [step] from
    the balance of the week before. *)
Lemma runTo_step (k : nat) (prev : Q) (s w : WeekKey) :
  validWeek W s -> validWeek W w ->
  ordinal W w = (ordinal W s + Z.of_nat (S k))%Z ->
  runTo (S k) prev s = step ob L it (runTo k prev s) w.
Proof.
  revert prev s. induction k as [|k IH]; intros prev s Hs Hw Ho.
  - assert (w = nextWeek W s) as ->.
    { apply ordinal_inj; auto using nextWeek_valid.
      rewrite ordinal_next by assumption. lia. }
    reflexivity.
  - change (runTo (S (S k)) prev s)
      with (runTo (S k) (step ob L it prev s) (nextWeek W s)).
    rewrite (IH (step ob L it prev s) (nextWeek W s));
      auto using nextWeek_valid.
    rewrite ordinal_next by assumption. lia.
Qed.

Lemma runTo_last (k : nat) (prev : Q) (s w : WeekKey) :
  validWeek W s -> validWeek W w ->
  ordinal W w = (ordinal W s + Z.of_nat k)%Z ->
  exists b, runTo k prev s = step ob L it b w.
Proof.
  intros Hs Hw Ho. destruct k as [|k].
  - assert (w = s) as -> by (apply ordinal_inj; auto; lia).
    now exists prev.
  - exists (runTo k prev s). now apply runTo_step.
Qed.

Hypothesis anchor_valid : forall o, ob = Some o -> validWeek W (anchorWeek o).

Lemma startOf_valid (from : WeekKey) :
  validWeek W from -> validWeek W (startOf ob from).
Proof.
  intros Hf. unfold startOf. destruct ob as [o|]; [|exact Hf].
  destruct (ltb (anchorWeek o) from); auto.
Qed.

Lemma startOf_le_from (from : WeekKey) :
  validWeek W from -> (ordinal W (startOf ob from) <= ordinal W from)%Z.
Proof.
  intros Hf. unfold startOf. destruct ob as [o|]; [|lia].
  destruct (ltb (anchorWeek o) from) eqn:E; [|lia].
  apply ltb_ordinal in E; auto. lia.
Qed.

Lemma startOf_le_anchor (from : WeekKey) (o : OpeningBalance) :
  validWeek W from -> ob = Some o ->
  (ordinal W (startOf ob from) <= ordinal W (anchorWeek o))%Z.
Proof.
  intros Hf E. pose proof (anchor_valid o E) as Ha.
  unfold startOf. rewrite E.
  destruct (ltb (anchorWeek o) from) eqn:Lt; [lia|].
  destruct (Z.le_gt_cases (ordinal W from) (ordinal W (anchorWeek o))); auto.
  assert (ltb (anchorWeek o) from = true) by (apply ltb_ordinal; auto; lia).
  congruence.
Qed.

(** Every week at or after the start of the walk, up to [to], has a balance
    in the internal series. *)
Lemma internal_balanceOf (from to w : WeekKey) :
  validWeek W from -> validWeek W to -> validWeek W w ->
  (ordinal W (startOf ob from) <= ordinal W w <= ordinal W to)%Z ->
  balanceOf (internal W ob L it from to) w
  = Some (runTo (Z.to_nat (ordinal W w - ordinal W (startOf ob from))) 0
                (startOf ob from)).
Proof.
  intros Hf Ht Hw Ho. unfold internal, enumerateWeeks.
  apply walk_balanceOf; auto using startOf_valid; lia.
Qed.

(** Before the anchor and at the anchor, and when no opening balance is
    defined, a step ignores the balance it is entered with. *)
Lemma step_forgets (a b : Q) (w : WeekKey) :
  validWeek W w ->
  (forall o, ob = Some o -> (ordinal W w <= ordinal W (anchorWeek o))%Z) ->
  step ob L it a w = step ob L it b w.
Proof.
  intros Hw Hle. unfold step. destruct ob as [o|] eqn:E; [|reflexivity].
  rewrite (ordinal_compare w (anchorWeek o) Hw (anchor_valid o eq_refl)).
  specialize (Hle o eq_refl).
  destruct (Z.compare_spec (ordinal W w) (ordinal W (anchorWeek o)));
    try reflexivity; lia.
Qed.

(** Two walks that both start at or before the anchor agree on every week
    they both reach. *)
Lemma runTo_start_independent (k1 k2 : nat) (s1 s2 w : WeekKey) :
  validWeek W s1 -> validWeek W s2 -> validWeek W w ->
  (forall o, ob = Some o -> (ordinal W s1 <= ordinal W (anchorWeek o))%Z) ->
  (forall o, ob = Some o -> (ordinal W s2 <= ordinal W (anchorWeek o))%Z) ->
  ordinal W w = (ordinal W s1 + Z.of_nat k1)%Z ->
  ordinal W w = (ordinal W s2 + Z.of_nat k2)%Z ->
  runTo k1 0 s1 = runTo k2 0 s2.
Proof.
  intros Hs1 Hs2. revert k2 w.
  induction k1 as [|k1 IH]; intros k2 w Hw A1 A2 O1 O2.
  - assert (w = s1) as -> by (apply ordinal_inj; auto; lia).
    destruct (runTo_last k2 0 s2 s1 Hs2 Hs1 O2) as [b ->].
    apply step_forgets; auto.
  - rewrite (runTo_step k1 0 s1 w Hs1 Hw O1).
    destruct k2 as [|k2].
    + assert (w = s2) as -> by (apply ordinal_inj; auto; lia).
      apply step_forgets; auto.
    + rewrite (runTo_step k2 0 s2 w Hs2 Hw O2).
      f_equal. apply (IH k2 (prevWeek W w)); auto using prevWeek_valid;
        rewrite ordinal_prev by assumption; lia.
Qed.

(** Range independence: the balance returned for a week does not depend on
    the range it was requested in. *)
Lemma project_range_independent (from1 to1 from2 to2 w : WeekKey) :
  validWeek W from1 -> validWeek W to1 ->
  validWeek W from2 -> validWeek W to2 -> validWeek W w ->
  inRange w from1 to1 = true -> inRange w from2 to2 = true ->
  balanceOf (project W ob L it from1 to1) w
  = balanceOf (project W ob L it from2 to2) w.
Proof.
  intros Hf1 Ht1 Hf2 Ht2 Hw I1 I2.
  apply andb_true_iff in I1 as [F1 T1]. apply andb_true_iff in I2 as [F2 T2].
  unfold project. rewrite !balanceOf_slice by assumption.
  apply leb_ordinal in T1; auto. apply leb_ordinal in T2; auto.
  pose proof (proj1 (leb_ordinal from1 w Hf1 Hw) F1).
  pose proof (proj1 (leb_ordinal from2 w Hf2 Hw) F2).
  pose proof (startOf_le_from from1 Hf1). pose proof (startOf_le_from from2 Hf2).
  rewrite !internal_balanceOf by (auto; lia).
  f_equal.
  apply (runTo_start_independent _ _ _ _ w);
    auto using startOf_valid, startOf_le_anchor; lia.
Qed.

End Calendar.

(** C1.  For an item, a requested range [from, to] and a week [w] of the
    range (week numbers within 1..weeksPerYear): the projected balance of
    [w] is 0 when no opening balance is defined or [w] lies before the
    anchor; it is exactly the opening quantity when [w] is the anchor,
    whatever moves in that week; and after the anchor it is the balance of
    the week before (the one the projection gives for that week in every
    range that holds it), minus the outflow of [w] plus its inflow: ship
    and ACTIVE/COMPLETE production quantities for a product, BOM-derived
    consumption and CONFIRM purchase quantities for a material. *)
Theorem weekly_balance_recurrence
    (W : Z) (ob : option OpeningBalance) (L : Ledger) (it : Item)
    (from to w : WeekKey) :
  validWeek W from -> validWeek W to -> validWeek W w ->
  (forall o, ob = Some o -> validWeek W (anchorWeek o)) ->
  inRange w from to = true ->
  match ob with
  | None => balanceOf (project W ob L it from to) w = Some 0
  | Some o =>
      match compare w (anchorWeek o) with
      | Lt => balanceOf (project W ob L it from to) w = Some 0
      | Eq => balanceOf (project W ob L it from to) w = Some (balanceQty o)
      | Gt =>
          exists prev,
            (forall from' to',
               validWeek W from' -> validWeek W to' ->
               inRange (prevWeek W w) from' to' = true ->
               balanceOf (project W ob L it from' to') (prevWeek W w)
               = Some prev)
            /\ balanceOf (project W ob L it from to) w
               = Some (match it with
                       | Product p =>
                           prev - shipQty L p w + productionQty L p w
                       | Material m =>
                           prev - bomDerivedConsumption L m w
                           + confirmedPurchaseQty L m w
                       end)
      end
  end.
Proof.
  intros Hf Ht Hw Ha Hin.
  assert (HW : (1 <= W)%Z) by (unfold validWeek in Hf; lia).
  apply andb_true_iff in Hin as [Hfw Hwt].
  apply (leb_ordinal W HW) in Hwt; auto.
  pose proof (proj1 (leb_ordinal W HW from w Hf Hw) Hfw) as Hfw'.
  pose proof (startOf_le_from W HW ob Ha from Hf) as Hs.
  pose proof (startOf_valid W ob Ha from Hf) as Hsv.
  assert (Hbal : balanceOf (project W ob L it from to) w
                 = Some (balanceAfter W ob L it
                           (Z.to_nat (ordinal W w - ordinal W (startOf ob from)))
                           0 (startOf ob from))).
  { unfold project. rewrite (balanceOf_slice from w _ Hfw).
    apply internal_balanceOf; auto; lia. }
  set (s := startOf ob from) in *.
  set (k := Z.to_nat (ordinal W w - ordinal W s)) in *.
  assert (Hk : ordinal W w = (ordinal W s + Z.of_nat k)%Z) by (subst k; lia).
  destruct (runTo_last W HW ob L it k 0 s w Hsv Hw Hk) as [b Hb].
  destruct ob as [o|] eqn:Eob.
  2:{ rewrite Hbal, Hb. reflexivity. }
  pose proof (Ha o eq_refl) as Hav.
  destruct (compare w (anchorWeek o)) eqn:C.
  - rewrite Hbal, Hb. unfold step. now rewrite C.
  - rewrite Hbal, Hb. unfold step. now rewrite C.
  - pose proof (startOf_le_anchor W HW (Some o) Ha from o Hf eq_refl) as Hsa.
    fold s in Hsa.
    pose proof C as C'.
    rewrite (ordinal_compare W HW w (anchorWeek o) Hw Hav) in C'.
    apply Z.compare_gt_iff in C'.
    destruct k as [|k'] eqn:Ek; [lia|].
    pose proof (prevWeek_valid W HW w Hw) as Hpv.
    pose proof (ordinal_prev W w Hw) as Hpo.
    exists (balanceAfter W (Some o) L it k' 0 s).
    split.
    + intros from' to' Hf' Ht' Hin'.
      apply andb_true_iff in Hin' as [F' T'].
      apply (leb_ordinal W HW) in T'; auto.
      pose proof (proj1 (leb_ordinal W HW from' (prevWeek W w) Hf' Hpv) F').
      pose proof (startOf_le_from W HW (Some o) Ha from' Hf').
      unfold project. rewrite (balanceOf_slice from' (prevWeek W w) _ F').
      rewrite (internal_balanceOf W HW (Some o) L it Ha from' to' (prevWeek W w))
        by (auto; lia).
      f_equal.
      apply (runTo_start_independent W HW (Some o) L it Ha _ _ _ _ (prevWeek W w));
        auto using startOf_valid.
      * intros o' [= <-].
        exact (startOf_le_anchor W HW (Some o) Ha from' o Hf' eq_refl).
      * intros o' [= <-]. exact Hsa.
      * lia.
      * lia.
    + rewrite Hbal.
      rewrite (runTo_step W HW (Some o) L it k' 0 s w Hsv Hw Hk).
      unfold step. rewrite C.
      destruct it; reflexivity.
Qed.

(** A concrete week number is checked by evaluation. *)
Ltac valid_week := unfold validWeek; simpl; lia.

Lemma weekly_balance_recurrence_witness :
  exists prev,
    (forall from' to',
       validWeek 53 from' -> validWeek 53 to' ->
       inRange (prevWeek 53 (wk 48)) from' to' = true ->
       balanceOf (project 53 (openingAt47 20) scenarioLedger (Product 1) from' to')
                 (prevWeek 53 (wk 48))
       = Some prev)
    /\ balanceOf (project 53 (openingAt47 20) scenarioLedger (Product 1)
                    (wk 48) (wk 50)) (wk 48)
       = Some (prev - shipQty scenarioLedger 1 (wk 48)
               + productionQty scenarioLedger 1 (wk 48)).
Proof.
  apply (weekly_balance_recurrence 53 (openingAt47 20) scenarioLedger
           (Product 1) (wk 48) (wk 50) (wk 48)).
  - valid_week.
  - valid_week.
  - valid_week.
  - intros o [= <-]. valid_week.
  - reflexivity.
Defined.

(** Scenarios 1 and 2: product 589, opening balance 20 at week 47. *)
Example scenario_product :
  reduced (project 53 (openingAt47 20) scenarioLedger (Product 1) (wk 46) (wk 50))
  = [(wk 46, 0); (wk 47, 20); (wk 48, 25); (wk 49, 30); (wk 50, 30)].
Proof. reflexivity. Qed.

(** Scenario 3: material NVL3, opening balance 10 at week 47. *)
Example scenario_material :
  reduced (project 53 (openingAt47 10) scenario3Ledger (Material 1) (wk 47) (wk 49))
  = [(wk 47, 10); (wk 48, 5); (wk 49, 10)].
Proof. reflexivity. Qed.

(** Scenario 4: a range that starts after the anchor. *)
Example scenario_slice :
  reduced (project 53 (openingAt47 20) scenarioLedger (Product 1) (wk 48) (wk 49))
  = [(wk 48, 25); (wk 49, 30)].
Proof. reflexivity. Qed.

(** Scenario 5: no opening balance. *)
Example scenario_no_opening :
  reduced (project 53 None scenarioLedger (Product 1) (wk 47) (wk 49))
  = [(wk 47, 0); (wk 48, 0); (wk 49, 0)].
Proof. reflexivity. Qed.

(** A range across the year boundary. *)
Example scenario_year_boundary :
  map fst (project 53 None scenarioLedger (Product 1)
             (mkWeek 2025 52) (mkWeek 2026 2))
  = [mkWeek 2025 52; mkWeek 2025 53; mkWeek 2026 1; mkWeek 2026 2].
Proof. reflexivity. Qed.

End Projection.

(* ################################################################## *)
(** * Further properties of the handlers *)
(* ################################################################## *)

(** ** Which parameters are rejected *)

Lemma digitValue_range (c : ascii) :
  isDigit c = true -> 0 <= digitValue c <= 9.
Proof.
  destruct c as [[] [] [] [] [] [] [] []]; try discriminate;
    intros _; unfold digitValue; simpl; lia.
Qed.

Lemma digitValue_zero (c : ascii) :
  isDigit c = true -> (digitValue c = 0 <-> Ascii.eqb c "0" = true).
Proof.
  destruct c as [[] [] [] [] [] [] [] []]; try discriminate;
    intros _; unfold digitValue; simpl; split; intros; try lia;
    try discriminate; reflexivity.
Qed.

(** The value read from a run of digits is zero exactly when nothing but
    zeros was read. *)
Lemma digits_zero (r : string) (a : Z) :
  0 <= a ->
  exists n, digits r (Some a) = Some n /\ 0 <= n
            /\ (n = 0 <-> a = 0 /\ allZeros (digitPrefix r) = true).
Proof.
  revert a. induction r as [|c r IH]; intros a Ha; simpl.
  - exists a. repeat split; tauto.
  - destruct (isDigit c) eqn:D.
    + pose proof (digitValue_range c D) as Hr.
      pose proof (digitValue_zero c D) as Hz.
      destruct (IH (10 * a + digitValue c)) as (n & E & Hn & Hiff); [lia|].
      exists n. split; [exact E|]. split; [exact Hn|].
      simpl. rewrite andb_true_iff, Hiff, <- Hz.
      split; [intros [H1 H2]; repeat split; try lia; exact H2
             | intros [H1 [H2 H3]]; split; [lia | exact H3]].
    + exists a. simpl. repeat split; tauto.
Qed.

Lemma parseInt_truthy (s : string) :
  truthy (parseInt s) = negb (allZeros (digitPrefix (snd (signOf (trimStart s))))).
Proof.
  unfold parseInt.
  assert (Sg : fst (signOf (trimStart s)) = 1 \/ fst (signOf (trimStart s)) = -1).
  { unfold signOf. destruct (trimStart s) as [|c r]; simpl; auto.
    destruct c as [[] [] [] [] [] [] [] []]; simpl; auto. }
  destruct (signOf (trimStart s)) as [sg r]. simpl in *.
  destruct r as [|c r]; simpl; [reflexivity|].
  destruct (isDigit c) eqn:D; [|reflexivity].
  pose proof (digitValue_range c D) as Hr.
  pose proof (digitValue_zero c D) as Hz.
  destruct (digits_zero r (digitValue c)) as (n & E & Hn & Hiff); [lia|].
  replace (10 * 0 + digitValue c) with (digitValue c) by lia.
  change (match digitValue c with 0 => 0 | Z.pos y' => Z.pos y' | Z.neg y' => Z.neg y' end)
    with (digitValue c) in *.
  rewrite E. simpl.
  destruct (Ascii.eqb c "0" && allZeros (digitPrefix r)) eqn:A.
  - apply andb_true_iff in A as [A1 A2].
    assert (n = 0) as -> by (apply Hiff; split; [now apply Hz | assumption]).
    now rewrite Z.mul_0_r.
  - apply negb_true_iff, Z.eqb_neq. intros M.
    assert (n = 0) as N0 by (destruct Sg; subst sg; lia).
    apply Hiff in N0 as [N1 N2]. apply Hz in N1.
    rewrite N1, N2 in A. discriminate.
Qed.

Lemma parseIntSafe_truthy (v : option string) :
  truthy (parseIntSafe v) = negb (readsFalsy v).
Proof.
  destruct v as [s|]; simpl; [|reflexivity].
  destruct (String.eqb_spec s ""); [subst; reflexivity|].
  apply parseInt_truthy.
Qed.

Lemma bindNumber_cases (ty : SqlType) (v : JsVal) (c : Conn) :
  bindNumber ty v c = (Thrown, c) \/ exists x, bindNumber ty v c = (Returned x, c).
Proof.
  unfold bindNumber, ret, throw.
  destruct v; eauto. destruct (inRange ty n); eauto.
Qed.

(** Past its check a week-range handler answers 200 or 500. *)
Ltac past_check :=
  unfold handle, bind, getPool, serverError, select, ret;
  match goal with |- context [reachable ?c] => destruct (reachable c) end;
  [|simpl; discriminate];
  repeat match goal with
         | |- context [bindNumber ?ty ?v ?c] =>
             destruct (bindNumber_cases ty v c) as [-> | [? ->]];
             [simpl; discriminate|]
         end;
  simpl; discriminate.

(** X1.  A week-range endpoint answers 400 exactly when one of the
    parameters it insists on is absent, or has no leading integer, or has a
    leading integer written with zeros only (white space and one sign
    aside): "0", "00" and "-0" are rejected like a missing value. *)
Theorem range_request_rejected_iff
    (e : RangeEndpoint) (q : Query) (c : Conn) :
  status (fst (serve e q c)) = 400
  <-> existsb readsFalsy (required e q) = true.
Proof.
  destruct e as [|v|]; simpl;
    unfold getProduction, getPurchase, getSalesPlan;
    rewrite !parseIntSafe_truthy, !negb_involutive, !orb_false_r;
    rewrite <- !orb_assoc;
    match goal with
    | |- context [if ?b then _ else _] => destruct b eqn:B
    end;
    try (split; [reflexivity | intros _; reflexivity]);
    (split; [intros H; exfalso; revert H; past_check | discriminate]).
Qed.



(** ** Order of the production rows *)

Lemma weekLe_total (a b : Key * Z) : weekLe a b = false -> weekLe b a = true.
Proof.
  destruct a as [[[ia ya] wa] na], b as [[[ib yb] wb] nb]. unfold weekLe. simpl.
  intros H. apply orb_false_iff in H as [H1 H2].
  apply Z.ltb_ge in H1.
  destruct (Z.eqb_spec ya yb) as [->|N].
  - simpl in H2. apply Z.leb_gt in H2.
    rewrite Z.eqb_refl. simpl.
    apply orb_true_iff. right. apply Z.leb_le. lia.
  - apply orb_true_iff. left. apply Z.ltb_lt. lia.
Qed.

Lemma weekLe_spec (a b : Key * Z) :
  weekLe a b = true <-> weekOrder (toQtyRow a) (toQtyRow b).
Proof.
  destruct a as [[[ia ya] wa] na], b as [[[ib yb] wb] nb].
  unfold weekLe, weekOrder, weekLeq. simpl.
  rewrite orb_true_iff, andb_true_iff, Z.ltb_lt, Z.eqb_eq, Z.leb_le. tauto.
Qed.

Lemma weekOrder_trans (a b c : QtyRow) :
  weekOrder a b -> weekOrder b c -> weekOrder a c.
Proof. unfold weekOrder, weekLeq. lia. Qed.

Lemma insertRow_sorted (r : Key * Z) (l : list (Key * Z)) :
  Sorted (fun a b => weekLe a b = true) l ->
  Sorted (fun a b => weekLe a b = true) (insertRow r l).
Proof.
  induction l as [|h t IH]; intros S; simpl.
  - repeat constructor.
  - destruct (weekLe r h) eqn:E.
    + constructor; [exact S | now constructor].
    + apply Sorted_inv in S as [St Hd].
      constructor; [now apply IH|].
      destruct t as [|h' t']; simpl.
      * constructor. now apply weekLe_total.
      * destruct (weekLe r h'); constructor;
          [now apply weekLe_total | now inversion Hd].
Qed.

Lemma orderByWeek_sorted (l : list (Key * Z)) :
  Sorted (fun a b => weekLe a b = true) (orderByWeek l).
Proof.
  induction l as [|a l IH]; simpl; [constructor|].
  now apply insertRow_sorted.
Qed.

Lemma Sorted_toQtyRow (l : list (Key * Z)) :
  Sorted (fun a b => weekLe a b = true) l ->
  Sorted weekOrder (map toQtyRow l).
Proof.
  induction 1 as [|a l S IH Hd]; simpl; constructor; [exact IH|].
  destruct Hd; simpl; constructor. now apply weekLe_spec.
Qed.

(** The body of an answer of GET /api/production is an error or the rows of
    its statement. *)
Lemma getProduction_body (q : Query) (c : Conn) :
  (exists msg, body (fst (getProduction q c)) = Error msg)
  \/ (exists p fy fw ty tw,
        body (fst (getProduction q c))
        = QtyRows (Statement.selectProduction (store c) p fy fw ty tw)).
Proof.
  unfold getProduction.
  match goal with
  | |- context [if ?b then _ else _] => destruct b
  end; [left; eexists; reflexivity|].
  unfold handle, bind, getPool, serverError, select, ret.
  destruct (reachable c); [|left; eexists; reflexivity].
  repeat match goal with
         | |- context [bindNumber ?ty ?v ?c] =>
             destruct (bindNumber_cases ty v c) as [-> | [? ->]];
             [left; eexists; reflexivity|]
         end.
  right. simpl. eauto 10.
Qed.

(** X2.  Whenever GET /api/production answers rows, they come in ascending
    order of (year, week): every row is at or before all the rows after
    it. *)
Theorem production_rows_ascending (q : Query) (c : Conn) (rows : list QtyRow) :
  body (fst (getProduction q c)) = QtyRows rows ->
  StronglySorted weekOrder rows.
Proof.
  intros B.
  destruct (getProduction_body q c) as [[msg E] | (p & fy & fw & ty & tw & E)];
    rewrite E in B; [discriminate|].
  injection B as <-.
  apply Sorted_StronglySorted; [exact weekOrder_trans|].
  unfold Statement.selectProduction.
  apply Sorted_toQtyRow, orderByWeek_sorted.
Qed.

Lemma production_rows_ascending_witness :
  StronglySorted weekOrder
    [mkQtyRow 1 2025 48 5000; mkQtyRow 1 2025 49 5000; mkQtyRow 2 2025 49 3000].
Proof.
  apply (production_rows_ascending (query2025 "47" "50") (idle (seed CaseSensitive))).
  reflexivity.
Defined.

(** ** Sales plans *)

Lemma NoDup_map_filter {Row K} (key : Row -> K) (keep : Row -> bool)
    (rows : list Row) (U : NoDup (map key rows)) :
  NoDup (map key (filter keep rows)).
Proof.
  induction rows as [|r rows IH]; simpl in *; [constructor|].
  apply NoDup_cons_iff in U as [N U].
  destruct (keep r); simpl; [|now apply IH].
  constructor; [|now apply IH].
  intros H. apply N. apply in_map_iff in H as (x & E & Hx).
  apply filter_In in Hx as [Hx _]. rewrite <- E. now apply in_map.
Qed.

Lemma NoDup_map_finer {A B C} (f : A -> B) (g : A -> C) (l : list A) :
  (forall x y, In x l -> In y l -> g x = g y -> f x = f y) ->
  NoDup (map f l) -> NoDup (map g l).
Proof.
  induction l as [|a l IH]; simpl; intros H ND; [constructor|].
  apply NoDup_cons_iff in ND as [N ND].
  constructor.
  - intros G. apply N. apply in_map_iff in G as (x & E & Hx).
    apply in_map_iff. exists x. split; [|exact Hx].
    apply H; auto.
  - apply IH; auto.
Qed.

Lemma onSalesPlan_spec (p y w : Z) (r : SalesPlans.row) :
  Statement.onSalesPlan p y w r = true <-> planKey r = (p, y, w).
Proof.
  unfold Statement.onSalesPlan, planKey.
  rewrite !andb_true_iff, !Z.eqb_eq.
  split; [intros [[-> ->] ->]; reflexivity | intros [= -> -> ->]; auto].
Qed.

(** The WHERE clause of the sales-plan query, all parameters given. *)
Lemma whereSalesPlan_spec (r : SalesPlans.row) (p fy fw ty tw : Z) :
  isTrue
    (and3 (and3 (eq3 (SalesPlans.ProductId r) (Some p))
                (notBefore (SalesPlans.PlanYear r) (SalesPlans.PlanWeek r)
                           (Some fy) (Some fw)))
          (notAfter (SalesPlans.PlanYear r) (SalesPlans.PlanWeek r)
                    (Some ty) (Some tw))) = true
  <-> SalesPlans.ProductId r = p
      /\ weekLeq fy fw (SalesPlans.PlanYear r) (SalesPlans.PlanWeek r)
      /\ weekLeq (SalesPlans.PlanYear r) (SalesPlans.PlanWeek r) ty tw.
Proof.
  rewrite !isTrue_and3, !andb_true_iff, notBefore_spec, notAfter_spec.
  unfold eq3, cmp3, isTrue.
  destruct (Z.eqb_spec (SalesPlans.ProductId r) p);
    intuition (try discriminate; try congruence).
Qed.

(** X3.  With its five parameters read and the database reached, GET
    /api/sales-plan answers the rows (year, week, qty) of the product's
    stored plans whose week lies in the range, both ends included, and
    nothing else; under UNIQUE(ProductId, PlanYear, PlanWeek) no week comes
    twice. *)
Theorem sales_plan_rows (q : Query) (c : Conn) (p fy fw ty tw : Z) :
  reachable c = true ->
  readsAs (q_productId q) p ->
  readsAs (q_fromYear q) fy -> readsAs (q_fromWeek q) fw ->
  readsAs (q_toYear q) ty -> readsAs (q_toWeek q) tw ->
  exists rows,
    fst (getSalesPlan q c) = json (PlanRows rows)
    /\ (forall y w n,
          In (y, w, n) rows
          <-> exists r, In r (salesPlans (store c))
                        /\ planKey r = (p, y, w) /\ SalesPlans.ShipQty r = n
                        /\ weekLeq fy fw y w /\ weekLeq y w ty tw)
    /\ (uniqueSalesPlans (store c) -> NoDup (map planWeekOf rows)).
Proof.
  intros R Hp Hfy Hfw Hty Htw.
  rewrite (getSalesPlan_runs q c p fy fw ty tw R Hp Hfy Hfw Hty Htw).
  eexists. split; [reflexivity|].
  unfold Statement.selectSalesPlan. split.
  - intros y w n. rewrite in_map_iff. split.
    + intros (r & [= <- <- <-] & Hr).
      apply filter_In in Hr as [Hin Hw].
      apply whereSalesPlan_spec in Hw as (<- & H1 & H2).
      exists r. auto.
    + intros (r & Hin & K & <- & H1 & H2).
      unfold planKey in K. injection K as <- <- <-.
      exists r. split; [reflexivity|].
      apply filter_In. split; [exact Hin|].
      apply whereSalesPlan_spec. auto.
  - intros U. rewrite map_map.
    apply (NoDup_map_finer planKey); [|now apply NoDup_map_filter].
    intros x y Hx Hy E.
    apply filter_In in Hx as [_ Hx]. apply filter_In in Hy as [_ Hy].
    apply whereSalesPlan_spec in Hx as (Px & _).
    apply whereSalesPlan_spec in Hy as (Py & _).
    unfold planWeekOf in E. simpl in E. injection E as E1 E2.
    unfold planKey. congruence.
Qed.

Lemma sales_plan_rows_witness :
  exists rows,
    fst (getSalesPlan (mkQuery (Some "1"%string) None (Some "2025"%string)
                         (Some "47"%string) (Some "2025"%string) (Some "50"%string))
           (idle (seed CaseInsensitive)))
    = json (PlanRows rows)
    /\ (forall y w n,
          In (y, w, n) rows
          <-> exists r, In r (salesPlans (seed CaseInsensitive))
                        /\ planKey r = (1, y, w) /\ SalesPlans.ShipQty r = n
                        /\ weekLeq 2025 47 y w /\ weekLeq y w 2025 50)
    /\ (uniqueSalesPlans (seed CaseInsensitive) -> NoDup (map planWeekOf rows)).
Proof.
  apply (sales_plan_rows _ (idle (seed CaseInsensitive)) 1 2025 47 2025 50);
    solve [reflexivity | reads].
Defined.

(** *** What a MERGE into SalesPlans keeps *)

Lemma mergeSalesPlan_keys (p y w q : Z) (t : list SalesPlans.row) :
  map planKey
      (map (fun r => if Statement.onSalesPlan p y w r
                     then SalesPlans.mk (SalesPlans.ProductId r)
                            (SalesPlans.PlanYear r) (SalesPlans.PlanWeek r) q
                     else r) t)
  = map planKey t.
Proof.
  rewrite map_map. apply map_ext. intros r.
  now destruct (Statement.onSalesPlan p y w r).
Qed.

Lemma mergeSalesPlan_unique (s s' : Store) (i y w q : option Z) :
  uniqueSalesPlans s ->
  Statement.mergeSalesPlan s i y w q = Some s' ->
  uniqueSalesPlans s'.
Proof.
  intros U Mg.
  destruct (mergeSalesPlan_inv _ _ _ _ _ _ Mg)
    as (i' & y' & w' & q' & -> & -> & -> & -> & [[Ex E]|[Ex E]]);
    unfold uniqueSalesPlans in *; rewrite E.
  - now rewrite mergeSalesPlan_keys.
  - rewrite map_app. simpl.
    apply NoDup_app; [exact U | repeat constructor; simpl; tauto |].
    intros k Hk [<-|[]].
    apply in_map_iff in Hk as (r & Hr & Hin).
    apply onSalesPlan_spec in Hr.
    assert (existsb (Statement.onSalesPlan i' y' w') (salesPlans s) = true)
      by (apply existsb_exists; eauto).
    congruence.
Qed.

(** The rows of the key of a successful MERGE: one row, with the quantity
    sent. *)
Lemma mergeSalesPlan_exact (s s' : Store) (i y w q : Z) :
  uniqueSalesPlans s ->
  Statement.mergeSalesPlan s (Some i) (Some y) (Some w) (Some q) = Some s' ->
  filter (Statement.onSalesPlan i y w) (salesPlans s') = [SalesPlans.mk i y w q].
Proof.
  intros U Mg.
  destruct (mergeSalesPlan_inv _ _ _ _ _ _ Mg)
    as (i' & y' & w' & q' & [= <-] & [= <-] & [= <-] & [= <-] & [[Ex E]|[Ex E]]);
    rewrite E.
  - apply existsb_exists in Ex as (r & Hin & Hr).
    rewrite filter_map_commute.
    + assert (K : planKey r = (i, y, w)) by now apply onSalesPlan_spec.
      rewrite (filter_unique_key planKey _ (i, y, w) _ r); auto.
      * simpl. rewrite Hr. unfold planKey in K. injection K as -> -> ->.
        reflexivity.
      * intros x. apply onSalesPlan_spec.
    + intros x. destruct (Statement.onSalesPlan i y w x) eqn:X; exact X.
  - rewrite filter_app, (existsb_false_filter _ _ Ex). simpl.
    now rewrite onSalesPlan_refl.
Qed.

Lemma filter_map_fixed {A} (f : A -> bool) (g : A -> A) (l : list A) :
  (forall x, f (g x) = f x) -> (forall x, f x = true -> g x = x) ->
  filter f (map g l) = filter f l.
Proof.
  intros H1 H2. induction l as [|a l IH]; simpl; [reflexivity|].
  rewrite H1. destruct (f a) eqn:F; [rewrite (H2 a F)|]; now rewrite IH.
Qed.

(** The rows of the other keys are left as they were, whatever they are
    selected by. *)
Lemma mergeSalesPlan_other (s s' : Store) (i y w q : Z) (f : Key -> bool) :
  Statement.mergeSalesPlan s (Some i) (Some y) (Some w) (Some q) = Some s' ->
  f (i, y, w) = false ->
  filter (fun r => f (planKey r)) (salesPlans s')
  = filter (fun r => f (planKey r)) (salesPlans s).
Proof.
  intros Mg N.
  destruct (mergeSalesPlan_inv _ _ _ _ _ _ Mg)
    as (i' & y' & w' & q' & [= <-] & [= <-] & [= <-] & [= <-] & [[Ex E]|[Ex E]]);
    rewrite E.
  - apply filter_map_fixed; intros r;
      destruct (Statement.onSalesPlan i y w r) eqn:O; try reflexivity.
    apply onSalesPlan_spec in O. rewrite O. congruence.
  - rewrite filter_app. cbn [filter].
    change (planKey (SalesPlans.mk i y w q)) with (i, y, w).
    rewrite N. now rewrite app_nil_r.
Qed.

Lemma mergeSalesPlan_frame (s s' : Store) (i y w q : option Z) :
  Statement.mergeSalesPlan s i y w q = Some s' ->
  collation s' = collation s /\ products s' = products s
  /\ openingBalances s' = openingBalances s
  /\ productionOrders s' = productionOrders s
  /\ purchaseOrders s' = purchaseOrders s
  /\ purchaseOrderLines s' = purchaseOrderLines s.
Proof.
  unfold Statement.mergeSalesPlan.
  destruct i, y, w, q; try discriminate.
  destruct (existsb _ _).
  - intros [= <-]. simpl. auto 10.
  - destruct (_ && _); [|discriminate]. intros [= <-]. simpl. auto 10.
Qed.

Lemma onSalesPlan_key (p y w : Z) (l : list SalesPlans.row) :
  filter (Statement.onSalesPlan p y w) l
  = filter (fun r => key_eqb (planKey r) (p, y, w)) l.
Proof.
  apply filter_ext. intros r. unfold Statement.onSalesPlan, planKey, key_eqb.
  reflexivity.
Qed.

Section SalesPlanBatch.

Variable convert : SqlType -> JsVal -> option Z.

Lemma applyPlans_unique (pid : JsVal) (items : list PlanItem) (s s' : Store) :
  uniqueSalesPlans s ->
  applyPlans convert pid items s = Some s' ->
  uniqueSalesPlans s'.
Proof.
  revert s. induction items as [|[|p] items IH]; intros s U; simpl.
  - now intros [= <-].
  - discriminate.
  - destruct (bound convert Int pid) as [i|]; [|discriminate].
    destruct (bound convert Int (p_year p)) as [y|]; [|discriminate].
    destruct (bound convert Int (p_week p)) as [w|]; [|discriminate].
    destruct (bound convert Decimal18_3 _) as [q|]; [|discriminate].
    destruct (Statement.mergeSalesPlan s i y w q) as [s1|] eqn:Mg; [|discriminate].
    apply IH. exact (mergeSalesPlan_unique _ _ _ _ _ _ U Mg).
Qed.

Lemma applyPlans_frame (pid : JsVal) (items : list PlanItem) (s s' : Store) :
  applyPlans convert pid items s = Some s' ->
  collation s' = collation s /\ products s' = products s
  /\ openingBalances s' = openingBalances s
  /\ productionOrders s' = productionOrders s
  /\ purchaseOrders s' = purchaseOrders s
  /\ purchaseOrderLines s' = purchaseOrderLines s.
Proof.
  revert s. induction items as [|[|p] items IH]; intros s; simpl.
  - intros [= <-]. auto 10.
  - discriminate.
  - destruct (bound convert Int pid) as [i|]; [|discriminate].
    destruct (bound convert Int (p_year p)) as [y|]; [|discriminate].
    destruct (bound convert Int (p_week p)) as [w|]; [|discriminate].
    destruct (bound convert Decimal18_3 _) as [q|]; [|discriminate].
    destruct (Statement.mergeSalesPlan s i y w q) as [s1|] eqn:Mg; [|discriminate].
    intros A. apply IH in A. apply mergeSalesPlan_frame in Mg.
    intuition congruence.
Qed.

(** The rows a batch leaves for a week of its product: the quantity of the
    last row of the batch that names the week, or what was stored when no
    row names it. *)
Lemma applyPlans_last (pid : JsVal) (p : Z) (items : list PlanItem)
    (s s' : Store) (y w : Z) :
  uniqueSalesPlans s ->
  bound convert Int pid = Some (Some p) ->
  applyPlans convert pid items s = Some s' ->
  filter (Statement.onSalesPlan p y w) (salesPlans s')
  = match lastQty convert items y w with
    | Some q => [SalesPlans.mk p y w q]
    | None => filter (Statement.onSalesPlan p y w) (salesPlans s)
    end.
Proof.
  intros U Bp. revert s U.
  induction items as [|[|pl] items IH]; intros s U; simpl.
  - now intros [= <-].
  - discriminate.
  - rewrite Bp.
    destruct (bound convert Int (p_year pl)) as [y0|]; [|discriminate].
    destruct (bound convert Int (p_week pl)) as [w0|]; [|discriminate].
    destruct (bound convert Decimal18_3 _) as [q0|]; [|discriminate].
    destruct (Statement.mergeSalesPlan s (Some p) y0 w0 q0) as [s1|] eqn:Mg;
      [|discriminate].
    intros A.
    pose proof (mergeSalesPlan_unique _ _ _ _ _ _ U Mg) as U1.
    rewrite (IH s1 U1 A).
    destruct (lastQty convert items y w) as [q|]; [reflexivity|].
    destruct (mergeSalesPlan_inv _ _ _ _ _ _ Mg)
      as (i' & y' & w' & q' & _ & -> & -> & -> & _).
    destruct ((y' =? y) && (w' =? w)) eqn:E.
    + apply andb_true_iff in E as [E1 E2].
      apply Z.eqb_eq in E1. apply Z.eqb_eq in E2. subst y' w'.
      exact (mergeSalesPlan_exact _ _ _ _ _ _ U Mg).
    + rewrite !onSalesPlan_key.
      apply (mergeSalesPlan_other _ _ _ _ _ _ (fun k => key_eqb k (p, y, w)) Mg).
      unfold key_eqb. rewrite Z.eqb_refl. exact E.
Qed.

(** The rows of other products are left as they were. *)
Lemma applyPlans_other_product (pid : JsVal) (p' : Z) (items : list PlanItem)
    (s s' : Store) :
  bound convert Int pid <> Some (Some p') ->
  applyPlans convert pid items s = Some s' ->
  filter (fun r => SalesPlans.ProductId r =? p') (salesPlans s')
  = filter (fun r => SalesPlans.ProductId r =? p') (salesPlans s).
Proof.
  intros N. revert s.
  induction items as [|[|pl] items IH]; intros s; simpl.
  - now intros [= <-].
  - discriminate.
  - destruct (bound convert Int pid) as [i|]; [|discriminate].
    destruct (bound convert Int (p_year pl)) as [y0|]; [|discriminate].
    destruct (bound convert Int (p_week pl)) as [w0|]; [|discriminate].
    destruct (bound convert Decimal18_3 _) as [q0|]; [|discriminate].
    destruct (Statement.mergeSalesPlan s i y0 w0 q0) as [s1|] eqn:Mg;
      [|discriminate].
    intros A. rewrite (IH s1 A).
    destruct (mergeSalesPlan_inv _ _ _ _ _ _ Mg)
      as (i' & y' & w' & q' & -> & -> & -> & -> & _).
    apply (mergeSalesPlan_other _ _ _ _ _ _ (fun k => fst (fst k) =? p') Mg).
    simpl. apply Z.eqb_neq. congruence.
Qed.

(** What PUT /api/sales-plan leaves when it answers { ok: true }. *)
Lemma putSalesPlan_ok (b : SalesPlanBody) (c : Conn) :
  transaction c = None ->
  fst (putSalesPlan convert b c) = json Ok ->
  reachable c = true
  /\ reachable (snd (putSalesPlan convert b c)) = true
  /\ applyPlans convert (productId b) (elements (plans b)) (store c)
     = Some (store (snd (putSalesPlan convert b c))).
Proof.
  intros Tx. unfold putSalesPlan.
  destruct (negb (truthy (productId b)) || negb (isArray (plans b)));
    [discriminate|].
  unfold handle, bind, getPool.
  destruct (reachable c) eqn:R; [|discriminate].
  cbn [begin].
  match goal with
  | |- context [forEach ?l ?f ?c0] =>
      destruct (forEach_upsertPlan convert (productId b) l c0)
        as (c' & E & Tx' & Rc & St);
      cbn [store transaction reachable] in E, Tx', Rc, St;
      rewrite E
  end.
  destruct (applyPlans convert (productId b) (elements (plans b)) (store c))
    as [s'|] eqn:A; [|discriminate].
  intros _. specialize (St s' eq_refl). unfold commit, ret. simpl.
  rewrite Rc, R, St. auto.
Qed.

(** The sales-plan query for a single week selects by the key of the
    MERGE. *)
Lemma selectSalesPlan_week (s : Store) (p y w : Z) :
  Statement.selectSalesPlan s (Some p) (Some y) (Some w) (Some y) (Some w)
  = map (fun r => (SalesPlans.PlanYear r, SalesPlans.PlanWeek r, SalesPlans.ShipQty r))
        (filter (Statement.onSalesPlan p y w) (salesPlans s)).
Proof.
  unfold Statement.selectSalesPlan. f_equal. apply filter_ext. intros r.
  apply eq_true_iff_eq.
  rewrite whereSalesPlan_spec, onSalesPlan_spec.
  unfold planKey, weekLeq. split.
  - intros (-> & H1 & H2). f_equal; [f_equal|]; lia.
  - intros [= -> -> ->]. lia.
Qed.

(** X4.  After a PUT /api/sales-plan that answers { ok: true } on a table
    that honours UNIQUE(ProductId, PlanYear, PlanWeek), GET /api/sales-plan
    for the same product and a single week answers one row carrying the
    quantity of the last row of the batch that names the week; for a week
    the batch does not name it answers what it answered before. *)
Theorem sales_plan_put_then_get
    (b : SalesPlanBody) (c : Conn) (qr : Query) (p y w : Z) :
  transaction c = None ->
  uniqueSalesPlans (store c) ->
  fst (putSalesPlan convert b c) = json Ok ->
  bound convert Int (productId b) = Some (Some p) ->
  readsAs (q_productId qr) p ->
  readsAs (q_fromYear qr) y -> readsAs (q_fromWeek qr) w ->
  readsAs (q_toYear qr) y -> readsAs (q_toWeek qr) w ->
  fst (getSalesPlan qr (snd (putSalesPlan convert b c)))
  = match lastQty convert (elements (plans b)) y w with
    | Some q => json (PlanRows [(y, w, q)])
    | None => fst (getSalesPlan qr c)
    end.
Proof.
  intros Tx U OK Bp Hp Hfy Hfw Hty Htw.
  destruct (putSalesPlan_ok b c Tx OK) as (R & R' & A).
  rewrite (getSalesPlan_runs qr _ p y w y w R' Hp Hfy Hfw Hty Htw).
  cbn [fst]. rewrite selectSalesPlan_week.
  rewrite (applyPlans_last _ p _ _ _ y w U Bp A).
  destruct (lastQty convert (elements (plans b)) y w) as [q|]; [reflexivity|].
  rewrite (getSalesPlan_runs qr c p y w y w R Hp Hfy Hfw Hty Htw).
  cbn [fst]. now rewrite selectSalesPlan_week.
Qed.

(** X5.  PUT /api/sales-plan keeps UNIQUE(ProductId, PlanYear, PlanWeek),
    writes to no table but SalesPlans, and leaves the plans of every product
    other than the one it names as they were, whatever it answers. *)
Theorem sales_plan_put_frame (b : SalesPlanBody) (c : Conn) :
  transaction c = None ->
  (uniqueSalesPlans (store c) ->
   uniqueSalesPlans (store (snd (putSalesPlan convert b c))))
  /\ products (store (snd (putSalesPlan convert b c))) = products (store c)
  /\ openingBalances (store (snd (putSalesPlan convert b c)))
     = openingBalances (store c)
  /\ productionOrders (store (snd (putSalesPlan convert b c)))
     = productionOrders (store c)
  /\ purchaseOrders (store (snd (putSalesPlan convert b c)))
     = purchaseOrders (store c)
  /\ purchaseOrderLines (store (snd (putSalesPlan convert b c)))
     = purchaseOrderLines (store c)
  /\ (forall p',
        bound convert Int (productId b) <> Some (Some p') ->
        filter (fun r => SalesPlans.ProductId r =? p')
               (salesPlans (store (snd (putSalesPlan convert b c))))
        = filter (fun r => SalesPlans.ProductId r =? p')
                 (salesPlans (store c))).
Proof.
  intros Tx.
  destruct (putSalesPlan_runs convert b c Tx) as (r & c' & -> & _ & H).
  cbn [snd].
  destruct H as [(_ & _ & ->) | [(_ & _ & _ & ->) | (_ & _ & H)]];
    try (repeat split; auto; fail).
  destruct (applyPlans convert (productId b) (elements (plans b)) (store c))
    as [s'|] eqn:A; destruct H as [_ ->]; [|repeat split; auto].
  destruct (applyPlans_frame _ _ _ _ A) as (_ & F1 & F2 & F3 & F4 & F5).
  repeat split; auto.
  - intros U. exact (applyPlans_unique _ _ _ _ U A).
  - intros p' N. exact (applyPlans_other_product _ _ _ _ _ N A).
Qed.

End SalesPlanBatch.

Lemma sales_plan_put_then_get_witness :
  fst (getSalesPlan
         (mkQuery (Some "1"%string) None (Some "2025"%string) (Some "48"%string)
                  (Some "2025"%string) (Some "48"%string))
         (snd (putSalesPlan noConversion
                 (mkSalesPlanBody (JNum 1)
                    (Some [Item (mkPlan (JNum 2025) (JNum 48) (JNum 4000));
                           Item (mkPlan (JNum 2025) (JNum 49) (JNum 2000));
                           Item (mkPlan (JNum 2025) (JNum 48) (JNum 1000))]))
                 (idle (seed CaseInsensitive)))))
  = json (PlanRows [(2025, 48, 1000)]).
Proof.
  apply (sales_plan_put_then_get noConversion
           (mkSalesPlanBody (JNum 1)
              (Some [Item (mkPlan (JNum 2025) (JNum 48) (JNum 4000));
                     Item (mkPlan (JNum 2025) (JNum 49) (JNum 2000));
                     Item (mkPlan (JNum 2025) (JNum 48) (JNum 1000))]))
           (idle (seed CaseInsensitive)) _ 1 2025 48);
    solve [reflexivity | reads | constructor].
Defined.

Lemma sales_plan_put_frame_witness :
  uniqueSalesPlans
    (store (snd (putSalesPlan noConversion (planCall 2025 48 (JNum 4000))
                   (idle (seed CaseInsensitive))))).
Proof.
  apply (proj1 (sales_plan_put_frame noConversion (planCall 2025 48 (JNum 4000))
                  (idle (seed CaseInsensitive)) eq_refl)).
  constructor.
Defined.

(** ** Opening balances *)

Lemma mergeOpeningBalance_frame (s s' : Store) (ty : ItemType) (i y w q : option Z) :
  Statement.mergeOpeningBalance s ty i y w q = Some s' ->
  collation s' = collation s /\ products s' = products s
  /\ salesPlans s' = salesPlans s
  /\ productionOrders s' = productionOrders s
  /\ purchaseOrders s' = purchaseOrders s
  /\ purchaseOrderLines s' = purchaseOrderLines s.
Proof.
  unfold Statement.mergeOpeningBalance.
  destruct i, y, w, q; try discriminate.
  destruct (_ && _); [|discriminate].
  intros [= <-]. simpl. auto 10.
Qed.

(** The rows of the other items are left as they were. *)
Lemma mergeOpeningBalance_other (s s' : Store) (ty ty' : ItemType)
    (i i' y w q : Z) :
  Statement.mergeOpeningBalance s ty (Some i) (Some y) (Some w) (Some q) = Some s' ->
  (ty', i') <> (ty, i) ->
  filter (Statement.onOpeningBalance ty' i') (openingBalances s')
  = filter (Statement.onOpeningBalance ty' i') (openingBalances s).
Proof.
  intros Mg N.
  destruct (mergeOpeningBalance_inv _ _ _ _ _ _ _ Mg)
    as (i0 & y0 & w0 & q0 & [= <-] & [= <-] & [= <-] & [= <-] & _ & E).
  rewrite E. destruct (existsb _ _).
  - apply filter_map_fixed; intros r;
      destruct (Statement.onOpeningBalance ty i r) eqn:O; try reflexivity.
    intros O'. apply onOpeningBalance_spec in O, O'. congruence.
  - rewrite filter_app. cbn [filter].
    assert (Statement.onOpeningBalance ty' i' (OpeningBalances.mk ty i y w q)
            = false) as ->.
    { apply not_true_is_false. intros O. apply onOpeningBalance_spec in O.
      unfold openingKey in O. simpl in O. congruence. }
    now rewrite app_nil_r.
Qed.


(** GET /api/opening-balance/:type/:id when the database cannot be reached. *)
Lemma getOpeningBalance_unreachable (type id : string) (n : Z) (c : Conn) :
  reachable c = false ->
  readsAs (Some id) n ->
  getOpeningBalance type id c = (fail 500 "Failed to fetch opening balance", c).
Proof.
  intros R Hid. unfold getOpeningBalance.
  rewrite (readsAs_truthy _ _ Hid). cbn [negb].
  unfold handle, bind, getPool. now rewrite R.
Qed.

Section OpeningBalanceRoundTrip.

Variable convert : SqlType -> JsVal -> option Z.

(** PUT /api/opening-balance in closed form. *)
Lemma putOpeningBalance_closed (b : OpeningBalanceBody) (c : Conn) :
  putOpeningBalance convert b c =
    match asItemType (itemType b) with
    | None => (fail 400 "itemType must be P or M", c)
    | Some ty =>
        if negb (truthy (itemId b)) || negb (truthy (startYear b))
           || negb (truthy (startWeek b)) || isUndefined (balanceQty b)
        then (fail 400 "Missing fields", c)
        else if reachable c then
          match bound convert Int (itemId b), bound convert SmallInt (startYear b),
                bound convert TinyInt (startWeek b),
                bound convert Decimal18_3 (balanceQty b) with
          | Some i, Some y, Some w, Some q =>
              match Statement.mergeOpeningBalance (store c) ty i y w q with
              | Some s' => (json Ok, mkConn s' true (S (executed c)) (transaction c))
              | None => (fail 500 "Failed to upsert opening balance", afterOne c)
              end
          | _, _, _, _ => (fail 500 "Failed to upsert opening balance", c)
          end
        else (fail 500 "Failed to upsert opening balance", c)
    end.
Proof.
  destruct (asItemType (itemType b)) as [ty|] eqn:T.
  2:{ unfold putOpeningBalance. now rewrite T. }
  destruct (truthy (itemId b)) eqn:Hi.
  2:{ unfold putOpeningBalance. now rewrite T, Hi. }
  destruct (truthy (startYear b)) eqn:Hy.
  2:{ unfold putOpeningBalance. now rewrite T, Hi, Hy. }
  destruct (truthy (startWeek b)) eqn:Hw.
  2:{ unfold putOpeningBalance. now rewrite T, Hi, Hy, Hw. }
  destruct (isUndefined (balanceQty b)) eqn:Hq.
  { unfold putOpeningBalance. now rewrite T, Hi, Hy, Hw, Hq. }
  cbn [negb orb].
  destruct (reachable c) eqn:R.
  - rewrite (putOpeningBalance_runs convert b ty c T Hi Hy Hw Hq R).
    now rewrite R.
  - unfold putOpeningBalance. rewrite T, Hi, Hy, Hw, Hq. cbn [negb orb].
    unfold handle, bind, getPool. now rewrite R.
Qed.

Lemma putOpeningBalance_reachable (b : OpeningBalanceBody) (c : Conn) :
  reachable (snd (putOpeningBalance convert b c)) = reachable c.
Proof.
  rewrite putOpeningBalance_closed.
  destruct (asItemType (itemType b)); [|reflexivity].
  destruct (_ || _); [reflexivity|].
  destruct (reachable c) eqn:R; [|exact R].
  destruct (bound convert Int (itemId b)); [|exact R].
  destruct (bound convert SmallInt (startYear b)); [|exact R].
  destruct (bound convert TinyInt (startWeek b)); [|exact R].
  destruct (bound convert Decimal18_3 (balanceQty b)); [|exact R].
  destruct (Statement.mergeOpeningBalance _ _ _ _ _ _); [reflexivity|exact R].
Qed.

Lemma putOpeningBalance_ok_reachable (b : OpeningBalanceBody) (c : Conn) :
  fst (putOpeningBalance convert b c) = json Ok -> reachable c = true.
Proof.
  rewrite putOpeningBalance_closed.
  destruct (asItemType (itemType b)); [|discriminate].
  destruct (_ || _); [discriminate|].
  destruct (reachable c); [reflexivity|discriminate].
Qed.

(** X6.  After a PUT /api/opening-balance that answers { ok: true } on a
    table that honours UNIQUE(ItemType, ItemId), GET
    /api/opening-balance/:type/:id for the item the call named answers the
    year, week and quantity the call sent. *)
Theorem opening_balance_put_then_get
    (b : OpeningBalanceBody) (c : Conn) (type id : string) (i : Z) :
  uniqueOpening (store c) ->
  fst (putOpeningBalance convert b c) = json Ok ->
  asItemType (itemType b) = Some (itemTypeOf type) ->
  bound convert Int (itemId b) = Some (Some i) ->
  readsAs (Some id) i ->
  exists y w q,
    bound convert SmallInt (startYear b) = Some (Some y)
    /\ bound convert TinyInt (startWeek b) = Some (Some w)
    /\ bound convert Decimal18_3 (balanceQty b) = Some (Some q)
    /\ fst (getOpeningBalance type id (snd (putOpeningBalance convert b c)))
       = json (Opening y w q).
Proof.
  intros U OK T Bi Hid.
  pose proof (putOpeningBalance_ok_reachable b c OK) as R.
  pose proof (putOpeningBalance_reachable b c) as R'. rewrite R in R'.
  destruct (putOpeningBalance_cases convert b c)
    as [[N _] | (ty & i0 & y & w & q & T' & Bi' & By & Bw & Bq & Mg & _)];
    [contradiction|].
  rewrite T in T'. injection T' as <-.
  rewrite Bi in Bi'. injection Bi' as <-.
  destruct (mergeOpeningBalance_inv _ _ _ _ _ _ _ Mg)
    as (i' & y' & w' & q' & [= <-] & -> & -> & -> & _ & _).
  exists y', w', q'. repeat split; auto.
  rewrite (getOpeningBalance_runs type id i _ R' Hid). cbn [fst].
  fold (itemTypeOf type).
  now rewrite (mergeOpeningBalance_stored _ _ _ _ _ _ _ U Mg).
Qed.

(** X7.  PUT /api/opening-balance writes to no table but OpeningBalances,
    and what GET /api/opening-balance/:type/:id answers for any item other
    than the one the call names is what it answered before. *)
Theorem opening_balance_put_frame
    (b : OpeningBalanceBody) (c : Conn) (type id : string) (n : Z) :
  readsAs (Some id) n ->
  asItemType (itemType b) <> Some (itemTypeOf type)
  \/ bound convert Int (itemId b) <> Some (Some n) ->
  fst (getOpeningBalance type id (snd (putOpeningBalance convert b c)))
  = fst (getOpeningBalance type id c)
  /\ products (store (snd (putOpeningBalance convert b c))) = products (store c)
  /\ salesPlans (store (snd (putOpeningBalance convert b c)))
     = salesPlans (store c)
  /\ productionOrders (store (snd (putOpeningBalance convert b c)))
     = productionOrders (store c)
  /\ purchaseOrders (store (snd (putOpeningBalance convert b c)))
     = purchaseOrders (store c)
  /\ purchaseOrderLines (store (snd (putOpeningBalance convert b c)))
     = purchaseOrderLines (store c).
Proof.
  intros Hid N.
  pose proof (putOpeningBalance_reachable b c) as R'.
  destruct (putOpeningBalance_cases convert b c)
    as [[_ S] | (ty & i & y & w & q & T & Bi & By & Bw & Bq & Mg & _)].
  - rewrite !S. split; [|auto].
    destruct (reachable c) eqn:R.
    + rewrite !(getOpeningBalance_runs type id n _) by assumption.
      cbn [fst]. now rewrite S.
    + now rewrite !(getOpeningBalance_unreachable type id n _) by assumption.
  - destruct (mergeOpeningBalance_frame _ _ _ _ _ _ _ Mg)
      as (_ & F1 & F2 & F3 & F4 & F5).
    split; [|auto].
    destruct (reachable c) eqn:R.
    + rewrite !(getOpeningBalance_runs type id n _) by assumption.
      cbn [fst]. fold (itemTypeOf type).
      destruct (mergeOpeningBalance_inv _ _ _ _ _ _ _ Mg)
        as (i' & y' & w' & q' & -> & -> & -> & -> & _ & _).
      rewrite (mergeOpeningBalance_other _ _ _ (itemTypeOf type) _ n _ _ _ Mg);
        [reflexivity|].
      intros [= E1 E2]. destruct N as [N|N]; apply N; congruence.
    + now rewrite !(getOpeningBalance_unreachable type id n _) by assumption.
Qed.


End OpeningBalanceRoundTrip.

Lemma opening_balance_put_then_get_witness :
  exists y w q,
    bound noConversion SmallInt (JNum 2025) = Some (Some y)
    /\ bound noConversion TinyInt (JNum 40) = Some (Some w)
    /\ bound noConversion Decimal18_3 (JNum 7000) = Some (Some q)
    /\ fst (getOpeningBalance "product" "1"
              (snd (putOpeningBalance noConversion (openingCall 1 2025 40 7000)
                      (idle (seed CaseInsensitive)))))
       = json (Opening y w q).
Proof.
  apply (opening_balance_put_then_get noConversion (openingCall 1 2025 40 7000)
           (idle (seed CaseInsensitive)) "product" "1" 1);
    solve [reflexivity | reads | apply seed_unique].
Defined.

Lemma opening_balance_put_frame_witness :
  fst (getOpeningBalance "material" "1"
         (snd (putOpeningBalance noConversion (openingCall 1 2025 40 7000)
                 (idle (seed CaseInsensitive)))))
  = fst (getOpeningBalance "material" "1" (idle (seed CaseInsensitive))).
Proof.
  apply (opening_balance_put_frame noConversion (openingCall 1 2025 40 7000)
           (idle (seed CaseInsensitive)) "material" "1" 1).
  - reads.
  - left. discriminate.
Defined.

(** ** GET /api/purchase *)

(** Where the letter case of the stored statuses cannot matter, the status
    tests of the two servers agree. *)
Lemma confirmed_agree (c : Collation) (status : string) :
  c = CaseInsensitive \/ toUpperCase status = status ->
  Statement.confirmed V1 c status = Statement.confirmed V2 c status.
Proof.
  intros [-> | E].
  - now rewrite confirmed_V2.
  - unfold Statement.confirmed. now rewrite E.
Qed.

Lemma In_joinPurchase (s : Store) (pol : PurchaseOrderLines.row)
    (po : PurchaseOrders.row) :
  In (pol, po) (Statement.joinPurchase s) ->
  In pol (purchaseOrderLines s) /\ In po (purchaseOrders s)
  /\ PurchaseOrders.PurchaseOrderId po = PurchaseOrderLines.PurchaseOrderId pol.
Proof.
  unfold Statement.joinPurchase. rewrite in_flat_map.
  intros (l & Hl & H). apply in_map_iff in H as (o & [= -> ->] & Ho).
  apply filter_In in Ho as [Ho E]. apply Z.eqb_eq in E. auto.
Qed.

Lemma selectPurchase_agree (s : Store) (m fy fw ty tw : option Z) :
  collation s = CaseInsensitive \/ upperCaseStatuses s ->
  Statement.selectPurchase V1 s m fy fw ty tw
  = Statement.selectPurchase V2 s m fy fw ty tw.
Proof.
  intros H. unfold Statement.selectPurchase. do 3 f_equal.
  apply filter_ext_in. intros [pol po] Hin.
  apply In_joinPurchase in Hin as (_ & Hpo & _).
  unfold Statement.wherePurchase.
  rewrite (confirmed_agree (collation s) (PurchaseOrders.Status po));
    [reflexivity|].
  destruct H as [H|H]; [now left | right; now apply H].
Qed.

(** X9.  On a database whose collation ignores the letter case, or whose
    purchase statuses are all stored in upper case, the GET /api/purchase of
    the first server and that of the second one answer the same to every
    request, errors included. *)
Theorem purchase_servers_agree (q : Query) (c : Conn) :
  collation (store c) = CaseInsensitive \/ upperCaseStatuses (store c) ->
  getPurchase V1 q c = getPurchase V2 q c.
Proof.
  intros H. unfold getPurchase.
  match goal with
  | |- context [if ?b then _ else _] => destruct b
  end; [reflexivity|].
  unfold handle, bind, getPool, serverError, select, ret.
  destruct (reachable c); [|reflexivity].
  repeat match goal with
         | |- context [bindNumber ?ty ?v ?c] =>
             destruct (bindNumber_cases ty v c) as [-> | [? ->]];
             [reflexivity|]
         end.
  cbn [store]. now rewrite (selectPurchase_agree _ _ _ _ _ _ H).
Qed.

Lemma purchase_servers_agree_witness :
  getPurchase V1 (query2025 "47" "50") (idle (seed CaseSensitive))
  = getPurchase V2 (query2025 "47" "50") (idle (seed CaseSensitive)).
Proof.
  apply purchase_servers_agree. right.
  intros po Hpo. simpl in Hpo.
  destruct Hpo as [<-|[<-|[<-|[]]]]; reflexivity.
Defined.

(** With PurchaseOrderId a key, the orders a line joins are the one order
    it names, if it is stored. *)
Lemma filter_find_key {A} (f : A -> Z) (a : Z) (l : list A) :
  NoDup (map f l) ->
  filter (fun x => f x =? a) l
  = match find (fun x => f x =? a) l with Some x => [x] | None => [] end.
Proof.
  induction l as [|x l IH]; simpl; intros ND; [reflexivity|].
  apply NoDup_cons_iff in ND as [N ND].
  destruct (Z.eqb_spec (f x) a) as [E|E]; [|now apply IH].
  f_equal. apply filter_none. intros y Hy.
  apply Z.eqb_neq. intros E'. apply N. rewrite E, <- E'. now apply in_map.
Qed.

(** Under the primary key of PurchaseOrders the join pairs every line with
    at most one order: the joined rows that count are the lines that
    count, each once and in the order of the table. *)
Lemma confirmedLines_lines (s : Store) (k : Key) :
  uniqueOrders s ->
  map fst (confirmedLines s k) = linesOfConfirmedOrders s k.
Proof.
  intros U. unfold confirmedLines, linesOfConfirmedOrders, Statement.joinPurchase.
  induction (purchaseOrderLines s) as [|pol t IH]; [reflexivity|].
  cbn [flat_map]. rewrite filter_app, map_app, IH. cbn [filter].
  unfold orderOf at 2.
  rewrite (filter_find_key PurchaseOrders.PurchaseOrderId _ _ U).
  destruct (find _ (purchaseOrders s)) as [po|]; cbn [map filter].
  - unfold purchaseKey. cbn [fst snd]. fold (lineKey pol).
    destruct (key_eqb (lineKey pol) k && isConfirmStatus (PurchaseOrders.Status po));
      reflexivity.
  - now rewrite andb_false_r.
Qed.

(** X10.  Where PurchaseOrderId is a key of PurchaseOrders, the GET
    /api/purchase of the second server counts every line once: a row
    (i, y, w, n) is in the answer exactly when (y, w) lies in the inclusive
    range, i passes the material filter, some line of the key belongs to an
    order whose status is CONFIRM in some letter case, and n is the sum of
    the quantities of exactly those lines. *)
Theorem purchase_counts_each_line_once
    (q : Query) (c : Conn) (m : option Z) (fy fw ty tw : Z) :
  uniqueOrders (store c) ->
  reachable c = true ->
  filterReadsAs (q_materialId q) m ->
  readsAs (q_fromYear q) fy -> readsAs (q_fromWeek q) fw ->
  readsAs (q_toYear q) ty -> readsAs (q_toWeek q) tw ->
  exists rows,
    fst (getPurchase V2 q c) = json (QtyRows rows)
    /\ (forall i y w n,
          In (mkQtyRow i y w n) rows
          <-> (weekLeq fy fw y w /\ weekLeq y w ty tw
               /\ (forall m', m = Some m' -> i = m')
               /\ linesOfConfirmedOrders (store c) (i, y, w) <> []
               /\ n = Tsql.sum (map PurchaseOrderLines.Quantity
                                    (linesOfConfirmedOrders (store c) (i, y, w))))).
Proof.
  intros U R Hm Hfy Hfw Hty Htw.
  destruct (purchase_sums_confirmed V2 q c m fy fw ty tw (or_introl eq_refl)
              R Hm Hfy Hfw Hty Htw) as (rows & E & _ & H).
  exists rows. split; [now rewrite E|].
  intros i y w n. rewrite H.
  rewrite <- (confirmedLines_lines _ _ U), map_map.
  change (fun x => PurchaseOrderLines.Quantity (fst x)) with lineQuantity.
  assert (confirmedLines (store c) (i, y, w) <> []
          <-> map fst (confirmedLines (store c) (i, y, w)) <> []) as X.
  { destruct (confirmedLines (store c) (i, y, w)); simpl;
      split; intros N; try congruence; discriminate. }
  rewrite X. reflexivity.
Qed.

Lemma purchase_counts_each_line_once_witness :
  exists rows,
    fst (getPurchase V2 (query2025 "47" "50") (idle (seed CaseSensitive)))
    = json (QtyRows rows)
    /\ (forall i y w n,
          In (mkQtyRow i y w n) rows
          <-> (weekLeq 2025 47 y w /\ weekLeq y w 2025 50
               /\ (forall m', None = Some m' -> i = m')
               /\ linesOfConfirmedOrders (seed CaseSensitive) (i, y, w) <> []
               /\ n = Tsql.sum (map PurchaseOrderLines.Quantity
                                    (linesOfConfirmedOrders (seed CaseSensitive)
                                       (i, y, w))))).
Proof.
  apply (purchase_counts_each_line_once (query2025 "47" "50")
           (idle (seed CaseSensitive)) None 2025 47 2025 50);
    try solve [reflexivity | reads].
  unfold uniqueOrders. simpl.
  repeat constructor; simpl; intuition discriminate.
Defined.

(** ** The connection pool of [db.js] *)

Module DbFacts.

Import Db.

Lemma isSettled_spec (s : State) (p : nat) :
  isSettled s p = true <-> In p (map fst (settled s)).
Proof.
  unfold isSettled. rewrite existsb_exists, in_map_iff. split.
  - intros (e & He & E). apply Nat.eqb_eq in E. eauto.
  - intros (e & E & He). exists e. split; [exact He | now apply Nat.eqb_eq].
Qed.

Lemma Inv_initial : Inv initial.
Proof.
  repeat split; simpl; [constructor | contradiction | lia].
Qed.

Lemma Inv_getPool (s : State) : Inv s -> Inv (snd (getPool s)).
Proof.
  intros (ND & B & H). unfold getPool.
  destruct (poolPromise s) as [p|] eqn:P; simpl.
  - unfold Inv. now rewrite P.
  - unfold Inv. cbn [poolPromise connects settled].
    split; [exact ND|]. split; [intros q o F; apply B in F; lia|].
    split; [reflexivity|]. split; [|exact H].
    intros F. apply B in F. lia.
Qed.

Lemma Inv_settle (p : nat) (o : Settlement) (s : State) :
  Inv s -> Inv (settle p o s).
Proof.
  intros (ND & B & H). unfold settle.
  destruct (Nat.ltb_spec p (connects s)) as [L|L]; [|now repeat split].
  destruct (isSettled s p) eqn:St; [now repeat split|]. cbn [andb negb].
  assert (N : ~ In p (map fst (settled s))).
  { intros X. apply isSettled_spec in X. congruence. }
  assert (N' : forall o', ~ In (p, o') (settled s)).
  { intros o' X. apply N. apply in_map_iff. now exists (p, o'). }
  destruct (poolPromise s) as [p0|] eqn:P.
  - destruct H as (C & NR & Hq).
    assert (p = p0) as ->.
    { destruct (Nat.lt_ge_cases p p0) as [Lt|Ge]; [|lia].
      exfalso. exact (N' _ (Hq p Lt)). }
    destruct o as [pool|]; unfold Inv; cbn [poolPromise connects settled map fst].
    + repeat split.
      * now constructor.
      * intros q o' [[= <- <-]|X]; [exact L | now apply B in X].
      * exact C.
      * intros [X|X]; [discriminate | exact (NR X)].
      * intros q Lq. right. now apply Hq.
    + repeat split.
      * now constructor.
      * intros q o' [[= <- <-]|X]; [exact L | now apply B in X].
      * intros q Lq. destruct (Nat.eq_dec q p0) as [->|Ne]; [now left|].
        right. apply Hq. lia.
  - exfalso. exact (N' _ (H p L)).
Qed.

Lemma Inv_run (es : list Event) : Inv (run es).
Proof.
  unfold run. generalize Inv_initial. generalize initial.
  induction es as [|e es IH]; intros s I; simpl; [exact I|].
  apply IH. destruct e; [now apply Inv_getPool | now apply Inv_settle].
Qed.

(** The promise that handed a pool over is the one [poolPromise] holds. *)
Lemma Inv_fulfilled (s : State) (p pool : nat) :
  Inv s -> In (p, Fulfilled pool) (settled s) -> poolPromise s = Some p.
Proof.
  intros (ND & B & H) F.
  assert (X : forall q o1 o2, In (q, o1) (settled s) -> In (q, o2) (settled s)
                              -> o1 = o2).
  { clear - ND. induction (settled s) as [|[a o] l IH]; simpl in *;
      [contradiction|].
    apply NoDup_cons_iff in ND as [N ND].
    intros q o1 o2 [E1|H1] [E2|H2].
    - congruence.
    - injection E1 as <- <-. exfalso. apply N, in_map_iff. now exists (a, o2).
    - injection E2 as <- <-. exfalso. apply N, in_map_iff. now exists (a, o1).
    - eauto. }
  pose proof (B _ _ F) as L.
  destruct (poolPromise s) as [p0|].
  - destruct H as (C & _ & Hq). f_equal.
    destruct (Nat.lt_ge_cases p p0) as [Lt|Ge]; [|lia].
    pose proof (X _ _ _ F (Hq p Lt)). discriminate.
  - pose proof (X _ _ _ F (H p L)). discriminate.
Qed.





Lemma established_spec (s : State) :
  established s = true <-> exists p pool, In (p, Fulfilled pool) (settled s).
Proof.
  unfold established. rewrite existsb_exists. split.
  - intros ([p [pool|]] & Hin & E); [eauto | discriminate].
  - intros (p & pool & Hin). now exists (p, Fulfilled pool).
Qed.

Lemma pending_prefix (s : State) (n : nat) :
  (forall q, (q < n)%nat -> In (q, Rejected) (settled s)) ->
  filter (fun p => negb (isSettled s p)) (seq 0 n) = [].
Proof.
  intros H. apply filter_none. intros q Hq. apply in_seq in Hq.
  apply negb_false_iff, isSettled_spec, in_map_iff.
  exists (q, Rejected). split; [reflexivity | apply H; lia].
Qed.

(** X12.  However calls of [getPool()] and the ends of connection attempts
    interleave, at most one attempt is in flight, and a call starts a new
    attempt exactly when none is in flight and none has handed a pool over:
    a failed attempt is retried by the next call, an established or pending
    one never. *)
Theorem pool_connects_when_needed (es : list Event) :
  (List.length (pending (run es)) <= 1)%nat
  /\ (connects (snd (getPool (run es))) = S (connects (run es))
      <-> pending (run es) = [] /\ established (run es) = false)
  /\ (connects (snd (getPool (run es))) = connects (run es)
      \/ connects (snd (getPool (run es))) = S (connects (run es))).
Proof.
  pose proof (Inv_run es) as I. revert I. generalize (run es). intros s I.
  pose proof I as (ND & B & H).
  unfold pending, getPool.
  destruct (poolPromise s) as [p|] eqn:P.
  - destruct H as (C & NR & Hq). cbn [snd]. rewrite !C.
    rewrite seq_S, filter_app, (pending_prefix s p Hq). cbn [filter app plus].
    split; [destruct (negb (isSettled s p)); simpl; lia|].
    split; [|left; reflexivity].
    split; [lia|]. intros [E1 E2]. exfalso.
    destruct (isSettled s p) eqn:St; [|discriminate].
    apply isSettled_spec, in_map_iff in St as ([q o] & E & Hin).
    simpl in E. subst q. destruct o as [pool|]; [|exact (NR Hin)].
    assert (established s = true) by (apply established_spec; eauto).
    congruence.
  - rewrite (pending_prefix s (connects s) H).
    split; [simpl; lia|]. split; [|right; reflexivity].
    cbn [snd connects]. split; [|reflexivity]. intros _. split; [reflexivity|].
    apply not_true_is_false. intros E.
    apply established_spec in E as (q & pool & F).
    pose proof (Inv_fulfilled s q pool I F). congruence.
Qed.

End DbFacts.

(** ** The production orders of the second server *)

Lemma sum_app (a b : list Z) : Tsql.sum (a ++ b) = Tsql.sum a + Tsql.sum b.
Proof.
  unfold Tsql.sum. induction a as [|x a IH]; simpl; [reflexivity|].
  rewrite IH. lia.
Qed.

(** A parameter value does not depend on the connection it is bound on. *)
Lemma bindNumber_value (ty : SqlType) (v : JsVal) :
  (exists x, forall c, bindNumber ty v c = (Returned x, c))
  \/ (forall c, bindNumber ty v c = (Thrown, c)).
Proof.
  unfold bindNumber, ret, throw.
  destruct v; eauto. destruct (inRange ty n); eauto.
Qed.

(** GET /api/production answers by the rows its statement selects. *)
Lemma getProduction_depends (q : Query) (c1 c2 : Conn) :
  reachable c1 = reachable c2 ->
  (forall p fy fw ty tw,
     Statement.selectProduction (store c1) p fy fw ty tw
     = Statement.selectProduction (store c2) p fy fw ty tw) ->
  fst (getProduction q c1) = fst (getProduction q c2).
Proof.
  intros R S. unfold getProduction.
  match goal with
  | |- context [if ?b then _ else _] => destruct b
  end; [reflexivity|].
  unfold handle, bind, getPool, serverError, select, ret. rewrite R.
  destruct (reachable c2); [|reflexivity].
  repeat match goal with
         | |- context [bindNumber ?ty ?v c1] =>
             destruct (bindNumber_value ty v) as [[? E] | E];
             rewrite !E; [|reflexivity]; clear E
         end.
  cbn [fst store]. now rewrite S.
Qed.

(** An order whose status does not count is invisible to the production
    query. *)
Lemma whereProduction_status (c : Collation) (p fy fw ty tw : option Z)
    (r : ProductionOrders.row) :
  activeOrComplete (ProductionOrders.Status r) = false ->
  Statement.whereProduction c p fy fw ty tw r = false.
Proof.
  intros A. unfold Statement.whereProduction.
  rewrite strIn_activeOrComplete, A. reflexivity.
Qed.

Lemma bound_null_nullish (convert : SqlType -> JsVal -> option Z)
    (ty : SqlType) (v : JsVal) :
  bound convert ty v = Some None -> notNullish v = false.
Proof.
  destruct v as [| |b|n| |s| |]; cbn [bound]; try reflexivity; try discriminate;
    try (destruct (convert ty _); [|discriminate]);
    destruct (inRange ty _); discriminate.
Qed.

Lemma isOrderStatus_spec (s : string) :
  isOrderStatus s = true
  <-> s = "INITIAL"%string \/ s = "ACTIVE"%string \/ s = "COMPLETE"%string.
Proof.
  unfold isOrderStatus. cbn [existsb].
  rewrite !orb_true_iff, !String.eqb_eq. intuition discriminate.
Qed.

Section OrderFacts.

Variable convert : SqlType -> JsVal -> option Z.

(** The four parameters of the INSERT as the statement receives them. *)
Lemma post_params {A} (F : option Z -> option Z -> option Z -> option Z -> A)
    (vp vq vy vw : JsVal) (k : Conn) :
  fst ((getPool ;;;
        p <- bindParam convert Int vp ;;
        q <- bindParam convert Decimal18_3 vq ;;
        y <- bindParam convert Int vy ;;
        w <- bindParam convert Int vw ;;
        ret (F p q y w)) k)
  = if reachable k then
      match bound convert Int vp, bound convert Decimal18_3 vq,
            bound convert Int vy, bound convert Int vw with
      | Some p, Some q, Some y, Some w => Returned (F p q y w)
      | _, _, _, _ => Thrown
      end
    else Thrown.
Proof.
  unfold bind, getPool. destruct (reachable k); [|reflexivity].
  rewrite bindParam_bound. destruct (bound convert Int vp); [|reflexivity].
  rewrite bindParam_bound. destruct (bound convert Decimal18_3 vq); [|reflexivity].
  rewrite bindParam_bound. destruct (bound convert Int vy); [|reflexivity].
  rewrite bindParam_bound. destruct (bound convert Int vw); reflexivity.
Qed.

(** What POST /api/production-orders does when it answers 201. *)
Lemma postProductionOrder_created (fresh id : Z) (b : OrderBody) (c : OrderConn) :
  fst (postProductionOrder convert fresh b c) = Some (Created id) ->
  exists p q y w st,
    id = fresh /\ up c = true
    /\ bound convert Int (o_productId b) = Some (Some p)
    /\ bound convert Decimal18_3 (o_quantity b) = Some (Some q)
    /\ bound convert Int (o_planYear b) = Some (Some y)
    /\ bound convert Int (o_planWeek b) = Some (Some w)
    /\ normStatusOfPost (o_status b) = Some st
    /\ isOrderStatus st = true
    /\ OrderStatement.admissible (odb c) (ProductionOrders.mk p q y w st) = true
    /\ snd (postProductionOrder convert fresh b c)
       = mkOrderConn
           (mkOrderDb (others (odb c))
              (orders (odb c)
               ++ [Orders.mk fresh (ProductionOrders.mk p q y w st)]))
           true.
Proof.
  unfold postProductionOrder.
  destruct (_ || _); [discriminate|].
  destruct (normStatusOfPost (o_status b)) as [st|]; [|discriminate].
  destruct (isOrderStatus st) eqn:St; [|discriminate]. cbn [negb].
  rewrite post_params. cbn [connOf reachable].
  destruct (up c) eqn:U; [|discriminate].
  destruct (bound convert Int (o_productId b)) as [p|]; [|discriminate].
  destruct (bound convert Decimal18_3 (o_quantity b)) as [q|]; [|discriminate].
  destruct (bound convert Int (o_planYear b)) as [y|]; [|discriminate].
  destruct (bound convert Int (o_planWeek b)) as [w|]; [|discriminate].
  unfold OrderStatement.insertOrder.
  destruct p as [p|], q as [q|], y as [y|], w as [w|]; try discriminate.
  destruct (OrderStatement.admissible _ _) eqn:Ad; [|discriminate].
  cbn [fst snd]. intros [= <-].
  exists p, q, y, w, st. repeat split; auto.
Qed.

(** Unless it answers 201, POST /api/production-orders changes nothing. *)
Lemma postProductionOrder_refused (fresh : Z) (b : OrderBody) (c : OrderConn) :
  (exists id, fst (postProductionOrder convert fresh b c) = Some (Created id))
  \/ snd (postProductionOrder convert fresh b c) = c.
Proof.
  unfold postProductionOrder.
  destruct (_ || _); [now right|].
  destruct (normStatusOfPost (o_status b)) as [st|]; [|now right].
  destruct (negb (isOrderStatus st)); [now right|].
  match goal with
  | |- context [fst (bind ?m ?k ?x)] => destruct (fst (bind m k x)) as [[d'|]|]
  end; [left; eexists; reflexivity | now right | now right].
Qed.

(** X13.  When POST /api/production-orders answers 201, the order is
    stored under the id the database handed out with the five values sent,
    its status in upper case (INITIAL when none was sent), and the
    production of a week, as GET /api/production sums it, grows by the
    quantity of the order exactly when the week is the order's and the
    status is ACTIVE or COMPLETE. *)
Theorem created_order_counts (fresh id : Z) (b : OrderBody) (c : OrderConn) :
  fst (postProductionOrder convert fresh b c) = Some (Created id) ->
  exists r,
    orders (odb (snd (postProductionOrder convert fresh b c)))
    = orders (odb c) ++ [Orders.mk id r]
    /\ id = fresh
    /\ bound convert Int (o_productId b) = Some (Some (ProductionOrders.ProductId r))
    /\ bound convert Decimal18_3 (o_quantity b)
       = Some (Some (ProductionOrders.Quantity r))
    /\ bound convert Int (o_planYear b) = Some (Some (ProductionOrders.PlanYear r))
    /\ bound convert Int (o_planWeek b) = Some (Some (ProductionOrders.PlanWeek r))
    /\ normStatusOfPost (o_status b) = Some (ProductionOrders.Status r)
    /\ isOrderStatus (ProductionOrders.Status r) = true
    /\ (forall k,
          Tsql.sum (map ProductionOrders.Quantity
                      (contributing
                         (storeOf (odb (snd (postProductionOrder convert fresh b c))))
                         k))
          = Tsql.sum (map ProductionOrders.Quantity
                        (contributing (storeOf (odb c)) k))
            + (if key_eqb (productionKey r) k
                  && activeOrComplete (ProductionOrders.Status r)
               then ProductionOrders.Quantity r else 0)).
Proof.
  intros H.
  destruct (postProductionOrder_created fresh id b c H)
    as (p & q & y & w & st & -> & U & Bp & Bq & By & Bw & N & St & Ad & E).
  rewrite E. cbn [odb orders].
  exists (ProductionOrders.mk p q y w st).
  cbn [ProductionOrders.ProductId ProductionOrders.Quantity ProductionOrders.PlanYear
       ProductionOrders.PlanWeek ProductionOrders.Status].
  repeat split; auto.
  intros k. unfold contributing, storeOf. cbn [productionOrders orders others].
  rewrite map_app, filter_app, map_app, sum_app. f_equal.
  cbn [map filter ProductionOrders.Status Orders.fields].
  destruct (key_eqb _ k && activeOrComplete st); simpl; lia.
Qed.

(** X14.  An order created without a status, or with INITIAL in any letter
    case, changes no answer of GET /api/production. *)
Theorem initial_order_not_counted
    (fresh : Z) (b : OrderBody) (c : OrderConn) (q : Query) :
  truthy (o_status b) = false
  \/ (exists s, o_status b = JStr s /\ toUpperCase s = "INITIAL"%string) ->
  fst (getProduction q (connOf (snd (postProductionOrder convert fresh b c))))
  = fst (getProduction q (connOf c)).
Proof.
  intros S.
  destruct (postProductionOrder_refused fresh b c) as [[id H] | ->];
    [|reflexivity].
  destruct (postProductionOrder_created fresh id b c H)
    as (p & qy & y & w & st & _ & U & _ & _ & _ & _ & N & _ & _ & E).
  assert (st = "INITIAL"%string) as ->.
  { unfold normStatusOfPost, Js.or in N. destruct S as [F | (s & Es & Up)].
    - rewrite F in N. now injection N as <-.
    - rewrite Es in N.
      destruct (truthy (JStr s)); cbn [upperOf] in N; injection N as <-;
        [exact Up | reflexivity]. }
  rewrite E. apply getProduction_depends; [exact (eq_sym U)|].
  intros pf fy fw ty tw. unfold Statement.selectProduction.
  cbn [connOf store storeOf odb orders others productionOrders collation].
  rewrite map_app, filter_app. cbn [map filter].
  rewrite whereProduction_status by reflexivity.
  now rewrite app_nil_r.
Qed.

End OrderFacts.

Lemma created_order_counts_witness :
  exists r,
    orders (odb (snd (postProductionOrder noConversion 5
                        (mkOrderBody (JNum 1) (JNum 2000) (JNum 2025) (JNum 49)
                                     (JStr "active"))
                        (mkOrderConn (seedOrders CaseSensitive) true))))
    = orders (seedOrders CaseSensitive) ++ [Orders.mk 5 r]
    /\ ProductionOrders.Status r = "ACTIVE"%string
    /\ Tsql.sum (map ProductionOrders.Quantity
                   (contributing
                      (storeOf (odb (snd (postProductionOrder noConversion 5
                                            (mkOrderBody (JNum 1) (JNum 2000) (JNum 2025)
                                                         (JNum 49) (JStr "active"))
                                            (mkOrderConn (seedOrders CaseSensitive) true)))))
                      (1, 2025, 49)))
       = 7000.
Proof.
  destruct (created_order_counts noConversion 5 5
              (mkOrderBody (JNum 1) (JNum 2000) (JNum 2025) (JNum 49) (JStr "active"))
              (mkOrderConn (seedOrders CaseSensitive) true) eq_refl)
    as (r & E & _ & _ & _ & _ & _ & N & _ & S).
  exists r. split; [exact E|]. split; [now injection N|].
  rewrite (S (1, 2025, 49)).
  injection N as <-. apply app_inj_tail in E as [_ E].
  injection E as <-. reflexivity.
Defined.

Lemma initial_order_not_counted_witness :
  fst (getProduction (query2025 "47" "50")
         (connOf (snd (postProductionOrder noConversion 5
                         (mkOrderBody (JNum 1) (JNum 2000) (JNum 2025) (JNum 49)
                                      JUndefined)
                         (mkOrderConn (seedOrders CaseSensitive) true)))))
  = fst (getProduction (query2025 "47" "50")
           (connOf (mkOrderConn (seedOrders CaseSensitive) true))).
Proof.
  apply (initial_order_not_counted noConversion). now left.
Defined.

Section OrderUpdates.

Variable convert : SqlType -> JsVal -> option Z.

Lemma inputIf_declared (test : bool) (ty : SqlType) (v : JsVal) (k : Conn) :
  inputIf convert test ty v k
  = match declared convert test ty v with
    | Some x => (Returned x, k)
    | None => (Thrown, k)
    end.
Proof.
  unfold inputIf, declared. destruct test; [|reflexivity].
  unfold bind. rewrite bindParam_bound.
  now destruct (bound convert ty v).
Qed.

(** The parameters of the UPDATE as the statement receives them. *)
Lemma put_params {A}
    (F : option Z -> option (option Z) -> option (option Z)
         -> option (option Z) -> option (option Z) -> A)
    (n : Z) (tp tq ty tw : bool) (vp vq vy vw : JsVal) (k : Conn) :
  fst ((getPool ;;;
        i <- bindNumber Int (JNum n) ;;
        p <- inputIf convert tp Int vp ;;
        q <- inputIf convert tq Decimal18_3 vq ;;
        y <- inputIf convert ty Int vy ;;
        w <- inputIf convert tw Int vw ;;
        ret (F i p q y w)) k)
  = if reachable k && inRange Int n then
      match declared convert tp Int vp, declared convert tq Decimal18_3 vq,
            declared convert ty Int vy, declared convert tw Int vw with
      | Some p, Some q, Some y, Some w => Returned (F (Some n) p q y w)
      | _, _, _, _ => Thrown
      end
    else Thrown.
Proof.
  unfold bind, getPool. destruct (reachable k); [|reflexivity].
  rewrite bindNumber_pure. cbn [andb].
  destruct (inRange Int n); [|reflexivity].
  rewrite inputIf_declared. destruct (declared convert tp Int vp); [|reflexivity].
  rewrite inputIf_declared.
  destruct (declared convert tq Decimal18_3 vq); [|reflexivity].
  rewrite inputIf_declared. destruct (declared convert ty Int vy); [|reflexivity].
  rewrite inputIf_declared. destruct (declared convert tw Int vw); reflexivity.
Qed.

Lemma declared_value (test : bool) (ty : SqlType) (v : JsVal) (x : option Z) :
  declared convert test ty v = Some (Some x) ->
  (test = true -> truthy v = true \/ notNullish v = true) ->
  test = true /\ exists n, x = Some n /\ bound convert ty v = Some (Some n).
Proof.
  unfold declared. destruct test; [|discriminate].
  destruct (bound convert ty v) as [[n|]|] eqn:B; try discriminate.
  - intros [= <-] _. eauto.
  - intros _ H. exfalso.
    pose proof (bound_null_inv convert ty v B).
    pose proof (bound_null_nullish convert ty v B).
    destruct (H eq_refl); congruence.
Qed.

Lemma truthy_number (v : option string) :
  truthy (parseIntSafe v) = true -> exists n, parseIntSafe v = JNum n /\ n <> 0.
Proof.
  destruct (parseIntSafe_shape v) as [-> | [-> | [n ->]]]; try discriminate.
  simpl. intros H. exists n. split; [reflexivity|].
  now apply negb_true_iff, Z.eqb_neq in H.
Qed.

(** Unless it answers { ok: true }, PUT /api/production-orders/:id changes
    nothing. *)
Lemma putProductionOrder_refused (id : string) (b : OrderBody) (c : OrderConn) :
  fst (putProductionOrder convert id b c) = Some Done
  \/ snd (putProductionOrder convert id b c) = c.
Proof.
  unfold putProductionOrder.
  destruct (negb (truthy (parseIntSafe (Some id)))); [now right|].
  destruct (normStatusOfPut (o_status b)) as [st|]; [|now right].
  destruct (_ && _); [now right|].
  match goal with
  | |- context [fst (bind ?m ?k ?x)] => destruct (fst (bind m k x)) as [[d'|]|]
  end; [now left | now right | now right].
Qed.

(** X15.  PUT /api/production-orders/:id answers { ok: true } only when the
    body carries all five fields (productId, planYear, planWeek and status
    truthy, quantity not null): a partial update is answered by an error
    and changes nothing.  When it answers { ok: true }, every order with
    that id carries exactly the five values sent, the status in upper case,
    and the other orders are as they were. *)
Theorem put_order_needs_every_field (id : string) (b : OrderBody) (c : OrderConn) :
  (fst (putProductionOrder convert id b c) = Some Done ->
   truthy (o_productId b) = true /\ notNullish (o_quantity b) = true
   /\ truthy (o_planYear b) = true /\ truthy (o_planWeek b) = true
   /\ exists n p q y w s,
        parseIntSafe (Some id) = JNum n
        /\ bound convert Int (o_productId b) = Some (Some p)
        /\ bound convert Decimal18_3 (o_quantity b) = Some (Some q)
        /\ bound convert Int (o_planYear b) = Some (Some y)
        /\ bound convert Int (o_planWeek b) = Some (Some w)
        /\ o_status b = JStr s /\ isOrderStatus (toUpperCase s) = true
        /\ orders (odb (snd (putProductionOrder convert id b c)))
           = map (fun r => if Orders.ProductionOrderId r =? n
                           then Orders.mk n (ProductionOrders.mk p q y w (toUpperCase s))
                           else r)
                 (orders (odb c)))
  /\ (fst (putProductionOrder convert id b c) <> Some Done ->
      snd (putProductionOrder convert id b c) = c).
Proof.
  split.
  2:{ intros N. destruct (putProductionOrder_refused id b c); [contradiction|auto]. }
  unfold putProductionOrder.
  destruct (truthy (parseIntSafe (Some id))) eqn:Tn; [|discriminate]. cbn [negb].
  destruct (truthy_number _ Tn) as (n & En & Nz). rewrite En.
  unfold normStatusOfPut.
  destruct (truthy (o_status b)) eqn:Ts.
  2:{ cbn [truthy andb]. rewrite put_params.
      destruct (_ && _); [|discriminate].
      destruct (declared convert _ Int (o_productId b)); [|discriminate].
      destruct (declared convert _ Decimal18_3 _); [|discriminate].
      destruct (declared convert _ Int (o_planYear b)); [|discriminate].
      destruct (declared convert _ Int (o_planWeek b)); [|discriminate].
      unfold OrderStatement.updateOrder.
      destruct o, o0, o1, o2; discriminate. }
  destruct (o_status b) as [| |bb|m| |s| |] eqn:Es; try discriminate.
  cbn [upperOf option_map].
  destruct (truthy (JStr (toUpperCase s)) && negb (isOrderStatus (toUpperCase s)))
    eqn:Chk; [discriminate|].
  rewrite put_params.
  destruct (reachable (connOf c) && inRange Int n); [|discriminate].
  destruct (declared convert _ Int (o_productId b)) as [p|] eqn:Dp; [|discriminate].
  destruct (declared convert _ Decimal18_3 _) as [q|] eqn:Dq; [|discriminate].
  destruct (declared convert _ Int (o_planYear b)) as [y|] eqn:Dy; [|discriminate].
  destruct (declared convert _ Int (o_planWeek b)) as [w|] eqn:Dw; [|discriminate].
  unfold OrderStatement.updateOrder.
  destruct p as [p|], q as [q|], y as [y|], w as [w|]; try discriminate.
  destruct (truthy (JStr (toUpperCase s))) eqn:Tu; [|discriminate].
  cbn [andb] in Chk. apply negb_false_iff in Chk.
  destruct (forallb _ _); [|discriminate].
  intros _. cbn [snd odb orders].
  destruct (declared_value _ _ _ _ Dp) as (Tp & p' & -> & Bp); [auto|].
  destruct (declared_value _ _ _ _ Dq) as (Tq & q' & -> & Bq); [auto|].
  destruct (declared_value _ _ _ _ Dy) as (Ty & y' & -> & By); [auto|].
  destruct (declared_value _ _ _ _ Dw) as (Tw & w' & -> & Bw); [auto|].
  repeat split; auto.
  exists n, p', q', y', w', s. repeat split; auto.
  apply map_ext. intros r. unfold eq3, cmp3, isTrue.
  destruct (Z.eqb_spec (Orders.ProductionOrderId r) n) as [->|]; reflexivity.
Qed.

(** DELETE /api/production-orders/:id once the id is read and the database
    reached. *)
Lemma deleteProductionOrder_runs (id : string) (n : Z) (c : OrderConn) :
  up c = true -> readsAs (Some id) n ->
  deleteProductionOrder id c
  = (Some Done,
     mkOrderConn
       (mkOrderDb (others (odb c))
          (filter (fun r => negb (Orders.ProductionOrderId r =? n))
                  (orders (odb c))))
       true).
Proof.
  intros U Hid. unfold deleteProductionOrder.
  rewrite (readsAs_truthy _ _ Hid). cbn [negb].
  unfold bind, getPool. cbn [connOf reachable]. rewrite U.
  rewrite (readsAs_bind _ _ _ Hid). unfold ret. cbn [fst].
  unfold OrderStatement.deleteOrder. do 3 f_equal.
  apply filter_ext. intros r. unfold eq3, cmp3, isTrue.
  now destruct (Orders.ProductionOrderId r =? n).
Qed.

End OrderUpdates.

Lemma filter_all {A} (f : A -> bool) (l : list A) :
  (forall x, In x l -> f x = true) -> filter f l = l.
Proof.
  induction l as [|a l IH]; simpl; intros H; [reflexivity|].
  rewrite (H a) by now left. f_equal. apply IH. intros; apply H; now right.
Qed.

(** X16.  With the id read and the database reached, DELETE
    /api/production-orders/:id answers { ok: true } whether or not an order
    has that id; afterwards the stored orders are those that had another
    id, so that deleting an unknown id changes nothing and deleting twice is
    deleting once. *)
Theorem delete_order_removes (id : string) (n : Z) (c : OrderConn) :
  up c = true -> readsAs (Some id) n ->
  fst (deleteProductionOrder id c) = Some Done
  /\ (forall r, In r (orders (odb (snd (deleteProductionOrder id c))))
                <-> In r (orders (odb c)) /\ Orders.ProductionOrderId r <> n)
  /\ others (odb (snd (deleteProductionOrder id c))) = others (odb c)
  /\ ((forall r, In r (orders (odb c)) -> Orders.ProductionOrderId r <> n) ->
      orders (odb (snd (deleteProductionOrder id c))) = orders (odb c))
  /\ deleteProductionOrder id (snd (deleteProductionOrder id c))
     = (Some Done, snd (deleteProductionOrder id c)).
Proof.
  intros U Hid.
  rewrite !(deleteProductionOrder_runs id n c U Hid). cbn [snd].
  rewrite deleteProductionOrder_runs with (n := n); [|reflexivity|exact Hid].
  cbn [fst odb orders others].
  split; [reflexivity|]. split; [|split; [reflexivity|split]].
  - intros r. rewrite filter_In, negb_true_iff, Z.eqb_neq. tauto.
  - intros H. apply filter_all. intros r Hr.
    apply negb_true_iff, Z.eqb_neq. now apply H.
  - do 3 f_equal. rewrite filter_filter. apply filter_ext. intros r.
    now destruct (negb _).
Qed.

Lemma delete_order_removes_witness :
  fst (deleteProductionOrder "9" (mkOrderConn (seedOrders CaseSensitive) true))
  = Some Done
  /\ orders (odb (snd (deleteProductionOrder "9"
                         (mkOrderConn (seedOrders CaseSensitive) true))))
     = orders (seedOrders CaseSensitive).
Proof.
  destruct (delete_order_removes "9" 9 (mkOrderConn (seedOrders CaseSensitive) true)
              eq_refl) as (H1 & _ & _ & H4 & _); [reads|].
  split; [exact H1|]. apply H4.
  intros r Hr. simpl in Hr.
  destruct Hr as [<-|[<-|[<-|[<-|[]]]]]; discriminate.
Defined.

(** X17.  An order that POST /api/production-orders created under an id no
    stored order had is removed again by DELETE /api/production-orders/:id
    with that id: the table is as it was before the two calls. *)
Theorem post_then_delete_order
    (convert : SqlType -> JsVal -> option Z)
    (fresh : Z) (id : string) (b : OrderBody) (c : OrderConn) :
  fst (postProductionOrder convert fresh b c) = Some (Created fresh) ->
  (forall r, In r (orders (odb c)) -> Orders.ProductionOrderId r <> fresh) ->
  readsAs (Some id) fresh ->
  snd (deleteProductionOrder id (snd (postProductionOrder convert fresh b c))) = c.
Proof.
  intros H F Hid.
  destruct (postProductionOrder_created convert fresh fresh b c H)
    as (p & q & y & w & st & _ & U & _ & _ & _ & _ & _ & _ & _ & E).
  rewrite E.
  rewrite deleteProductionOrder_runs with (n := fresh); [|reflexivity|exact Hid].
  cbn [snd odb orders others].
  rewrite filter_app. cbn [filter Orders.ProductionOrderId].
  rewrite Z.eqb_refl. cbn [negb]. rewrite app_nil_r.
  rewrite filter_all.
  - destruct c as [[o l] u]. simpl in *. now subst u.
  - intros r Hr. apply negb_true_iff, Z.eqb_neq. now apply F.
Qed.

Lemma post_then_delete_order_witness :
  snd (deleteProductionOrder "5"
         (snd (postProductionOrder noConversion 5
                 (mkOrderBody (JNum 1) (JNum 2000) (JNum 2025) (JNum 49) (JStr "active"))
                 (mkOrderConn (seedOrders CaseSensitive) true))))
  = mkOrderConn (seedOrders CaseSensitive) true.
Proof.
  apply (post_then_delete_order noConversion 5 "5").
  - reflexivity.
  - intros r Hr. simpl in Hr.
    destruct Hr as [<-|[<-|[<-|[<-|[]]]]]; discriminate.
  - reads.
Defined.

Lemma put_order_needs_every_field_witness :
  snd (putProductionOrder noConversion "1"
         (mkOrderBody JUndefined (JNum 7000) JUndefined JUndefined JUndefined)
         (mkOrderConn (seedOrders CaseSensitive) true))
  = mkOrderConn (seedOrders CaseSensitive) true.
Proof.
  apply (proj2 (put_order_needs_every_field noConversion "1"
                  (mkOrderBody JUndefined (JNum 7000) JUndefined JUndefined JUndefined)
                  (mkOrderConn (seedOrders CaseSensitive) true))).
  discriminate.
Defined.

(** ** The language service of [i18n.js] *)

Module I18nFacts.

Import I18n.

Section Page.

Variable fetchJson : string -> option JsVal.
Variable framed : bool.

Lemma tryLoad_keeps (lang : string) (s : State) :
  currentLang (snd (tryLoad fetchJson lang s)) = currentLang s
  /\ storage (snd (tryLoad fetchJson lang s)) = storage s.
Proof. unfold tryLoad. now destruct (fetchJson lang). Qed.

Lemma loadTranslations_keeps (lang : string) (s : State) :
  currentLang (snd (loadTranslations fetchJson lang s)) = currentLang s
  /\ storage (snd (loadTranslations fetchJson lang s)) = storage s.
Proof.
  unfold loadTranslations.
  destruct (tryLoad_keeps lang s) as [C1 S1].
  destruct (tryLoad fetchJson lang s) as [[doc|] s1]; simpl in *; [auto|].
  destruct (negb (String.eqb lang "vi")); [|auto].
  destruct (tryLoad_keeps "vi" s1) as [C2 S2].
  destruct (tryLoad fetchJson "vi" s1) as [[doc|] s2]; simpl in *;
    split; congruence.
Qed.

(** What [setLanguage] makes the current language, and stores. *)
Lemma setLanguage_current (lang : string) (s : State) :
  currentLang (setLanguage fetchJson framed lang s)
  = (if includes lang then lang else "vi"%string)
  /\ storage (setLanguage fetchJson framed lang s)
     = Some (if includes lang then lang else "vi"%string)
  /\ htmlLang (setLanguage fetchJson framed lang s)
     = (if includes lang then lang else "vi"%string).
Proof.
  unfold setLanguage. cbn [currentLang storage htmlLang].
  destruct (negb (truthy _)); [|auto].
  match goal with
  | |- context [loadTranslations fetchJson ?l ?x] =>
      destruct (loadTranslations_keeps l x) as [-> ->]
  end.
  auto.
Qed.

Lemma includes_spec (lang : string) :
  includes lang = true <-> In lang (map code getSupportedLanguages).
Proof.
  unfold includes. cbn [existsb map getSupportedLanguages code In].
  rewrite !orb_true_iff, !String.eqb_eq. intuition congruence.
Qed.

(** X18.  [setLanguage] keeps the language it is given exactly when
    [getSupportedLanguages] lists its code, and makes 'vi' current
    otherwise; the language it made current is the one a later page load
    starts with, whatever page [init] runs on, since it is read back from
    localStorage. *)
Theorem chosen_language_survives_reload (lang page : string) (s : State) :
  (getCurrentLanguage (setLanguage fetchJson framed lang s) = lang
   <-> In lang (map code getSupportedLanguages))
  /\ (~ In lang (map code getSupportedLanguages) ->
      getCurrentLanguage (setLanguage fetchJson framed lang s) = "vi"%string)
  /\ getCurrentLanguage
       (init fetchJson framed
          (fresh (storage (setLanguage fetchJson framed lang s)) page))
     = getCurrentLanguage (setLanguage fetchJson framed lang s).
Proof.
  unfold getCurrentLanguage.
  destruct (setLanguage_current lang s) as (C & S & _). rewrite C, S.
  rewrite <- includes_spec.
  destruct (includes lang) eqn:I.
  - split; [tauto|]. split; [congruence|].
    unfold init, fresh. cbn [storage].
    assert (String.eqb lang "" = false) as ->.
    { apply String.eqb_neq. intros ->. discriminate. }
    destruct (setLanguage_current lang
                (mkState "vi" [] (Some lang) page [] [] [] 0)) as (C' & _).
    now rewrite C', I.
  - split; [|split; [reflexivity|]].
    + split; [|discriminate]. intros <-. discriminate.
    + unfold init, fresh. cbn [storage String.eqb Ascii.eqb Bool.eqb].
      destruct (setLanguage_current "vi"
                  (mkState "vi" [] (Some "vi"%string) page [] [] [] 0)) as (C' & _).
      now rewrite C'.
Qed.

Lemma translationsOf_tryLoad_other (lang other : string) (s : State) :
  lang <> other ->
  translationsOf other (snd (tryLoad fetchJson lang s)) = translationsOf other s.
Proof.
  intros N. unfold tryLoad. destruct (fetchJson lang); [|reflexivity].
  unfold translationsOf. cbn [snd translations find fst].
  apply String.eqb_neq in N. now rewrite N.
Qed.

Lemma tryLoad_failed (lang : string) (s : State) :
  fetchJson lang = None ->
  tryLoad fetchJson lang s
  = (None, mkState (currentLang s) (translations s) (storage s) (htmlLang s)
                   (fetched s ++ [lang]) (dispatched s) (posted s) (updates s)).
Proof. unfold tryLoad. now intros ->. Qed.

(** X19.  When the file of a supported language other than 'vi' cannot be
    loaded, [setLanguage] still makes that language current: the file of
    'vi' is requested and kept under 'vi', but the document [t] reads, that
    of the current language, stays missing. *)
Theorem failed_load_leaves_language_without_texts (lang : string) (s : State) :
  includes lang = true -> lang <> "vi"%string ->
  fetchJson lang = None ->
  truthy (translationsOf lang s) = false ->
  getCurrentLanguage (setLanguage fetchJson framed lang s) = lang
  /\ active (setLanguage fetchJson framed lang s) = translationsOf lang s
  /\ fetched (setLanguage fetchJson framed lang s) = fetched s ++ [lang; "vi"%string]
  /\ (forall doc, fetchJson "vi" = Some doc ->
        translationsOf "vi" (setLanguage fetchJson framed lang s) = doc).
Proof.
  intros I N F T. unfold getCurrentLanguage, active.
  destruct (setLanguage_current lang s) as (C & _). rewrite C, I.
  split; [reflexivity|].
  unfold setLanguage. rewrite I.
  set (s1 := mkState lang (translations s) (Some lang) (htmlLang s)
                     (fetched s) (dispatched s) (posted s) (updates s)).
  assert (T1 : translationsOf lang s1 = translationsOf lang s) by reflexivity.
  rewrite T1, T. cbn [negb].
  unfold loadTranslations. rewrite (tryLoad_failed lang s1 F).
  apply String.eqb_neq in N. rewrite N. cbn [negb].
  set (s2 := mkState _ _ _ _ (fetched s1 ++ [lang]) _ _ _).
  unfold tryLoad.
  destruct (fetchJson "vi") as [doc|];
    cbn [snd translations fetched currentLang storage htmlLang dispatched
         posted updates];
    unfold translationsOf; cbn [translations find fst snd];
    subst s2 s1; cbn [translations fetched].
  - rewrite String.eqb_sym, N. cbn [String.eqb Ascii.eqb Bool.eqb].
    rewrite <- app_assoc. repeat split. now intros d [= <-].
  - rewrite <- app_assoc. repeat split. discriminate.
Qed.

End Page.

Lemma chosen_language_survives_reload_witness :
  getCurrentLanguage (setLanguage (fun _ => None) false "fr" (fresh None "en"))
  = "vi"%string.
Proof.
  apply (proj1 (proj2 (chosen_language_survives_reload (fun _ => None) false
                         "fr" "en" (fresh None "en")))).
  simpl. intuition discriminate.
Defined.

Lemma failed_load_leaves_language_without_texts_witness :
  getCurrentLanguage
    (setLanguage (fun l => if String.eqb l "vi" then Some JObj else None) false
       "en" (fresh None "vi")) = "en"%string
  /\ active (setLanguage (fun l => if String.eqb l "vi" then Some JObj else None)
               false "en" (fresh None "vi")) = JUndefined.
Proof.
  destruct (failed_load_leaves_language_without_texts
              (fun l => if String.eqb l "vi" then Some JObj else None) false
              "en" (fresh None "vi")) as (H1 & H2 & _);
    try reflexivity; [discriminate|].
  split; [exact H1 | exact H2].
Defined.

End I18nFacts.

(** ** Deleting items and purchase orders *)

Lemma eq3_Some (a n : Z) : isTrue (eq3 a (Some n)) = (a =? n).
Proof. unfold eq3, cmp3, isTrue. now destruct (a =? n). Qed.

Lemma readsAs_filter (v : option string) (n : Z) :
  readsAs v n -> filterReadsAs v (Some n).
Proof. intros (E & _ & R). now split. Qed.

(** DELETE /api/items/:type/:id for a product, once the id is read and the
    database reached. *)
Lemma deleteItem_product_runs (type id : string) (n : Z) (c : Conn) :
  reachable c = true -> readsAs (Some id) n ->
  toUpperCase type = "P"%string ->
  deleteItem type id c
  = (json Ok,
     mkConn
       (mkStore (collation (store c))
          (filter (fun r => negb (Products.ProductId r =? n)) (products (store c)))
          (filter (fun r => negb (Statement.onOpeningBalance P n r))
                  (openingBalances (store c)))
          (filter (fun r => negb (SalesPlans.ProductId r =? n))
                  (salesPlans (store c)))
          (filter (fun r => negb (ProductionOrders.ProductId r =? n))
                  (productionOrders (store c)))
          (purchaseOrders (store c)) (purchaseOrderLines (store c)))
       true (S (S (executed c))) (transaction c)).
Proof.
  intros R Hid T. unfold deleteItem. rewrite T.
  change (itemTypeNamed "P") with (Some P).
  rewrite (readsAs_truthy _ _ Hid). cbn [negb].
  unfold handle, bind, getPool. rewrite R.
  rewrite (readsAs_bind _ _ _ Hid).
  unfold execute, Cascade.deleteOpeningBalance, Cascade.deleteProduct, ret.
  cbn [store reachable executed transaction withOpeningBalances collation products
       openingBalances salesPlans productionOrders purchaseOrders
       purchaseOrderLines].
  rewrite R. f_equal. f_equal. f_equal.
  - apply filter_ext. intros r. now rewrite eq3_Some.
  - apply filter_ext. intros r. unfold Statement.onOpeningBalance.
    rewrite isTrue_and3, isTrue_Some, eq3_Some. reflexivity.
  - apply filter_ext. intros r. now rewrite eq3_Some.
  - apply filter_ext. intros r. now rewrite eq3_Some.
Qed.

Lemma filter_negb_self {A} (f : A -> bool) (l : list A) :
  filter f (filter (fun x => negb (f x)) l) = [].
Proof.
  apply filter_none. intros x Hx. apply filter_In in Hx as [_ Hx].
  now apply negb_true_iff in Hx.
Qed.

Lemma filter_comm {A} (f g : A -> bool) (l : list A) :
  filter f (filter g l) = filter g (filter f l).
Proof.
  rewrite !filter_filter. apply filter_ext. intros x. apply andb_comm.
Qed.

Lemma filter_negb_other {A} (f g : A -> bool) (l : list A) :
  (forall x, f x = true -> g x = false) ->
  filter f (filter (fun x => negb (g x)) l) = filter f l.
Proof.
  intros H. rewrite filter_filter. apply filter_ext. intros x.
  destruct (f x) eqn:F; [rewrite (H x F)|]; now rewrite ?andb_false_r.
Qed.

(** X20.  With the id read and the database reached, DELETE
    /api/items/:type/:id for a product answers { ok: true } and leaves
    nothing of the product behind: GET /api/opening-balance answers null for
    it, GET /api/production and GET /api/sales-plan restricted to it answer
    no rows, while the plans and orders of the other products, and the
    purchase tables, are as they were. *)
Theorem deleted_product_leaves_no_rows (type id : string) (n : Z) (c : Conn) :
  reachable c = true -> readsAs (Some id) n ->
  toUpperCase type = "P"%string ->
  fst (deleteItem type id c) = json Ok
  /\ fst (getOpeningBalance "product" id (snd (deleteItem type id c))) = json Null
  /\ (forall q fy fw ty tw,
        rowsOf Production q n fy fw ty tw ->
        fst (getProduction q (snd (deleteItem type id c))) = json (QtyRows []))
  /\ (forall q fy fw ty tw,
        rowsOf SalesPlan q n fy fw ty tw ->
        fst (getSalesPlan q (snd (deleteItem type id c))) = json (PlanRows []))
  /\ (forall p', p' <> n ->
        filter (fun r => SalesPlans.ProductId r =? p')
               (salesPlans (store (snd (deleteItem type id c))))
        = filter (fun r => SalesPlans.ProductId r =? p') (salesPlans (store c))
        /\ filter (fun r => ProductionOrders.ProductId r =? p')
                  (productionOrders (store (snd (deleteItem type id c))))
           = filter (fun r => ProductionOrders.ProductId r =? p')
                    (productionOrders (store c)))
  /\ purchaseOrders (store (snd (deleteItem type id c))) = purchaseOrders (store c)
  /\ purchaseOrderLines (store (snd (deleteItem type id c)))
     = purchaseOrderLines (store c).
Proof.
  intros R Hid T.
  rewrite (deleteItem_product_runs type id n c R Hid T). cbn [fst snd].
  split; [reflexivity|]. split; [|split; [|split; [|split; [|split]]]].
  - rewrite getOpeningBalance_runs with (n := n); [|reflexivity|exact Hid].
    cbn [fst store openingBalances String.eqb Ascii.eqb Bool.eqb].
    now rewrite filter_negb_self.
  - intros q fy fw ty tw (Hp & Hfy & Hfw & Hty & Htw). cbn [itemFilter] in Hp.
    rewrite getProduction_runs
      with (p := Some n) (fy := fy) (fw := fw) (ty := ty) (tw := tw);
      [|reflexivity|now apply readsAs_filter|assumption..].
    cbn [fst]. unfold Statement.selectProduction.
    cbn [store productionOrders collation].
    rewrite filter_none; [reflexivity|].
    intros r Hr. apply filter_In in Hr as [_ Hr].
    apply negb_true_iff in Hr.
    unfold Statement.whereProduction.
    rewrite !isTrue_and3, isTrue_or3, eq3_Some, Hr.
    unfold isNull, isTrue. now rewrite !andb_false_r.
  - intros q fy fw ty tw (Hp & Hfy & Hfw & Hty & Htw). cbn [itemFilter] in Hp.
    rewrite getSalesPlan_runs
      with (p := n) (fy := fy) (fw := fw) (ty := ty) (tw := tw);
      [|reflexivity|assumption..].
    cbn [fst]. unfold Statement.selectSalesPlan. cbn [store salesPlans].
    rewrite filter_none; [reflexivity|].
    intros r Hr. apply filter_In in Hr as [_ Hr].
    apply negb_true_iff in Hr.
    now rewrite !isTrue_and3, eq3_Some, Hr.
  - intros p' N. cbn [store salesPlans productionOrders].
    split; apply filter_negb_other; intros r E;
      apply Z.eqb_eq in E; apply Z.eqb_neq; congruence.
  - reflexivity.
  - reflexivity.
Qed.

Lemma deleted_product_leaves_no_rows_witness :
  fst (deleteItem "p" "1" (idle (seed CaseInsensitive))) = json Ok
  /\ fst (getOpeningBalance "product" "1"
            (snd (deleteItem "p" "1" (idle (seed CaseInsensitive))))) = json Null.
Proof.
  destruct (deleted_product_leaves_no_rows "p" "1" 1 (idle (seed CaseInsensitive)))
    as (H1 & H2 & _); try reflexivity; [reads|].
  split; [exact H1 | exact H2].
Defined.

(** DELETE /api/purchase-orders/:id once the id is read and the database
    reached. *)
Lemma deletePurchaseOrder_runs (id : string) (n : Z) (c : Conn) :
  reachable c = true -> readsAs (Some id) n ->
  deletePurchaseOrder id c
  = (json Ok,
     mkConn
       (mkStore (collation (store c)) (products (store c))
          (openingBalances (store c)) (salesPlans (store c))
          (productionOrders (store c))
          (filter (fun r => negb (PurchaseOrders.PurchaseOrderId r =? n))
                  (purchaseOrders (store c)))
          (filter (fun r => negb (PurchaseOrderLines.PurchaseOrderId r =? n))
                  (purchaseOrderLines (store c))))
       true (S (executed c)) (transaction c)).
Proof.
  intros R Hid. unfold deletePurchaseOrder.
  rewrite (readsAs_truthy _ _ Hid). cbn [negb].
  unfold handle, bind, getPool. rewrite R.
  rewrite (readsAs_bind _ _ _ Hid).
  unfold execute, Cascade.deletePurchaseOrder, ret.
  cbn [store reachable executed transaction].
  rewrite R. f_equal. f_equal. f_equal.
  - apply filter_ext. intros r. now rewrite eq3_Some.
  - apply filter_ext. intros r. now rewrite eq3_Some.
Qed.

(** The join after the order [n] and its lines are gone. *)
Lemma joinPurchase_without (s s' : Store) (n : Z) :
  purchaseOrders s'
  = filter (fun r => negb (PurchaseOrders.PurchaseOrderId r =? n)) (purchaseOrders s) ->
  purchaseOrderLines s'
  = filter (fun r => negb (PurchaseOrderLines.PurchaseOrderId r =? n))
           (purchaseOrderLines s) ->
  Statement.joinPurchase s'
  = filter (fun r => negb (PurchaseOrders.PurchaseOrderId (snd r) =? n))
           (Statement.joinPurchase s).
Proof.
  intros Eo El. unfold Statement.joinPurchase. rewrite Eo, El. clear Eo El.
  induction (purchaseOrderLines s) as [|l t IH]; [reflexivity|].
  cbn [flat_map]. rewrite filter_app, <- IH, filter_map_swap. cbn [snd filter].
  destruct (Z.eqb_spec (PurchaseOrderLines.PurchaseOrderId l) n) as [E|E];
    cbn [negb flat_map].
  - rewrite E.
    rewrite (filter_comm (fun x => negb (PurchaseOrders.PurchaseOrderId x =? n))).
    rewrite (filter_negb_self (fun x => PurchaseOrders.PurchaseOrderId x =? n)).
    reflexivity.
  - f_equal. f_equal.
    now rewrite (filter_comm (fun x => negb (PurchaseOrders.PurchaseOrderId x =? n))).
Qed.

(** X21.  With the id read and the database reached, DELETE
    /api/purchase-orders/:id answers { ok: true }, and the order is gone
    with its lines: what GET /api/purchase joins and sums afterwards is what
    it joined before without the rows of that order, so none of its lines
    counts any more and every other line counts as before; every line left
    still belongs to a stored order. *)
Theorem deleted_purchase_order_not_counted (id : string) (n : Z) (c : Conn) :
  reachable c = true -> readsAs (Some id) n ->
  fst (deletePurchaseOrder id c) = json Ok
  /\ Statement.joinPurchase (store (snd (deletePurchaseOrder id c)))
     = filter (fun r => negb (PurchaseOrders.PurchaseOrderId (snd r) =? n))
              (Statement.joinPurchase (store c))
  /\ (forall k,
        confirmedLines (store (snd (deletePurchaseOrder id c))) k
        = filter (fun r => negb (PurchaseOrders.PurchaseOrderId (snd r) =? n))
                 (confirmedLines (store c) k))
  /\ (linesHaveOrders (store c) ->
      linesHaveOrders (store (snd (deletePurchaseOrder id c))))
  /\ productionOrders (store (snd (deletePurchaseOrder id c)))
     = productionOrders (store c)
  /\ salesPlans (store (snd (deletePurchaseOrder id c))) = salesPlans (store c)
  /\ openingBalances (store (snd (deletePurchaseOrder id c)))
     = openingBalances (store c).
Proof.
  intros R Hid.
  rewrite (deletePurchaseOrder_runs id n c R Hid). cbn [fst snd store].
  split; [reflexivity|].
  match goal with
  | |- Statement.joinPurchase ?s' = _ /\ _ =>
      assert (J : Statement.joinPurchase s'
                  = filter (fun r => negb (PurchaseOrders.PurchaseOrderId (snd r) =? n))
                           (Statement.joinPurchase (store c)))
        by (apply joinPurchase_without; reflexivity)
  end.
  split; [exact J|]. split; [|split; [|repeat split]].
  - intros k. unfold confirmedLines. rewrite J. apply filter_comm.
  - intros H l Hl. cbn [purchaseOrderLines purchaseOrders] in *.
    apply filter_In in Hl as [Hl Nl].
    destruct (H l Hl) as (po & Hpo & E).
    exists po. split; [|exact E].
    apply filter_In. split; [exact Hpo|]. now rewrite E.
Qed.

Lemma deleted_purchase_order_not_counted_witness :
  fst (deletePurchaseOrder "2" (idle (seed CaseSensitive))) = json Ok
  /\ confirmedLines (store (snd (deletePurchaseOrder "2" (idle (seed CaseSensitive))))) (2, 2025, 49)
     = [].
Proof.
  destruct (deleted_purchase_order_not_counted "2" 2 (idle (seed CaseSensitive)))
    as (H1 & _ & H3 & _); [reflexivity | reads |].
  split; [exact H1|]. rewrite H3. reflexivity.
Defined.
